(** * Board-state synchronisation of react-ts-trello

    A shallow embedding of the client-side board store
    ([src/hooks/useBoardData.ts]), of the page handlers and the filter/sort
    view ([src/pages/Index.tsx], [hooks/useFilters]), of the section column
    ([components/board/BoardSection]) and of the REST routes the store talks
    to (the server's [routes/api] module), followed by the properties of the
    specification that were checked against them. *)

From Stdlib Require Import ZArith Lia Permutation Ascii Sorted.
From stdpp Require Import base strings list pretty.

Open Scope string_scope.
Open Scope Z_scope.

(** ** Data model ([src/types/board.ts]) *)

(** [type Priority = 'low' | 'normal' | 'high'] *)
Inductive Priority : Type := low | normal | high.

#[global] Instance Priority_eq_dec : EqDecision Priority.
Proof. solve_decision. Defined.

(** A JavaScript [Date]: a time value in milliseconds, or the invalid date
    that [new Date(undefined)] builds. *)
Inductive Date : Type :=
| DateMs (ms : Z)
| InvalidDate.

#[global] Instance Date_eq_dec : EqDecision Date.
Proof. solve_decision. Defined.

(** A time stamp as it crosses the wire: an ISO-8601 string, identified here
    with the instant it denotes; [None] is an absent field. *)
Definition IsoDate : Type := option Z.

(** [new Date(x)] for a wire value. *)
Definition new_Date (x : IsoDate) : Date :=
  match x with
  | Some ms => DateMs ms
  | None => InvalidDate
  end.

(** [d.getTime()]; [None] stands for NaN. *)
Definition getTime (d : Date) : option Z :=
  match d with
  | DateMs ms => Some ms
  | InvalidDate => None
  end.

(** [d.toISOString()] of a time value held by the database. *)
Definition toISOString (ms : Z) : IsoDate := Some ms.

Module UserLite.
Record t : Type := mk { id : string; name : string; email : string }.
End UserLite.

Module Comment.
Record t : Type := mk {
  id : string;
  text : string;
  createdAt : Date;
  author : option UserLite.t
}.
End Comment.

Module Card.
Record t : Type := mk {
  id : string;
  title : string;
  description : string;
  priority : Priority;
  executor : string;
  comments : list Comment.t;
  createdAt : Date;
  sectionId : string;
  assignees : option (list UserLite.t)
}.
End Card.

Module Section.
Record t : Type := mk {
  id : string;
  title : string;
  cards : list Card.t;
  canDelete : bool
}.
End Section.

Module Board.
Record t : Type := mk {
  id : string;
  title : string;
  sections : list Section.t
}.
End Board.

#[global] Instance UserLite_eq_dec : EqDecision UserLite.t.
Proof. solve_decision. Defined.
#[global] Instance Comment_eq_dec : EqDecision Comment.t.
Proof. solve_decision. Defined.
#[global] Instance Card_eq_dec : EqDecision Card.t.
Proof. solve_decision. Defined.
#[global] Instance Section_eq_dec : EqDecision Section.t.
Proof. solve_decision. Defined.
#[global] Instance Board_eq_dec : EqDecision Board.t.
Proof. solve_decision. Defined.

(** ** JSON bodies of the REST contract *)

Module CommentJson.
Record t : Type := mk {
  id : string;
  text : string;
  createdAt : IsoDate;
  author : option UserLite.t
}.
End CommentJson.

(** A card as the server serialises it.  [comments], [createdAt] and
    [assignees] are the fields the client treats as possibly absent. *)
Module CardJson.
Record t : Type := mk {
  id : string;
  title : string;
  description : string;
  priority : Priority;
  executor : string;
  comments : option (list CommentJson.t);
  createdAt : IsoDate;
  sectionId : string;
  assignees : option (list UserLite.t)
}.
End CardJson.

Module SectionJson.
Record t : Type := mk {
  id : string;
  title : string;
  cards : list CardJson.t;
  canDelete : bool
}.
End SectionJson.

(** The body of [POST sections]: [{ id, title, cards: [], canDelete }].  The
    route always sends an empty [cards] array, so the field is left out and
    the client-side cast [as Section] yields an empty card sequence. *)
Module NewSectionJson.
Record t : Type := mk {
  id : string;
  title : string;
  canDelete : bool
}.
End NewSectionJson.

Module BoardJson.
Record t : Type := mk {
  id : string;
  title : string;
  sections : list SectionJson.t
}.
End BoardJson.

(** Body of [POST card]: [{title, description, priority, executor}]. *)
Module CardDraft.
Record t : Type := mk {
  title : string;
  description : string;
  priority : Priority;
  executor : string
}.
End CardDraft.

(** Body of [PUT card]: the draft fields and the target [sectionId]. *)
Module CardUpdate.
Record t : Type := mk {
  title : string;
  description : string;
  priority : Priority;
  executor : string;
  sectionId : string
}.
End CardUpdate.

(** [{ id, title }] of a project. *)
Module ProjectJson.
Record t : Type := mk { id : string; title : string }.
End ProjectJson.

(** What a failed request carries: [{ message }] or a zod error object. *)
Inductive ErrorBody : Type :=
| Message (m : string)
| ZodError.

(** A [fetch] response.  [Success] is a response whose [ok] flag is set (a
    2xx status) carrying the body the route promises; [Failure] is any other
    response. *)
Inductive Response (A : Type) : Type :=
| Success (status : nat) (body : A)
| Failure (status : nat) (err : ErrorBody).
Arguments Success {A} status body.
Arguments Failure {A} status err.

Definition ok {A} (res : Response A) : bool :=
  match res with
  | Success _ _ => true
  | Failure _ _ => false
  end.

(** The requests of the board store, indexed by the body of their 2xx
    response. *)
Inductive Request : Type -> Type :=
| POST_projects (title : option string) : Request ProjectJson.t
| GET_board (projectId : string) : Request BoardJson.t
| POST_sections (projectId title : string) : Request NewSectionJson.t
| DELETE_section (projectId sectionId : string) : Request unit
| POST_section_clear (projectId sectionId : string) : Request SectionJson.t
| POST_sections_delete_all (projectId : string) : Request (list SectionJson.t)
| POST_assignees (projectId cardId userId : string) : Request (list UserLite.t)
| DELETE_assignee (projectId cardId userId : string) : Request (list UserLite.t)
| POST_cards (projectId sectionId : string) (draft : CardDraft.t) : Request CardJson.t
| PUT_card (projectId cardId : string) (payload : CardUpdate.t) : Request CardJson.t
| DELETE_card (projectId cardId : string) : Request unit
| POST_card_move (projectId cardId targetSectionId : string) : Request CardJson.t.

(** A request with its index hidden, for the log of issued calls. *)
Definition AnyRequest : Type := { A : Type & Request A }.

(** The remote collaborator as the store sees it: something that answers
    requests and may change while doing so. *)
Class Remote (R : Type) : Type :=
  handle : ∀ A, Request A → R → Response A * R.
Arguments handle {R _ A} req r.

(** ** The board store ([useBoardData]) *)

(** What a rejected promise carries. *)
Inductive Exn : Type :=
| Error (msg : string)
| TypeError.

Inductive Outcome (A : Type) : Type :=
| Resolved (a : A)
| Rejected (e : Exn).
Arguments Resolved {A} a.
Arguments Rejected {A} e.

Module Toast.
Record t : Type := mk { title : string; description : string }.
End Toast.

(** The state a component instance lives in: the remote collaborator, the
    browser location, the two [useState] cells of the hook, and the traces of
    the requests issued and of the toasts shown. *)
Record Store (R : Type) : Type := mkStore {
  remote : R;
  pathname : string;
  board : Board.t;
  loaded : bool;
  calls : list AnyRequest;
  toasts : list Toast.t
}.
Arguments mkStore {R}.
Arguments remote {R}.
Arguments pathname {R}.
Arguments board {R}.
Arguments loaded {R}.
Arguments calls {R}.
Arguments toasts {R}.

(** The board [useState] starts from. *)
Definition initial_board : Board.t :=
  Board.mk "main-board" EmptyString
    [ Section.mk "backlog" "Backlog" [] false;
      Section.mk "todo" "To Do" [] true;
      Section.mk "review" "Review" [] true;
      Section.mk "done" "Done" [] true ].

Definition mount {R} (r : R) (path : string) : Store R :=
  mkStore r path initial_board false [] [].

(** Computations of the store: they read and write the state and either
    resolve or reject. *)
Definition Client (R A : Type) : Type := Store R → Outcome A * Store R.

Definition ret {R A} (a : A) : Client R A := λ st, (Resolved a, st).

Definition throw {R A} (e : Exn) : Client R A := λ st, (Rejected e, st).

Definition bind {R A B} (m : Client R A) (k : A → Client R B) : Client R B :=
  λ st, match m st with
        | (Resolved a, st') => k a st'
        | (Rejected e, st') => (Rejected e, st')
        end.

Notation "'await' x ⇐ m ; k" := (bind m (λ x, k))
  (at level 100, x name, m at next level, k at level 200, right associativity,
   format "'[v' 'await'  x  ⇐  m ; '/' k ']'").
Notation "m ;; k" := (bind m (λ _, k))
  (at level 100, k at level 200, right associativity,
   format "'[v' m ;; '/' k ']'").

(** A call whose promise nobody awaits: a rejection goes unhandled.  The
    call is run to its end on the spot; nothing else runs in between in this
    single-threaded model. *)
Definition unawaited {R A} (m : Client R A) : Client R unit :=
  λ st, (Resolved (), snd (m st)).

(** [try { m } catch (e) { console.error(e) } finally { k }] *)
Definition try_finally {R} (m k : Client R unit) : Client R unit :=
  λ st, k (snd (m st)).

Definition setBoard {R} (f : Board.t → Board.t) : Client R unit :=
  λ st, (Resolved (),
         mkStore (remote st) (pathname st) (f (board st)) (loaded st) (calls st) (toasts st)).

Definition setLoaded {R} (b : bool) : Client R unit :=
  λ st, (Resolved (),
         mkStore (remote st) (pathname st) (board st) b (calls st) (toasts st)).

Definition getBoard {R} : Client R Board.t := λ st, (Resolved (board st), st).

Definition toast {R} (t : Toast.t) : Client R unit :=
  λ st, (Resolved (),
         mkStore (remote st) (pathname st) (board st) (loaded st) (calls st) ((toasts st ++ [t])%list)).

Definition fetch {R} `{Remote R} {A} (req : Request A) : Client R (Response A) :=
  λ st, let (res, r) := handle req (remote st) in
        (Resolved res,
         mkStore r (pathname st) (board st) (loaded st)
                 ((calls st ++ [existT A req])%list) (toasts st)).

(** [pathname.match(/^\/project\/([^\/]+)/)?.[1] || "default"] *)
Fixpoint strip_prefix (p s : string) : option string :=
  match p, s with
  | EmptyString, _ => Some s
  | String a p', String b s' => if Ascii.eqb a b then strip_prefix p' s' else None
  | String _ _, EmptyString => None
  end.

Fixpoint upto_slash (s : string) : string :=
  match s with
  | EmptyString => EmptyString
  | String c s' => if Ascii.eqb c "/"%char then EmptyString else String c (upto_slash s')
  end.

(** JavaScript truthiness of a string. *)
Definition truthy (s : string) : bool :=
  match s with
  | EmptyString => false
  | String _ _ => true
  end.

Definition projectId_of (path : string) : string :=
  match strip_prefix "/project/" path with
  | Some rest => if truthy (upto_slash rest) then upto_slash rest else "default"
  | None => "default"
  end.

Definition getProjectId {R} : Client R string :=
  λ st, (Resolved (projectId_of (pathname st)), st).

(** *** Reviving the dates of a fetched board *)

Definition revive_comment (cm : CommentJson.t) : Comment.t :=
  Comment.mk (CommentJson.id cm) (CommentJson.text cm)
             (new_Date (CommentJson.createdAt cm)) (CommentJson.author cm).

(** One card of [reviveBoardDates]; [c.comments.map] raises a [TypeError]
    ([None]) when the field is absent. *)
Definition revive_card (c : CardJson.t) : option Card.t :=
  cms ← CardJson.comments c;
  Some (Card.mk (CardJson.id c) (CardJson.title c) (CardJson.description c)
                (CardJson.priority c) (CardJson.executor c)
                (revive_comment <$> cms)
                (new_Date (CardJson.createdAt c))
                (CardJson.sectionId c) (CardJson.assignees c)).

Definition revive_section (s : SectionJson.t) : option Section.t :=
  cs ← mapM revive_card (SectionJson.cards s);
  Some (Section.mk (SectionJson.id s) (SectionJson.title s) cs (SectionJson.canDelete s)).

Definition reviveBoardDates (b : BoardJson.t) : option Board.t :=
  ss ← mapM revive_section (BoardJson.sections b);
  Some (Board.mk (BoardJson.id b) (BoardJson.title b) ss).

(** *** The merges handed to [setBoard] *)

(** [{ ...prev, sections }] and [{ ...s, cards }]. *)
Definition with_sections (prev : Board.t) (sections : list Section.t) : Board.t :=
  Board.mk (Board.id prev) (Board.title prev) sections.

Definition with_cards (s : Section.t) (cards : list Card.t) : Section.t :=
  Section.mk (Section.id s) (Section.title s) cards (Section.canDelete s).

(** [(await res.json()) as Section] *)
Definition as_Section (j : NewSectionJson.t) : Section.t :=
  Section.mk (NewSectionJson.id j) (NewSectionJson.title j) [] (NewSectionJson.canDelete j).

Definition addSection_merge (section : NewSectionJson.t) (prev : Board.t) : Board.t :=
  with_sections prev (Board.sections prev ++ [as_Section section]).

(** [{ ...c, assignees: data.assignees }] *)
Definition with_assignees (c : Card.t) (assignees : list UserLite.t) : Card.t :=
  Card.mk (Card.id c) (Card.title c) (Card.description c) (Card.priority c)
          (Card.executor c) (Card.comments c) (Card.createdAt c) (Card.sectionId c)
          (Some assignees).

Definition assign_merge (cardId : string) (assignees : list UserLite.t)
    (prev : Board.t) : Board.t :=
  with_sections prev
    ((λ s, with_cards s
             ((λ c, if decide (Card.id c = cardId) then with_assignees c assignees else c)
                <$> Section.cards s))
       <$> Board.sections prev).

(** [{ ...created, createdAt: new Date(created.createdAt), comments: [] }] *)
Definition created_card (created : CardJson.t) : Card.t :=
  Card.mk (CardJson.id created) (CardJson.title created) (CardJson.description created)
          (CardJson.priority created) (CardJson.executor created)
          []
          (new_Date (CardJson.createdAt created))
          (CardJson.sectionId created) (CardJson.assignees created).

Definition addCard_merge (sectionId : string) (created : CardJson.t)
    (prev : Board.t) : Board.t :=
  with_sections prev
    ((λ s, if decide (Section.id s = sectionId)
           then with_cards s (Section.cards s ++ [created_card created])
           else s)
       <$> Board.sections prev).

(** The object [updateCard] puts in the place of [c]:
    [createdAt: new Date(updated.createdAt ?? c.createdAt)] and
    [comments: updated.comments?.map(...) ?? c.comments]. *)
Definition updated_card (updated : CardJson.t) (c : Card.t) : Card.t :=
  Card.mk (CardJson.id updated) (CardJson.title updated) (CardJson.description updated)
          (CardJson.priority updated) (CardJson.executor updated)
          (match CardJson.comments updated with
           | Some cms => revive_comment <$> cms
           | None => Card.comments c
           end)
          (match CardJson.createdAt updated with
           | Some ms => new_Date (Some ms)
           | None => Card.createdAt c
           end)
          (CardJson.sectionId updated) (CardJson.assignees updated).

Definition updateCard_merge (card : Card.t) (updated : CardJson.t)
    (prev : Board.t) : Board.t :=
  with_sections prev
    ((λ s, with_cards s
             ((λ c, if decide (Card.id c = Card.id card) then updated_card updated c else c)
                <$> Section.cards s))
       <$> Board.sections prev).

Definition deleteCard_merge (cardId : string) (prev : Board.t) : Board.t :=
  with_sections prev
    ((λ s, with_cards s (filter (λ c, Card.id c ≠ cardId) (Section.cards s)))
       <$> Board.sections prev).

(** [{ ...moved, createdAt: new Date(moved.createdAt),
       comments: moved.comments?.map(...) ?? [] }] *)
Definition moved_card (moved : CardJson.t) : Card.t :=
  Card.mk (CardJson.id moved) (CardJson.title moved) (CardJson.description moved)
          (CardJson.priority moved) (CardJson.executor moved)
          (match CardJson.comments moved with
           | Some cms => revive_comment <$> cms
           | None => []
           end)
          (new_Date (CardJson.createdAt moved))
          (CardJson.sectionId moved) (CardJson.assignees moved).

Definition moveCard_merge (cardId targetSectionId : string) (moved : CardJson.t)
    (prev : Board.t) : Board.t :=
  (* remove from all sections then add to target *)
  let without :=
    (λ s, with_cards s (filter (λ c, Card.id c ≠ cardId) (Section.cards s)))
      <$> Board.sections prev in
  with_sections prev
    ((λ s, if decide (Section.id s = targetSectionId)
           then with_cards s (Section.cards s ++ [moved_card moved])
           else s)
       <$> without).

(** *** The operations the hook returns *)

Section BoardData.
Context {R : Type} `{!Remote R}.

(** [const b = await (await fetch(.../board)).json(); setBoard(reviveBoardDates(b))].
    The response is not checked: an error body has no [sections], and the
    revival raises a [TypeError] before [setBoard] is reached. *)
Definition refetch (projectId : string) : Client R unit :=
  await res ⇐ fetch (GET_board projectId);
  match res with
  | Success _ b =>
      match reviveBoardDates b with
      | Some b' => setBoard (λ _, b')
      | None => throw TypeError
      end
  | Failure _ _ => throw TypeError
  end.

(** The [useEffect] that loads the board on mount. *)
Definition load : Client R unit :=
  await projectId ⇐ getProjectId;
  try_finally (refetch projectId) (setLoaded true).

Definition addSection (title : string) : Client R unit :=
  await projectId ⇐ getProjectId;
  await res ⇐ fetch (POST_sections projectId title);
  match res with
  | Failure _ _ => throw (Error "Failed to create section")
  | Success _ section => setBoard (addSection_merge section)
  end.

Definition deleteSection (sectionId : string) : Client R unit :=
  await projectId ⇐ getProjectId;
  await res ⇐ fetch (DELETE_section projectId sectionId);
  match res with
  | Failure _ _ => throw (Error "Failed to delete section")
  | Success _ _ => refetch projectId
  end.

Definition clearSection (sectionId : string) : Client R unit :=
  await projectId ⇐ getProjectId;
  await res ⇐ fetch (POST_section_clear projectId sectionId);
  match res with
  | Failure _ _ => throw (Error "Failed to clear section")
  | Success _ _ => refetch projectId
  end.

Definition deleteAllSections : Client R unit :=
  await projectId ⇐ getProjectId;
  await res ⇐ fetch (POST_sections_delete_all projectId);
  match res with
  | Failure _ _ => throw (Error "Failed to delete all sections")
  | Success _ _ => refetch projectId
  end.

Definition assignUser (cardId userId : string) : Client R unit :=
  await projectId ⇐ getProjectId;
  await res ⇐ fetch (POST_assignees projectId cardId userId);
  match res with
  | Failure _ _ => throw (Error "Failed to assign user")
  | Success _ assignees => setBoard (assign_merge cardId assignees)
  end.

Definition unassignUser (cardId userId : string) : Client R unit :=
  await projectId ⇐ getProjectId;
  await res ⇐ fetch (DELETE_assignee projectId cardId userId);
  match res with
  | Failure _ _ => throw (Error "Failed to unassign user")
  | Success _ assignees => setBoard (assign_merge cardId assignees)
  end.

Definition addCard (sectionId : string) (card : Card.t) : Client R unit :=
  await projectId ⇐ getProjectId;
  await res ⇐ fetch (POST_cards projectId sectionId
                       (CardDraft.mk (Card.title card) (Card.description card)
                                     (Card.priority card) (Card.executor card)));
  match res with
  | Failure _ _ => throw (Error "Failed to add card")
  | Success _ created => setBoard (addCard_merge sectionId created)
  end.

Definition updateCard (card : Card.t) : Client R unit :=
  await projectId ⇐ getProjectId;
  await res ⇐ fetch (PUT_card projectId (Card.id card)
                       (CardUpdate.mk (Card.title card) (Card.description card)
                                      (Card.priority card) (Card.executor card)
                                      (Card.sectionId card)));
  match res with
  | Failure _ _ => throw (Error "Failed to update card")
  | Success _ updated => setBoard (updateCard_merge card updated)
  end.

Definition deleteCard (cardId : string) : Client R unit :=
  await projectId ⇐ getProjectId;
  await res ⇐ fetch (DELETE_card projectId cardId);
  match res with
  | Failure _ _ => throw (Error "Failed to delete card")
  | Success _ _ => setBoard (deleteCard_merge cardId)
  end.

Definition moveCard (cardId targetSectionId : string) : Client R unit :=
  await projectId ⇐ getProjectId;
  await res ⇐ fetch (POST_card_move projectId cardId targetSectionId);
  match res with
  | Failure _ _ => throw (Error "Failed to move card")
  | Success _ moved => setBoard (moveCard_merge cardId targetSectionId moved)
  end.

End BoardData.

(** The mutation operations of the store, as data. *)
Inductive Mutation : Type :=
| AddSection (title : string)
| DeleteSection (sectionId : string)
| ClearSection (sectionId : string)
| DeleteAllSections
| AddCard (sectionId : string) (card : Card.t)
| UpdateCard (card : Card.t)
| DeleteCard (cardId : string)
| MoveCard (cardId targetSectionId : string)
| AssignUser (cardId userId : string)
| UnassignUser (cardId userId : string).

Definition perform {R} `{!Remote R} (m : Mutation) : Client R unit :=
  match m with
  | AddSection title => addSection title
  | DeleteSection sectionId => deleteSection sectionId
  | ClearSection sectionId => clearSection sectionId
  | DeleteAllSections => deleteAllSections
  | AddCard sectionId card => addCard sectionId card
  | UpdateCard card => updateCard card
  | DeleteCard cardId => deleteCard cardId
  | MoveCard cardId targetSectionId => moveCard cardId targetSectionId
  | AssignUser cardId userId => assignUser cardId userId
  | UnassignUser cardId userId => unassignUser cardId userId
  end.

(** The remote call a mutation starts with. *)
Definition remote_call (projectId : string) (m : Mutation) : AnyRequest :=
  match m with
  | AddSection title => existT _ (POST_sections projectId title)
  | DeleteSection sectionId => existT _ (DELETE_section projectId sectionId)
  | ClearSection sectionId => existT _ (POST_section_clear projectId sectionId)
  | DeleteAllSections => existT _ (POST_sections_delete_all projectId)
  | AddCard sectionId card =>
      existT _ (POST_cards projectId sectionId
                  (CardDraft.mk (Card.title card) (Card.description card)
                                (Card.priority card) (Card.executor card)))
  | UpdateCard card =>
      existT _ (PUT_card projectId (Card.id card)
                  (CardUpdate.mk (Card.title card) (Card.description card)
                                 (Card.priority card) (Card.executor card)
                                 (Card.sectionId card)))
  | DeleteCard cardId => existT _ (DELETE_card projectId cardId)
  | MoveCard cardId targetSectionId =>
      existT _ (POST_card_move projectId cardId targetSectionId)
  | AssignUser cardId userId => existT _ (POST_assignees projectId cardId userId)
  | UnassignUser cardId userId => existT _ (DELETE_assignee projectId cardId userId)
  end.

(** ** Filters ([useFilters]) *)

(** [sortBy]; [sort_unrecognised] is any other run-time value, which the
    [switch] sends to its [default] branch. *)
Inductive SortBy : Type :=
| sort_date
| sort_priority_low_high
| sort_priority_high_low
| sort_priority_normal_first
| sort_unrecognised.

Module FilterState.
Record t : Type := mk {
  priorities : list Priority;
  executors : list string;
  multiFilter : bool;
  sortBy : SortBy
}.
End FilterState.

Definition initial_filters : FilterState.t := FilterState.mk [] [] false sort_date.

Definition togglePriority (p : Priority) (prev : FilterState.t) : FilterState.t :=
  FilterState.mk
    (if bool_decide (p ∈ FilterState.priorities prev)
     then filter (λ q, q ≠ p) (FilterState.priorities prev)
     else FilterState.priorities prev ++ [p])
    (FilterState.executors prev) (FilterState.multiFilter prev) (FilterState.sortBy prev).

Definition toggleExecutor (e : string) (prev : FilterState.t) : FilterState.t :=
  FilterState.mk
    (FilterState.priorities prev)
    (if bool_decide (e ∈ FilterState.executors prev)
     then filter (λ x, x ≠ e) (FilterState.executors prev)
     else FilterState.executors prev ++ [e])
    (FilterState.multiFilter prev) (FilterState.sortBy prev).

Definition hasActiveFilters (filters : FilterState.t) : bool :=
  (0 <? length (FilterState.priorities filters))%nat
  || (0 <? length (FilterState.executors filters))%nat.

(** ** The filter/sort view ([getFilteredAndSortedCards]) *)

(** [const priorityOrder = { low: 1, normal: 2, high: 3 }] *)
Definition priorityOrder (p : Priority) : Z :=
  match p with
  | low => 1
  | normal => 2
  | high => 3
  end.

(** The predicate handed to [cards.filter]. *)
Definition card_matches (filters : FilterState.t) (card : Card.t) : bool :=
  let priorityMatch :=
    (length (FilterState.priorities filters) =? 0)%nat
    || bool_decide (Card.priority card ∈ FilterState.priorities filters) in
  let executorMatch :=
    (length (FilterState.executors filters) =? 0)%nat
    || bool_decide (Card.executor card ∈ FilterState.executors filters) in
  if FilterState.multiFilter filters
  then priorityMatch && executorMatch
  else priorityMatch || executorMatch.

(** The four comparators.  A difference of time values that is NaN counts as
    zero, as [Array.prototype.sort] takes it. *)
Definition by_date (a b : Card.t) : Z :=
  match getTime (Card.createdAt a), getTime (Card.createdAt b) with
  | Some x, Some y => x - y
  | _, _ => 0
  end.

Definition by_priority_low_high (a b : Card.t) : Z :=
  priorityOrder (Card.priority a) - priorityOrder (Card.priority b).

Definition by_priority_high_low (a b : Card.t) : Z :=
  priorityOrder (Card.priority b) - priorityOrder (Card.priority a).

Definition by_priority_normal_first (a b : Card.t) : Z :=
  if bool_decide (Card.priority a = normal) && bool_decide (Card.priority b ≠ normal)
  then -1
  else if bool_decide (Card.priority a ≠ normal) && bool_decide (Card.priority b = normal)
  then 1
  else priorityOrder (Card.priority a) - priorityOrder (Card.priority b).

(** [Array.prototype.sort] is a stable sort: an element goes in front of the
    first later element it does not compare greater than.  (For a comparator
    that is not a consistent order, which [by_date] is only when invalid
    dates are mixed with valid ones, the language leaves the order to the
    implementation; this is one such order.) *)
Fixpoint sort_insert {A} (cmp : A → A → Z) (x : A) (l : list A) : list A :=
  match l with
  | [] => [x]
  | y :: l' => if cmp x y <=? 0 then x :: y :: l' else y :: sort_insert cmp x l'
  end.

Definition array_sort {A} (cmp : A → A → Z) (l : list A) : list A :=
  foldr (sort_insert cmp) [] l.

Definition comparator (sortBy : SortBy) : option (Card.t → Card.t → Z) :=
  match sortBy with
  | sort_date => Some by_date
  | sort_priority_low_high => Some by_priority_low_high
  | sort_priority_high_low => Some by_priority_high_low
  | sort_priority_normal_first => Some by_priority_normal_first
  | sort_unrecognised => None
  end.

(** The array [getFilteredAndSortedCards] returns, as a function of the
    contents of its argument.  The test the source writes out before
    filtering is the one of [hasActiveFilters]. *)
Definition getFilteredAndSortedCards (filters : FilterState.t)
    (cards : list Card.t) : list Card.t :=
  let filtered :=
    if hasActiveFilters filters
    then List.filter (card_matches filters) cards
    else cards in
  match comparator (FilterState.sortBy filters) with
  | Some cmp => array_sort cmp filtered
  | None => filtered
  end.

(** [filteredBoard], on values. *)
Definition filteredBoard (filters : FilterState.t) (board : Board.t) : Board.t :=
  with_sections board
    ((λ section, with_cards section
                   (getFilteredAndSortedCards filters (Section.cards section)))
       <$> Board.sections board).

(** *** The view on arrays with identity

    [sort] reorders the array it is called on.  To see what the view does to
    the arrays of the store, arrays live in a heap and are named by their
    address; section and card objects are never assigned to and stay
    values. *)

Module SectionObj.
Record t : Type := mk {
  id : string;
  title : string;
  cards : nat;
  canDelete : bool
}.
End SectionObj.

Module BoardObj.
Record t : Type := mk {
  id : string;
  title : string;
  sections : nat
}.
End BoardObj.

Inductive Cell : Type :=
| CardArray (a : list Card.t)
| SectionArray (a : list SectionObj.t).

Abbreviation Heap := (list Cell).

(** A fresh array takes the next address. *)
Definition alloc (c : Cell) (h : Heap) : nat * Heap := (length h, (h ++ [c])%list).

Definition cards_at (h : Heap) (r : nat) : list Card.t :=
  match h !! r with
  | Some (CardArray a) => a
  | _ => []
  end.

Definition sections_at (h : Heap) (r : nat) : list SectionObj.t :=
  match h !! r with
  | Some (SectionArray a) => a
  | _ => []
  end.

(** [arr.sort(cmp)]: the array at [r] is overwritten with its sorted
    contents, and [r] itself is the result. *)
Definition sort_in_place (cmp : Card.t → Card.t → Z) (r : nat) (h : Heap) : nat * Heap :=
  (r, <[r := CardArray (array_sort cmp (cards_at h r))]> h).

Definition getFilteredAndSortedCards_at (filters : FilterState.t)
    (cards : nat) (h : Heap) : nat * Heap :=
  (* let filtered = [...cards]; *)
  let (filtered, h) := alloc (CardArray (cards_at h cards)) h in
  let (filtered, h) :=
    if hasActiveFilters filters
    then alloc (CardArray (List.filter (card_matches filters) (cards_at h cards))) h
    else (filtered, h) in
  match comparator (FilterState.sortBy filters) with
  | Some cmp => sort_in_place cmp filtered h
  | None => (filtered, h)
  end.

(** [sections.map(section => ({ ...section, cards: view(section.cards) }))],
    the callback run on the elements from left to right. *)
Fixpoint map_sections_at (filters : FilterState.t) (ss : list SectionObj.t)
    (h : Heap) : list SectionObj.t * Heap :=
  match ss with
  | [] => ([], h)
  | section :: rest =>
      let (cards, h) := getFilteredAndSortedCards_at filters (SectionObj.cards section) h in
      let (rest', h) := map_sections_at filters rest h in
      (SectionObj.mk (SectionObj.id section) (SectionObj.title section) cards
                     (SectionObj.canDelete section) :: rest', h)
  end.

Definition filteredBoard_at (filters : FilterState.t) (board : BoardObj.t)
    (h : Heap) : BoardObj.t * Heap :=
  let (ss, h) := map_sections_at filters (sections_at h (BoardObj.sections board)) h in
  let (sections, h) := alloc (SectionArray ss) h in
  (BoardObj.mk (BoardObj.id board) (BoardObj.title board) sections, h).

(** The value a board object stands for in a heap. *)
Definition section_value (h : Heap) (s : SectionObj.t) : Section.t :=
  Section.mk (SectionObj.id s) (SectionObj.title s) (cards_at h (SectionObj.cards s))
             (SectionObj.canDelete s).

Definition board_value (h : Heap) (b : BoardObj.t) : Board.t :=
  Board.mk (BoardObj.id b) (BoardObj.title b)
           (section_value h <$> sections_at h (BoardObj.sections b)).

(** ** Page handlers ([pages/Index.tsx]) *)

Module DragEndEvent.
Record t : Type := mk { active : string; over : option string }.
End DragEndEvent.

(** The double quote of the toast texts. *)
Definition dq : string := String (ascii_of_nat 34) EmptyString.

(** [board.sections.find((s) => s.cards.some((c) => c.id === cardId))] *)
Definition currentSection (board : Board.t) (cardId : string) : option Section.t :=
  List.find (λ s, existsb (λ c, bool_decide (Card.id c = cardId)) (Section.cards s))
            (Board.sections board).

(** [board.sections.find((s) => s.id === dropId)] *)
Definition targetSection (board : Board.t) (dropId : string) : option Section.t :=
  List.find (λ s, bool_decide (Section.id s = dropId)) (Board.sections board).

(** [!x] for [x : string | undefined]. *)
Definition falsy (x : option string) : bool :=
  match x with
  | Some s => negb (truthy s)
  | None => true
  end.

Section Index.
Context {R : Type} `{!Remote R}.

Definition handleDragEnd (event : DragEndEvent.t) : Client R unit :=
  match DragEndEvent.over event with
  | None => ret ()
  | Some dropId =>
      let cardId := DragEndEvent.active event in
      await board ⇐ getBoard;
      (* Find the section that currently contains the card *)
      let currentSectionId := Section.id <$> currentSection board cardId in
      (* Only allow moves when dropping onto a section, not onto a card *)
      let targetSectionId := Section.id <$> targetSection board dropId in
      (* If not dropped on a valid section or no change, do nothing *)
      if falsy targetSectionId || bool_decide (targetSectionId = currentSectionId)
      then ret ()
      else
        match targetSection board dropId with
        | Some target =>
            unawaited (moveCard cardId (Section.id target));;
            toast (Toast.mk "Card moved"
                            ("Card moved to " ++ dq ++ Section.title target ++ dq))
        | None => ret ()
        end
  end.

Definition handleCardDelete (cardId : string) : Client R unit :=
  unawaited (deleteCard cardId);;
  toast (Toast.mk "Card deleted" "Card has been removed from the board").

Definition handleDeleteSection (sectionId : string) : Client R unit :=
  await board ⇐ getBoard;
  match List.find (λ s, bool_decide (Section.id s = sectionId)) (Board.sections board) with
  | Some section =>
      if Section.canDelete section
      then
        unawaited (deleteSection sectionId);;
        toast (Toast.mk "Section deleted"
                        (dq ++ Section.title section ++ dq
                            ++ " section and its cards moved to Backlog"))
      else ret ()
  | None => ret ()
  end.

Definition handleClearSection (sectionId : string) : Client R unit :=
  (* [board] is the board of the render the handler was created in *)
  await board ⇐ getBoard;
  unawaited (clearSection sectionId);;
  let title :=
    match List.find (λ s, bool_decide (Section.id s = sectionId)) (Board.sections board) with
    | Some section => Section.title section
    | None => "undefined"
    end in
  toast (Toast.mk "Section cleared"
                  ("All cards from " ++ dq ++ title ++ dq ++ " moved to Backlog")).

Definition handleDeleteAllSections : Client R unit :=
  unawaited deleteAllSections;;
  toast (Toast.mk "All sections deleted"
                  "All custom sections deleted, cards moved to Backlog").

End Index.

(** ** The section column ([components/board/BoardSection]) *)

Inductive MenuItem : Type :=
| ClearSectionItem
| DeleteSectionItem.

#[global] Instance MenuItem_eq_dec : EqDecision MenuItem.
Proof. solve_decision. Defined.

(** The items of the column's dropdown menu: "Clear Section" always, and
    "Delete Section" under [{section.canDelete && ...}]. *)
Definition section_menu (section : Section.t) : list MenuItem :=
  ClearSectionItem :: (if Section.canDelete section then [DeleteSectionItem] else []).

(** The [onClick] of an item. *)
Definition click {R} `{!Remote R} (section : Section.t) (item : MenuItem) : Client R unit :=
  match item with
  | ClearSectionItem => handleClearSection (Section.id section)
  | DeleteSectionItem => handleDeleteSection (Section.id section)
  end.

(** ** The remote collaborator (the server's [routes/api] module)

    The tables of the database are lists of rows in insertion order.  The
    identifiers and time stamps the database client draws for new rows are
    read off two streams held by the state.  Path parameters are opaque
    non-empty strings free of URL meta characters. *)

Module ProjectRow.
Record t : Type := mk { id : string; title : string }.
End ProjectRow.

Module SectionRow.
Record t : Type := mk {
  id : string;
  title : string;
  canDelete : bool;
  projectId : string
}.
End SectionRow.

Module CardRow.
Record t : Type := mk {
  id : string;
  title : string;
  description : string;
  priority : Priority;
  executor : string;
  createdAt : Z;
  sectionId : string
}.
End CardRow.

Module CommentRow.
Record t : Type := mk {
  id : string;
  text : string;
  createdAt : Z;
  cardId : string;
  authorId : string
}.
End CommentRow.

Module Prisma.

Record t : Type := mk {
  projects : list ProjectRow.t;
  sections : list SectionRow.t;
  cards : list CardRow.t;
  comments : list CommentRow.t;
  users : list UserLite.t;
  (* the join table _CardAssignees: (card id, user id) *)
  cardAssignees : list (string * string);
  genId : nat → string;
  clock : nat → Z;
  tick : nat
}.

Definition empty (genId : nat → string) (clock : nat → Z) : t :=
  mk [] [] [] [] [] [] genId clock 0.

Definition with_tables (db : t) (ps : list ProjectRow.t) (ss : list SectionRow.t)
    (cs : list CardRow.t) (cms : list CommentRow.t) (ca : list (string * string)) : t :=
  mk ps ss cs cms (users db) ca (genId db) (clock db) (tick db).

(** Drawing the next identifier (and with it the next time stamp). *)
Definition bump (n : nat) (db : t) : t :=
  mk (projects db) (sections db) (cards db) (comments db) (users db)
     (cardAssignees db) (genId db) (clock db) (tick db + n)%nat.

Definition mem (x : string) (l : list string) : bool := bool_decide (x ∈ l).

(** [orderBy: { title: 'asc' }] and [orderBy: { createdAt: 'asc' }]; rows that
    tie keep their table order. *)
Definition by_title (a b : SectionRow.t) : Z :=
  match String.compare (SectionRow.title a) (SectionRow.title b) with
  | Lt => -1
  | Eq => 0
  | Gt => 1
  end.

Definition by_createdAt (a b : CardRow.t) : Z :=
  CardRow.createdAt a - CardRow.createdAt b.

(** [prisma.section.findFirst({ where: { id, projectId } })] *)
Definition findSectionById (db : t) (projectId sectionId : string) : option SectionRow.t :=
  List.find (λ s, bool_decide (SectionRow.id s = sectionId)
                  && bool_decide (SectionRow.projectId s = projectId))
            (sections db).

Definition findCard (db : t) (cardId : string) : option CardRow.t :=
  List.find (λ c, bool_decide (CardRow.id c = cardId)) (cards db).

(** The relation filter [section: { projectId }] on cards. *)
Definition card_in_project (db : t) (projectId : string) (c : CardRow.t) : bool :=
  existsb (λ s, bool_decide (SectionRow.id s = CardRow.sectionId c)
                && bool_decide (SectionRow.projectId s = projectId))
          (sections db).

(** [include: { comments: true }], serialised as [{ id, text, createdAt }]. *)
Definition comments_json (db : t) (cardId : string) : list CommentJson.t :=
  (λ cm, CommentJson.mk (CommentRow.id cm) (CommentRow.text cm)
                        (toISOString (CommentRow.createdAt cm)) None)
    <$> List.filter (λ cm, bool_decide (CommentRow.cardId cm = cardId)) (comments db).

(** [include: { assignees: { select: { id, name, email } } }].  The query
    names no order; the rows are listed here in the order of the user
    table, where the database may answer in another (by user identifier).
    Nothing below depends on the order of this list. *)
Definition assignees_of (db : t) (cardId : string) : list UserLite.t :=
  List.filter (λ u, bool_decide ((cardId, UserLite.id u) ∈ cardAssignees db)) (users db).

(** A card row with its comments and assignees, as the board, update and
    move routes serialise it. *)
Definition card_json (db : t) (c : CardRow.t) : CardJson.t :=
  CardJson.mk (CardRow.id c) (CardRow.title c) (CardRow.description c)
              (CardRow.priority c) (CardRow.executor c)
              (Some (comments_json db (CardRow.id c)))
              (toISOString (CardRow.createdAt c))
              (CardRow.sectionId c)
              (Some (assignees_of db (CardRow.id c))).

(** Deleting cards takes their comments and their rows of the join table
    with them ([ON DELETE CASCADE]). *)
Definition delete_cards (ids : list string) (db : t) : t :=
  with_tables db (projects db) (sections db)
    (List.filter (λ c, negb (mem (CardRow.id c) ids)) (cards db))
    (List.filter (λ cm, negb (mem (CommentRow.cardId cm) ids)) (comments db))
    (List.filter (λ p, negb (mem (fst p) ids)) (cardAssignees db)).

(** Deleting sections takes the cards that still point at them with them. *)
Definition delete_sections (ids : list string) (db : t) : t :=
  let db' :=
    with_tables db (projects db)
      (List.filter (λ s, negb (mem (SectionRow.id s) ids)) (sections db))
      (cards db) (comments db) (cardAssignees db) in
  delete_cards
    (CardRow.id <$> List.filter (λ c, mem (CardRow.sectionId c) ids) (cards db))
    db'.

(** [prisma.section.create]: the primary key rejects a duplicate. *)
Definition create_section (s : SectionRow.t) (db : t) : option t :=
  if mem (SectionRow.id s) (SectionRow.id <$> sections db) then None
  else Some (with_tables db (projects db) (sections db ++ [s]) (cards db)
                         (comments db) (cardAssignees db)).

Definition create_card (c : CardRow.t) (db : t) : option t :=
  if mem (CardRow.id c) (CardRow.id <$> cards db) then None
  else Some (with_tables db (projects db) (sections db) (cards db ++ [c])
                         (comments db) (cardAssignees db)).

Definition create_project (p : ProjectRow.t) (db : t) : option t :=
  if mem (ProjectRow.id p) (ProjectRow.id <$> projects db) then None
  else Some (with_tables db (projects db ++ [p]) (sections db) (cards db)
                         (comments db) (cardAssignees db)).

(** [prisma.card.update({ where: { id }, data: { ..., sectionId } })]: fails
    when no row has the id or when the foreign key finds no section. *)
Definition update_card (cardId : string) (f : CardRow.t → CardRow.t) (db : t)
    : option (CardRow.t * t) :=
  c ← findCard db cardId;
  if mem (CardRow.sectionId (f c)) (SectionRow.id <$> sections db)
  then Some (f c,
             with_tables db (projects db) (sections db)
               ((λ c', if bool_decide (CardRow.id c' = cardId) then f c' else c')
                  <$> cards db)
               (comments db) (cardAssignees db))
  else None.

End Prisma.

(** *** Route handlers *)

Module Api.
Import Prisma.

Definition Handler (A : Type) : Type := Prisma.t → Response A * Prisma.t.

Definition section_row_json (s : SectionRow.t) (cards : list CardJson.t) : SectionJson.t :=
  SectionJson.mk (SectionRow.id s) (SectionRow.title s) cards (SectionRow.canDelete s).

(** [router.post('/projects')]: the project, then its four default sections
    in one transaction. *)
Definition seed_sections (projectId : string) (db : Prisma.t) : option Prisma.t :=
  db ← create_section (SectionRow.mk (genId db (tick db)) "Backlog" false projectId) db;
  db ← create_section (SectionRow.mk (genId db (tick db + 1)%nat) "To Do" true projectId) db;
  db ← create_section (SectionRow.mk (genId db (tick db + 2)%nat) "Review" true projectId) db;
  create_section (SectionRow.mk (genId db (tick db + 3)%nat) "Done" true projectId) db.

Definition post_projects (title : option string) : Handler ProjectJson.t := λ db,
  let title' :=
    match title with
    | Some s => if truthy s then s else "project-" ++ pretty (clock db (tick db))
    | None => "project-" ++ pretty (clock db (tick db))
    end in
  let proj := ProjectRow.mk (genId db (tick db)) title' in
  match create_project proj (bump 1 db) with
  | None => (Failure 500 (Message "Failed to create project"), bump 1 db)
  | Some db1 =>
      match seed_sections (ProjectRow.id proj) db1 with
      | None => (Failure 500 (Message "Failed to create project"), bump 4 db1)
      | Some db2 =>
          (Success 201 (ProjectJson.mk (ProjectRow.id proj) (ProjectRow.title proj)),
           bump 4 db2)
      end
  end.

(** [router.get('/projects/:projectId/board')] *)
Definition get_board (projectId : string) : Handler BoardJson.t := λ db,
  match List.find (λ p, bool_decide (ProjectRow.id p = projectId)) (projects db) with
  | None => (Failure 404 (Message "Project not found"), db)
  | Some project =>
      let sections :=
        array_sort by_title
          (List.filter (λ s, bool_decide (SectionRow.projectId s = projectId)) (sections db)) in
      let cards :=
        array_sort by_createdAt (List.filter (card_in_project db projectId) (cards db)) in
      let bySection (sectionId : string) : list CardJson.t :=
        card_json db
          <$> List.filter (λ c, bool_decide (CardRow.sectionId c = sectionId)) cards in
      (Success 200
         (BoardJson.mk (projectId ++ "-board") (ProjectRow.title project)
            ((λ s, section_row_json s (bySection (SectionRow.id s))) <$> sections)),
       db)
  end.

(** [router.post('/projects/:projectId/sections')] *)
Definition post_sections (projectId title : string) : Handler NewSectionJson.t := λ db,
  if negb (truthy title) then (Failure 400 ZodError, db)
  else
    match List.find (λ p, bool_decide (ProjectRow.id p = projectId)) (projects db) with
    | None => (Failure 404 (Message "Project not found"), db)
    | Some _ =>
        let created := SectionRow.mk (genId db (tick db)) title true projectId in
        match create_section created (bump 1 db) with
        | None => (Failure 500 (Message "Failed to create section"), bump 1 db)
        | Some db' =>
            (Success 201 (NewSectionJson.mk (SectionRow.id created) (SectionRow.title created)
                                            (SectionRow.canDelete created)),
             db')
        end
    end.

(** [router.delete('/projects/:projectId/sections/:id')] *)
Definition delete_section (projectId id : string) : Handler unit := λ db,
  match findSectionById db projectId id with
  | None => (Failure 404 (Message "Section not found"), db)
  | Some section =>
      if negb (SectionRow.canDelete section)
      then (Failure 400 (Message "Backlog cannot be deleted"), db)
      else
        (* Delete all cards (and their comments) that belong to this section,
           then delete the section *)
        let cardIds :=
          CardRow.id <$> List.filter (λ c, bool_decide (CardRow.sectionId c = id)) (cards db) in
        (Success 200 (), delete_sections [id] (delete_cards cardIds db))
  end.

(** [router.post('/projects/:projectId/sections/:id/clear')] *)
Definition post_section_clear (projectId id : string) : Handler SectionJson.t := λ db,
  match findSectionById db projectId id with
  | None => (Failure 404 (Message "Section not found"), db)
  | Some section =>
      (* Hard-delete all cards in the section and their comments *)
      let cardIds :=
        CardRow.id <$> List.filter (λ c, bool_decide (CardRow.sectionId c = id)) (cards db) in
      (Success 200 (section_row_json section []),
       if (0 <? length cardIds)%nat then delete_cards cardIds db else db)
  end.

(** [router.post('/projects/:projectId/sections/delete-all')] *)
Definition post_sections_delete_all (projectId : string) : Handler (list SectionJson.t) := λ db,
  let sections :=
    List.filter (λ s, bool_decide (SectionRow.projectId s = projectId)) (sections db) in
  match List.find (λ s, bool_decide (SectionRow.title s = "Backlog")) sections with
  | None => (Failure 400 (Message "Backlog section missing"), db)
  | Some backlog =>
      let deletable := SectionRow.id <$> List.filter SectionRow.canDelete sections in
      let moved :=
        with_tables db (projects db) (Prisma.sections db)
          ((λ c, if mem (CardRow.sectionId c) deletable
                 then CardRow.mk (CardRow.id c) (CardRow.title c) (CardRow.description c)
                                 (CardRow.priority c) (CardRow.executor c)
                                 (CardRow.createdAt c) (SectionRow.id backlog)
                 else c)
             <$> cards db)
          (comments db) (cardAssignees db) in
      (Success 200 [section_row_json backlog []], delete_sections deletable moved)
  end.

(** [router.post('/projects/:projectId/sections/:sectionId/cards')] *)
Definition post_cards (projectId sectionId : string) (draft : CardDraft.t)
    : Handler CardJson.t := λ db,
  if negb (truthy (CardDraft.title draft)) then (Failure 400 ZodError, db)
  else
    match findSectionById db projectId sectionId with
    | None => (Failure 404 (Message "Section not found"), db)
    | Some _ =>
        let created :=
          CardRow.mk (genId db (tick db)) (CardDraft.title draft)
                     (CardDraft.description draft) (CardDraft.priority draft)
                     (CardDraft.executor draft) (clock db (tick db)) sectionId in
        match create_card created (bump 1 db) with
        | None => (Failure 500 (Message "Failed to add card"), bump 1 db)
        | Some db' =>
            (Success 201
               (CardJson.mk (CardRow.id created) (CardRow.title created)
                            (CardRow.description created) (CardRow.priority created)
                            (CardRow.executor created) (Some [])
                            (toISOString (CardRow.createdAt created))
                            (CardRow.sectionId created) None),
             db')
        end
    end.

(** [router.put('/projects/:projectId/cards/:cardId')] *)
Definition put_card (projectId cardId : string) (payload : CardUpdate.t)
    : Handler CardJson.t := λ db,
  if negb (truthy (CardUpdate.title payload)) then (Failure 400 ZodError, db)
  else
    (* validate target section if provided *)
    if truthy (CardUpdate.sectionId payload)
       && negb (bool_decide
                  (is_Some (findSectionById db projectId (CardUpdate.sectionId payload))))
    then (Failure 400 (Message "Target section not found"), db)
    else
      match update_card cardId
              (λ c, CardRow.mk (CardRow.id c) (CardUpdate.title payload)
                               (CardUpdate.description payload) (CardUpdate.priority payload)
                               (CardUpdate.executor payload) (CardRow.createdAt c)
                               (CardUpdate.sectionId payload))
              db with
      | None => (Failure 404 (Message "Card not found"), db)
      | Some (updated, db') => (Success 200 (card_json db' updated), db')
      end.

(** [router.delete('/projects/:projectId/cards/:cardId')] *)
Definition delete_card (projectId cardId : string) : Handler unit := λ db,
  let db1 :=
    with_tables db (projects db) (sections db) (cards db)
      (List.filter (λ cm, negb (bool_decide (CommentRow.cardId cm = cardId))) (comments db))
      (cardAssignees db) in
  match findCard db1 cardId with
  | None => (Failure 404 (Message "Card not found"), db1)
  | Some _ => (Success 200 (), delete_cards [cardId] db1)
  end.

(** [router.post('/projects/:projectId/cards/:cardId/move')] *)
Definition post_card_move (projectId cardId targetSectionId : string)
    : Handler CardJson.t := λ db,
  if negb (truthy targetSectionId) then (Failure 400 ZodError, db)
  else
    match findSectionById db projectId targetSectionId with
    | None => (Failure 400 (Message "Target section not found"), db)
    | Some to =>
        match update_card cardId
                (λ c, CardRow.mk (CardRow.id c) (CardRow.title c) (CardRow.description c)
                                 (CardRow.priority c) (CardRow.executor c)
                                 (CardRow.createdAt c) (SectionRow.id to))
                db with
        | None => (Failure 404 (Message "Card not found"), db)
        | Some (moved, db') => (Success 200 (card_json db' moved), db')
        end
    end.

(** [router.post('/projects/:projectId/cards/:cardId/assignees')] *)
Definition post_assignees (projectId cardId userId : string)
    : Handler (list UserLite.t) := λ db,
  if negb (truthy userId) then (Failure 400 ZodError, db)
  else
    match List.find (λ c, bool_decide (CardRow.id c = cardId) && card_in_project db projectId c)
                    (cards db) with
    | None => (Failure 404 (Message "Card not found"), db)
    | Some _ =>
        (* connect: the user has to exist; a pair already there stays single *)
        if mem userId (UserLite.id <$> users db)
        then
          let db' :=
            if bool_decide ((cardId, userId) ∈ cardAssignees db) then db
            else with_tables db (projects db) (sections db) (cards db) (comments db)
                             (cardAssignees db ++ [(cardId, userId)]) in
          (Success 201 (assignees_of db' cardId), db')
        else (Failure 500 (Message "Failed to assign user"), db)
    end.

(** [router.delete('/projects/:projectId/cards/:cardId/assignees/:userId')] *)
Definition delete_assignee (projectId cardId userId : string)
    : Handler (list UserLite.t) := λ db,
  match List.find (λ c, bool_decide (CardRow.id c = cardId) && card_in_project db projectId c)
                  (cards db) with
  | None => (Failure 404 (Message "Card not found"), db)
  | Some _ =>
      let db' :=
        with_tables db (projects db) (sections db) (cards db) (comments db)
          (List.filter (λ p, negb (bool_decide (p = (cardId, userId)))) (cardAssignees db)) in
      (Success 200 (assignees_of db' cardId), db')
  end.

(** The router. *)
Definition route {A} (req : Request A) : Handler A :=
  match req in Request A return Handler A with
  | POST_projects title => post_projects title
  | GET_board projectId => get_board projectId
  | POST_sections projectId title => post_sections projectId title
  | DELETE_section projectId id => delete_section projectId id
  | POST_section_clear projectId id => post_section_clear projectId id
  | POST_sections_delete_all projectId => post_sections_delete_all projectId
  | POST_assignees projectId cardId userId => post_assignees projectId cardId userId
  | DELETE_assignee projectId cardId userId => delete_assignee projectId cardId userId
  | POST_cards projectId sectionId draft => post_cards projectId sectionId draft
  | PUT_card projectId cardId payload => put_card projectId cardId payload
  | DELETE_card projectId cardId => delete_card projectId cardId
  | POST_card_move projectId cardId target => post_card_move projectId cardId target
  end.

End Api.

#[global] Instance api_remote : Remote Prisma.t := λ A req, Api.route req.

(** A sequence of requests, served one after the other. *)
Fixpoint serve (reqs : list AnyRequest) (db : Prisma.t) : Prisma.t :=
  match reqs with
  | [] => db
  | existT _ req :: rest => serve rest (snd (Api.route req db))
  end.

(** ** Notions the properties are stated with *)

(** [s.cards.some((c) => c.id === cardId)] *)
Definition holds_card (cardId : string) (s : Section.t) : bool :=
  existsb (λ c, bool_decide (Card.id c = cardId)) (Section.cards s).

(** The sections of a board whose card sequence lists a card identifier. *)
Definition holders (b : Board.t) (cardId : string) : list Section.t :=
  List.filter (holds_card cardId) (Board.sections b).

Definition on_board (b : Board.t) (cardId : string) : Prop :=
  ∃ s c, s ∈ Board.sections b ∧ c ∈ Section.cards s ∧ Card.id c = cardId.

(** Exclusive membership: every card identifier of the board is listed by
    exactly one section. *)
Definition exclusive (b : Board.t) : Prop :=
  ∀ cardId, on_board b cardId → length (holders b cardId) = 1%nat.

(** The same, decided by running over the identifiers of the board. *)
Definition exclusiveb (b : Board.t) : bool :=
  forallb (λ s, forallb (λ c, (length (holders b (Card.id c)) =? 1)%nat) (Section.cards s))
          (Board.sections b).


(** The identifier the database client draws next. *)
Definition next_id (db : Prisma.t) : string := Prisma.genId db (Prisma.tick db).

(** The primary key of the section table. *)
Definition section_key (db : Prisma.t) : Prop :=
  NoDup (SectionRow.id <$> Prisma.sections db).

(** What one request may do to the section table: nothing, append a row
    with a fresh key, or delete the rows whose key is in a list that holds
    keys of deletable rows only. *)
Inductive section_step (db db' : Prisma.t) : Prop :=
| sections_kept :
    Prisma.sections db' = Prisma.sections db → section_step db db'
| sections_grown (news : list SectionRow.t) :
    Prisma.sections db' = (Prisma.sections db ++ news)%list →
    NoDup (SectionRow.id <$> (Prisma.sections db ++ news)%list) →
    section_step db db'
| sections_deleted (ids : list string) :
    Prisma.sections db' = List.filter (λ s, negb (Prisma.mem (SectionRow.id s) ids)) (Prisma.sections db) →
    (∀ k, k ∈ ids → ∃ s, s ∈ Prisma.sections db ∧ SectionRow.id s = k
                         ∧ SectionRow.canDelete s = true) →
    section_step db db'.

(** The arrays of a board object are allocated in the heap. *)
Definition allocated (h : Heap) (b : BoardObj.t) : Prop :=
  (BoardObj.sections b < length h)%nat
  ∧ ∀ s, s ∈ sections_at h (BoardObj.sections b) → (SectionObj.cards s < length h)%nat.

(** *** A small world to run the code in

    A project created through the API, one card added to its "To Do" section,
    and a store that has loaded the board. *)

Definition demo_genId (n : nat) : string := "id" ++ pretty n.

Definition demo_clock (n : nat) : Z := 1000 + Z.of_nat n.

Definition demo_draft : CardDraft.t := CardDraft.mk "Write tests" "unit" high "Bob".

Definition demo_db : Prisma.t :=
  serve [ existT _ (POST_projects (Some "Demo"));
          existT _ (POST_cards "id0" "id2" demo_draft) ]
        (Prisma.empty demo_genId demo_clock).

Definition demo_store : Store Prisma.t :=
  snd (load (mount demo_db "/project/id0")).

(** The card of the demo board, as the store holds it. *)
Definition demo_card : Card.t :=
  Card.mk "id5" "Write tests" "unit" high "Bob" [] (DateMs 1005) "id2" (Some []).

(** A board the type allows but no server sends: two sections share the
    identifier ["id3"]. *)
Definition twin_board : Board.t :=
  Board.mk "id0-board" "Demo"
    [ Section.mk "id2" "To Do" [demo_card] true;
      Section.mk "id3" "Review" [] true;
      Section.mk "id3" "Review" [] true ].

Definition twin_store : Store Prisma.t :=
  mkStore demo_db "/project/id0" twin_board true [] [].

(** A heap holding the demo board: its card arrays at 0 and 1, its section
    array at 2. *)
Definition demo_heap : Heap :=
  [ CardArray [];
    CardArray [demo_card;
               Card.mk "id6" "Ship" "it" low "Alice" [] (DateMs 1001) "id2" None];
    SectionArray [ SectionObj.mk "id1" "Backlog" 0 false;
                   SectionObj.mk "id2" "To Do" 1 true ] ].

Definition demo_board_obj : BoardObj.t := BoardObj.mk "id0-board" "Demo" 2.

(** ** The card page ([CardView]) *)

(** The scan for the card of the page:
    [for (const section of board.sections) { const card = section.cards.find(c => c.id === cardId);
       if (card) { foundCard = card; sectionTitle = section.title; break; } }] *)
Fixpoint foundCard (sections : list Section.t) (cardId : string)
    : option (Card.t * string) :=
  match sections with
  | [] => None
  | section :: rest =>
      match List.find (λ c, bool_decide (Card.id c = cardId)) (Section.cards section) with
      | Some card => Some (card, Section.title section)
      | None => foundCard rest cardId
      end
  end.

(** ** Comments and bulk deletion (the server's [routes/api] module) *)

(** [scope: z.enum(['section', 'all'])] *)
Inductive Scope : Type := scope_section | scope_all.

Module CommentApi.
Import Prisma.

Section Routes.

(** [jwt.verify(token, JWT_SECRET)]: the subject of a token that verifies,
    [None] when the library throws. *)
Variable jwt_verify : string → option string.

(** [authMiddleware]: the request goes on with the user of the token, or is
    answered 401. *)
Definition authMiddleware {A} (authorization : option string)
    (next : string → Api.Handler A) : Api.Handler A := λ db,
  let hdr := default EmptyString authorization in
  match strip_prefix "Bearer " hdr with
  | Some token =>
      if truthy token
      then match jwt_verify token with
           | Some sub => next sub db
           | None => (Failure 401 (Message "Invalid token"), db)
           end
      else (Failure 401 (Message "Missing token"), db)
  | None => (Failure 401 (Message "Missing token"), db)
  end.

(** [prisma.card.findFirst({ where: { id: cardId, section: { projectId } } })] *)
Definition findCardInProject (db : Prisma.t) (projectId cardId : string) : option CardRow.t :=
  List.find (λ c, bool_decide (CardRow.id c = cardId) && card_in_project db projectId c)
            (cards db).

Definition findComment (db : Prisma.t) (commentId : string) : option CommentRow.t :=
  List.find (λ cm, bool_decide (CommentRow.id cm = commentId)) (comments db).

(** [include: { author: { select: { id, name, email } } }] *)
Definition author_of (db : Prisma.t) (cm : CommentRow.t) : option UserLite.t :=
  List.find (λ u, bool_decide (UserLite.id u = CommentRow.authorId cm)) (users db).

Definition by_comment_createdAt (a b : CommentRow.t) : Z :=
  CommentRow.createdAt a - CommentRow.createdAt b.

(** [router.get('/projects/:projectId/cards/:cardId/comments')] *)
Definition get_comments (projectId cardId : string) : Api.Handler (list CommentJson.t) := λ db,
  match findCardInProject db projectId cardId with
  | None => (Failure 404 (Message "Card not found"), db)
  | Some _ =>
      (Success 200
         ((λ c, CommentJson.mk (CommentRow.id c) (CommentRow.text c)
                               (toISOString (CommentRow.createdAt c)) (author_of db c))
            <$> array_sort by_comment_createdAt
                  (List.filter (λ cm, bool_decide (CommentRow.cardId cm = cardId))
                               (comments db))),
       db)
  end.

(** [prisma.comment.create]: the primary key rejects a duplicate, the
    foreign key an author that is no user. *)
Definition create_comment (cm : CommentRow.t) (db : Prisma.t) : option Prisma.t :=
  if mem (CommentRow.id cm) (CommentRow.id <$> comments db) then None
  else if mem (CommentRow.authorId cm) (UserLite.id <$> users db)
  then Some (with_tables db (projects db) (sections db) (cards db)
                         (comments db ++ [cm]) (cardAssignees db))
  else None.

(** [router.post('/projects/:projectId/cards/:cardId/comments', authMiddleware, ...)] *)
Definition post_comment (authorization : option string) (projectId cardId text : string)
    : Api.Handler CommentJson.t :=
  authMiddleware authorization (λ userId db,
    if negb (truthy text) then (Failure 400 ZodError, db)
    else
      match findCardInProject db projectId cardId with
      | None => (Failure 404 (Message "Card not found"), db)
      | Some card =>
          let created :=
            CommentRow.mk (genId db (tick db)) text (clock db (tick db))
                          (CardRow.id card) userId in
          match create_comment created (bump 1 db) with
          | None => (Failure 500 (Message "Failed to create comment"), bump 1 db)
          | Some db' =>
              (Success 201
                 (CommentJson.mk (CommentRow.id created) (CommentRow.text created)
                                 (toISOString (CommentRow.createdAt created))
                                 (author_of db' created)),
               db')
          end
      end).

(** [comment.card.section.projectId] of the comment edit and delete routes;
    [None] when the card or the section is not there and the property access
    throws. *)
Definition comment_project (db : Prisma.t) (cm : CommentRow.t) : option string :=
  card ← findCard db (CommentRow.cardId cm);
  section ← List.find (λ s, bool_decide (SectionRow.id s = CardRow.sectionId card))
                      (sections db);
  Some (SectionRow.projectId section).

(** [router.put('/projects/:projectId/comments/:commentId', authMiddleware, ...)] *)
Definition put_comment (authorization : option string) (projectId commentId text : string)
    : Api.Handler CommentJson.t :=
  authMiddleware authorization (λ userId db,
    if negb (truthy text) then (Failure 400 ZodError, db)
    else
      match findComment db commentId with
      | None => (Failure 404 (Message "Comment not found"), db)
      | Some comment =>
          match comment_project db comment with
          | None => (Failure 500 (Message "Failed to update comment"), db)
          | Some owner =>
              if negb (bool_decide (owner = projectId))
              then (Failure 404 (Message "Comment not found"), db)
              else if negb (bool_decide (CommentRow.authorId comment = userId))
              then (Failure 403 (Message "Forbidden"), db)
              else
                let updated :=
                  CommentRow.mk (CommentRow.id comment) text (CommentRow.createdAt comment)
                                (CommentRow.cardId comment) (CommentRow.authorId comment) in
                (Success 200
                   (CommentJson.mk (CommentRow.id updated) (CommentRow.text updated)
                                   (toISOString (CommentRow.createdAt updated)) None),
                 with_tables db (projects db) (sections db) (cards db)
                   ((λ cm, if bool_decide (CommentRow.id cm = commentId)
                           then CommentRow.mk (CommentRow.id cm) text (CommentRow.createdAt cm)
                                              (CommentRow.cardId cm) (CommentRow.authorId cm)
                           else cm)
                      <$> comments db)
                   (cardAssignees db))
          end
      end).

(** [router.delete('/projects/:projectId/comments/:commentId', authMiddleware, ...)] *)
Definition delete_comment (authorization : option string) (projectId commentId : string)
    : Api.Handler unit :=
  authMiddleware authorization (λ userId db,
    match findComment db commentId with
    | None => (Failure 404 (Message "Comment not found"), db)
    | Some comment =>
        match comment_project db comment with
        | None => (Failure 500 (Message "Failed to delete comment"), db)
        | Some owner =>
            if negb (bool_decide (owner = projectId))
            then (Failure 404 (Message "Comment not found"), db)
            else if negb (bool_decide (CommentRow.authorId comment = userId))
            then (Failure 403 (Message "Forbidden"), db)
            else
              (Success 200 (),
               with_tables db (projects db) (sections db) (cards db)
                 (List.filter (λ cm, negb (bool_decide (CommentRow.id cm = commentId)))
                              (comments db))
                 (cardAssignees db))
        end
    end).

End Routes.

(** [router.post('/projects/:projectId/cards/bulk-delete')]; the body of the
    answer is [{ deleted: count }]. *)
Definition bulk_delete (projectId : string) (scope : Scope) (sectionId : option string)
    (priority : Priority) : Api.Handler nat := λ db,
  match scope with
  | scope_section =>
      if falsy sectionId
      then (Failure 400 (Message "sectionId required for section scope"), db)
      else
        match findSectionById db projectId (default EmptyString sectionId) with
        | None => (Failure 404 (Message "Section not found"), db)
        | Some section =>
            let ids :=
              CardRow.id
                <$> List.filter (λ c, bool_decide (CardRow.sectionId c = SectionRow.id section)
                                      && bool_decide (CardRow.priority c = priority))
                                (cards db) in
            (Success 200 (length ids),
             if (0 <? length ids)%nat then delete_cards ids db else db)
        end
  | scope_all =>
      (* scope === 'all' across project *)
      let ids :=
        CardRow.id
          <$> List.filter (λ c, card_in_project db projectId c
                                && bool_decide (CardRow.priority c = priority))
                          (cards db) in
      (Success 200 (length ids),
       if (0 <? length ids)%nat then delete_cards ids db else db)
  end.

End CommentApi.

(** One step of the server: any request of the router, or one of the
    comment and bulk-deletion routes, for any behaviour of the token
    library. *)
Inductive api_step : Prisma.t → Prisma.t → Prop :=
| step_route {A} (req : Request A) (db : Prisma.t) :
    api_step db (snd (Api.route req db))
| step_post_comment (jwt_verify : string → option string) (authorization : option string)
    (projectId cardId text : string) (db : Prisma.t) :
    api_step db (snd (CommentApi.post_comment jwt_verify authorization projectId cardId text db))
| step_put_comment (jwt_verify : string → option string) (authorization : option string)
    (projectId commentId text : string) (db : Prisma.t) :
    api_step db (snd (CommentApi.put_comment jwt_verify authorization projectId commentId text db))
| step_delete_comment (jwt_verify : string → option string) (authorization : option string)
    (projectId commentId : string) (db : Prisma.t) :
    api_step db (snd (CommentApi.delete_comment jwt_verify authorization projectId commentId db))
| step_bulk_delete (projectId : string) (scope : Scope) (sectionId : option string)
    (priority : Priority) (db : Prisma.t) :
    api_step db (snd (CommentApi.bulk_delete projectId scope sectionId priority db)).

(** A run of the server. *)
Inductive api_run : Prisma.t → Prisma.t → Prop :=
| run_done (db : Prisma.t) : api_run db db
| run_step (db db' db'' : Prisma.t) : api_step db db' → api_run db' db'' → api_run db db''.

(** ** Further notions *)

(** The primary key of the card table, and its foreign key into the
    section table. *)
Definition card_key (db : Prisma.t) : Prop :=
  NoDup (CardRow.id <$> Prisma.cards db).

Definition card_fk (db : Prisma.t) : Prop :=
  ∀ c, c ∈ Prisma.cards db → CardRow.sectionId c ∈ SectionRow.id <$> Prisma.sections db.

Definition integrity (db : Prisma.t) : Prop :=
  section_key db ∧ card_key db ∧ card_fk db.

(** A board on which every card carries the identifier of the section that
    lists it. *)
Definition placed (b : Board.t) : Prop :=
  ∀ s c, s ∈ Board.sections b → c ∈ Section.cards s → Card.sectionId c = Section.id s.

(** The cards the view keeps, before it sorts them. *)
Definition kept (filters : FilterState.t) (cards : list Card.t) : list Card.t :=
  if hasActiveFilters filters then List.filter (card_matches filters) cards else cards.

(** The place of a priority under "normal first". *)
Definition normal_first_rank (p : Priority) : Z :=
  match p with
  | normal => 0
  | low => 1
  | high => 3
  end.

(** The time value of a card with a valid date. *)
Definition time_of (c : Card.t) : Z :=
  match getTime (Card.createdAt c) with
  | Some ms => ms
  | None => 0
  end.

(** The card the store holds for a card row once a fetched board is
    revived. *)
Definition row_card (db : Prisma.t) (c : CardRow.t) : Card.t :=
  Card.mk (CardRow.id c) (CardRow.title c) (CardRow.description c) (CardRow.priority c)
          (CardRow.executor c)
          (revive_comment <$> Prisma.comments_json db (CardRow.id c))
          (DateMs (CardRow.createdAt c))
          (CardRow.sectionId c)
          (Some (Prisma.assignees_of db (CardRow.id c))).

(** A database with a user and a comment, on top of the demo database. *)
Definition demo_verify (token : string) : option string :=
  if bool_decide (token = "alice-token") then Some "u1"
  else if bool_decide (token = "bob-token") then Some "u2"
  else None.

Definition demo_db_users : Prisma.t :=
  Prisma.mk (Prisma.projects demo_db) (Prisma.sections demo_db) (Prisma.cards demo_db)
            (Prisma.comments demo_db)
            [UserLite.mk "u1" "Alice" "alice@example.org";
             UserLite.mk "u2" "Bob" "bob@example.org"]
            (Prisma.cardAssignees demo_db) (Prisma.genId demo_db) (Prisma.clock demo_db)
            (Prisma.tick demo_db).

Definition demo_db_comment : Prisma.t :=
  snd (CommentApi.post_comment demo_verify (Some "Bearer alice-token") "id0" "id5" "Looks good"
         demo_db_users).

(** ** Properties *)

(** *** Lists *)

Lemma filter_fmap_comm {A B} (p : B → bool) (f : A → B) (l : list A) :
  List.filter p (f <$> l) = f <$> List.filter (λ x, p (f x)) l.
Proof.
  induction l as [|x l IH]; [done|].
  rewrite fmap_cons. simpl List.filter.
  destruct (p (f x)); by rewrite IH.
Qed.

Lemma filter_pointwise {A} (p q : A → bool) (l : list A) :
  (∀ x, x ∈ l → p x = q x) → List.filter p l = List.filter q l.
Proof.
  intros H. apply filter_ext_in. intros x Hx. apply H. by apply list_elem_of_In.
Qed.

Lemma filter_none {A} (p : A → bool) (l : list A) :
  (∀ x, x ∈ l → p x = false) → List.filter p l = [].
Proof.
  induction l as [|x l IH]; simpl; intros H; [done|].
  rewrite (H x) by left. apply IH. intros y Hy. apply H. by right.
Qed.

Lemma filter_length_mono {A} (p q : A → bool) (l : list A) :
  (∀ x, x ∈ l → p x = true → q x = true) →
  (length (List.filter p l) ≤ length (List.filter q l))%nat.
Proof.
  induction l as [|x l IH]; simpl; intros H; [done|].
  assert (IH' := IH (λ y Hy, H y (list_elem_of_further _ _ _ Hy))).
  destruct (p x) eqn:Hp.
  - rewrite (H x) by (done || left). simpl. lia.
  - destruct (q x); simpl; lia.
Qed.

(** At most one row carries a given key when the keys are pairwise
    distinct. *)
Lemma filter_key_length {A} (key : A → string) (k : string) (l : list A) :
  NoDup (key <$> l) →
  (length (List.filter (λ x, bool_decide (key x = k)) l) ≤ 1)%nat.
Proof.
  induction l as [|x l IH]; simpl; intros Hnd; [lia|].
  apply NoDup_cons in Hnd as [Hx Hnd].
  case_bool_decide as Hk; simpl; [|by apply IH].
  rewrite filter_none; [simpl; lia|].
  intros y Hy. apply bool_decide_eq_false. intros Hyk.
  apply Hx. rewrite Hk, <- Hyk. apply list_elem_of_fmap. eauto.
Qed.

Lemma existsb_card_id (cardId : string) (cs : list Card.t) :
  existsb (λ c, bool_decide (Card.id c = cardId)) cs = bool_decide (cardId ∈ Card.id <$> cs).
Proof.
  induction cs as [|c cs IH].
  - symmetry. apply bool_decide_eq_false. by intros ?%elem_of_nil.
  - rewrite fmap_cons. simpl existsb. rewrite IH.
    destruct (decide (Card.id c = cardId)) as [<-|Hne].
    + rewrite bool_decide_eq_true_2 by done. simpl. symmetry.
      apply bool_decide_eq_true. left.
    + rewrite (bool_decide_eq_false_2 _ Hne). simpl.
      apply bool_decide_ext. rewrite elem_of_cons.
      split; [tauto|]. intros [->|?]; [by destruct Hne|done].
Qed.

Lemma holds_card_ids (cardId : string) (s : Section.t) :
  holds_card cardId s = bool_decide (cardId ∈ Card.id <$> Section.cards s).
Proof. apply existsb_card_id. Qed.

Lemma holds_card_true (cardId : string) (s : Section.t) :
  holds_card cardId s = true ↔ ∃ c, c ∈ Section.cards s ∧ Card.id c = cardId.
Proof.
  rewrite holds_card_ids, bool_decide_eq_true, list_elem_of_fmap.
  split; intros (c & ? & ?); eauto.
Qed.

Lemma on_board_holders (b : Board.t) (cardId : string) :
  on_board b cardId ↔ holders b cardId ≠ [].
Proof.
  unfold on_board, holders. split.
  - intros (s & c & Hs & Hc & Hid) Hnil.
    assert (s ∈ List.filter (holds_card cardId) (Board.sections b)) as Hin.
    { apply list_elem_of_In, filter_In. split; [by apply list_elem_of_In|].
      apply holds_card_true. eauto. }
    rewrite Hnil in Hin. by apply elem_of_nil in Hin.
  - intros Hne. destruct (List.filter _ _) as [|s l] eqn:Hf; [done|].
    assert (In s (List.filter (holds_card cardId) (Board.sections b))) as Hin
      by (rewrite Hf; left; done).
    apply filter_In in Hin as [Hin Hh]. apply holds_card_true in Hh as (c & Hc & Hid).
    exists s, c. by rewrite list_elem_of_In.
Qed.

(** Exclusive membership says that no identifier has two holders. *)
Lemma exclusive_at_most_one (b : Board.t) :
  exclusive b ↔ ∀ cardId, (length (holders b cardId) ≤ 1)%nat.
Proof.
  unfold exclusive. split; intros H cardId.
  - destruct (holders b cardId) as [|s l] eqn:Hh; [simpl; lia|].
    assert (on_board b cardId) as Hon by (apply on_board_holders; by rewrite Hh).
    specialize (H cardId Hon). rewrite Hh in H. lia.
  - intros Hon%on_board_holders. specialize (H cardId).
    destruct (holders b cardId); [done|simpl in *; lia].
Qed.

Lemma exclusiveb_spec (b : Board.t) : exclusiveb b = true ↔ exclusive b.
Proof.
  unfold exclusiveb, exclusive. rewrite forallb_forall. split.
  - intros H cardId (s & c & Hs & Hc & <-).
    specialize (H s (proj1 (list_elem_of_In _ _) Hs)).
    rewrite forallb_forall in H.
    specialize (H c (proj1 (list_elem_of_In _ _) Hc)).
    by apply Nat.eqb_eq in H.
  - intros H s Hs. apply forallb_forall. intros c Hc. apply Nat.eqb_eq, H.
    exists s, c. by rewrite !list_elem_of_In.
Qed.
(** *** Holders under the merges *)








(** *** What the routes send back *)

Lemma find_some_elem {A} (p : A → bool) (l : list A) (x : A) :
  List.find p l = Some x → x ∈ l ∧ p x = true.
Proof. intros H. apply find_some in H as [H ?]. by rewrite list_elem_of_In. Qed.

Lemma update_card_id (cardId : string) (f : CardRow.t → CardRow.t) (db db' : Prisma.t)
    (c : CardRow.t) :
  (∀ c0, CardRow.id (f c0) = CardRow.id c0) →
  Prisma.update_card cardId f db = Some (c, db') → CardRow.id c = cardId.
Proof.
  intros Hf. unfold Prisma.update_card, Prisma.findCard.
  destruct (List.find _ _) as [c0|] eqn:Hfind; [|done]. simpl.
  intros H. case_match; simplify_eq.
  apply find_some_elem in Hfind as [_ Hid%bool_decide_eq_true]. by rewrite Hf.
Qed.

Lemma put_card_id (projectId cardId : string) (payload : CardUpdate.t) (db db' : Prisma.t)
    (status : nat) (updated : CardJson.t) :
  Api.put_card projectId cardId payload db = (Success status updated, db') →
  CardJson.id updated = cardId.
Proof.
  unfold Api.put_card. intros H. repeat case_match; simplify_eq.
  simpl. eapply update_card_id; [|eassumption]; done.
Qed.



(** *** The board after each card operation *)

Section Steps.
Context {R : Type} `{!Remote R}.

Lemma addCard_board (sectionId : string) (card : Card.t) (st : Store R) :
  board (snd (addCard sectionId card st))
  = match fst (handle (POST_cards (projectId_of (pathname st)) sectionId
                         (CardDraft.mk (Card.title card) (Card.description card)
                                       (Card.priority card) (Card.executor card)))
                      (remote st)) with
    | Success _ created => addCard_merge sectionId created (board st)
    | Failure _ _ => board st
    end.
Proof.
  unfold addCard, bind, getProjectId, fetch. simpl.
  destruct (handle _ _) as [[]]; reflexivity.
Qed.

Lemma updateCard_board (card : Card.t) (st : Store R) :
  board (snd (updateCard card st))
  = match fst (handle (PUT_card (projectId_of (pathname st)) (Card.id card)
                         (CardUpdate.mk (Card.title card) (Card.description card)
                                        (Card.priority card) (Card.executor card)
                                        (Card.sectionId card)))
                      (remote st)) with
    | Success _ updated => updateCard_merge card updated (board st)
    | Failure _ _ => board st
    end.
Proof.
  unfold updateCard, bind, getProjectId, fetch. simpl.
  destruct (handle _ _) as [[]]; reflexivity.
Qed.

Lemma deleteCard_board (cardId : string) (st : Store R) :
  board (snd (deleteCard cardId st))
  = match fst (handle (DELETE_card (projectId_of (pathname st)) cardId) (remote st)) with
    | Success _ _ => deleteCard_merge cardId (board st)
    | Failure _ _ => board st
    end.
Proof.
  unfold deleteCard, bind, getProjectId, fetch. simpl.
  destruct (handle _ _) as [[]]; reflexivity.
Qed.

Lemma moveCard_board (cardId targetSectionId : string) (st : Store R) :
  board (snd (moveCard cardId targetSectionId st))
  = match fst (handle (POST_card_move (projectId_of (pathname st)) cardId targetSectionId)
                      (remote st)) with
    | Success _ moved => moveCard_merge cardId targetSectionId moved (board st)
    | Failure _ _ => board st
    end.
Proof.
  unfold moveCard, bind, getProjectId, fetch. simpl.
  destruct (handle _ _) as [[]]; reflexivity.
Qed.

Lemma assignUser_board (cardId userId : string) (st : Store R) :
  board (snd (assignUser cardId userId st))
  = match fst (handle (POST_assignees (projectId_of (pathname st)) cardId userId)
                      (remote st)) with
    | Success _ assignees => assign_merge cardId assignees (board st)
    | Failure _ _ => board st
    end.
Proof.
  unfold assignUser, bind, getProjectId, fetch. simpl.
  destruct (handle _ _) as [[]]; reflexivity.
Qed.

Lemma unassignUser_board (cardId userId : string) (st : Store R) :
  board (snd (unassignUser cardId userId st))
  = match fst (handle (DELETE_assignee (projectId_of (pathname st)) cardId userId)
                      (remote st)) with
    | Success _ assignees => assign_merge cardId assignees (board st)
    | Failure _ _ => board st
    end.
Proof.
  unfold unassignUser, bind, getProjectId, fetch. simpl.
  destruct (handle _ _) as [[]]; reflexivity.
Qed.

End Steps.

(** *** Exclusive membership *)



(** Where the distinctness of the section identifiers enters: [twin_board]
    is a value of the board type that no server sends, with two sections
    named ["id3"]; the merge of [moveCard] appends to every section with the
    target identifier, so the moved card is listed twice. *)
Lemma exclusive_membership_twin_sections :
  exclusive twin_board
  ∧ on_board twin_board "id5"
  ∧ (∃ s, s ∈ Board.sections twin_board ∧ Section.id s = "id3")
  ∧ fst (perform (MoveCard "id5" "id3") twin_store) = Resolved ()
  ∧ length (holders (board (snd (perform (MoveCard "id5" "id3") twin_store))) "id5") = 2%nat
  ∧ ¬ exclusive (board (snd (perform (MoveCard "id5" "id3") twin_store))).
Proof.
  split; [apply exclusiveb_spec; vm_compute; reflexivity|].
  split; [exists (Section.mk "id2" "To Do" [demo_card] true), demo_card;
          repeat split; [left|left]|].
  split; [exists (Section.mk "id3" "Review" [] true); split; [right; left|done]|].
  split; [vm_compute; reflexivity|].
  split; [vm_compute; reflexivity|].
  rewrite <- exclusiveb_spec. vm_compute. discriminate.
Qed.

(** *** Failure of the remote call *)

(** C4.  Whatever the remote collaborator is, when the call a mutation
    starts with comes back with a non-ok response, the operation rejects with
    an [Error], the board is the board from before the call, and nothing but
    that one call was issued. *)
Theorem mutation_failure_is_atomic {R : Type} `{!Remote R} (m : Mutation) (st : Store R) :
  ok (fst (handle (projT2 (remote_call (projectId_of (pathname st)) m)) (remote st))) = false →
  (∃ msg, fst (perform m st) = Rejected (Error msg))
  ∧ board (snd (perform m st)) = board st
  ∧ loaded (snd (perform m st)) = loaded st
  ∧ calls (snd (perform m st)) = (calls st ++ [remote_call (projectId_of (pathname st)) m])%list.
Proof.
  destruct m; simpl; intros Hok;
    unfold addSection, deleteSection, clearSection, deleteAllSections, addCard,
      updateCard, deleteCard, moveCard, assignUser, unassignUser,
      bind, getProjectId, fetch; simpl;
    destruct (handle _ _) as [[status body|status err] r']; simpl in *;
    try discriminate Hok; eauto.
Qed.

(** Moving a card the server does not know: the API answers 404. *)
Lemma mutation_failure_is_atomic_witness :
  (∃ msg, fst (perform (MoveCard "ghost" "id3") demo_store) = Rejected (Error msg))
  ∧ board (snd (perform (MoveCard "ghost" "id3") demo_store)) = board demo_store
  ∧ loaded (snd (perform (MoveCard "ghost" "id3") demo_store)) = loaded demo_store
  ∧ calls (snd (perform (MoveCard "ghost" "id3") demo_store))
    = (calls demo_store
         ++ [remote_call (projectId_of (pathname demo_store)) (MoveCard "ghost" "id3")])%list.
Proof.
  apply (mutation_failure_is_atomic (MoveCard "ghost" "id3") demo_store).
  vm_compute. reflexivity.
Defined.

(** A rejected mutation never went through [setBoard], whichever of its
    calls failed and however. *)
Lemma rejection_leaves_board {R : Type} `{!Remote R} (m : Mutation) (st : Store R) (e : Exn) :
  fst (perform m st) = Rejected e → board (snd (perform m st)) = board st.
Proof.
  destruct m; simpl;
    unfold addSection, deleteSection, clearSection, deleteAllSections, addCard,
      updateCard, deleteCard, moveCard, assignUser, unassignUser, refetch,
      bind, getProjectId, fetch, setBoard, throw; simpl;
    destruct (handle _ _) as [[status body|status err] r']; simpl; try done;
    destruct (handle _ _) as [[status2 b|status2 err2] r'']; simpl; try done;
    destruct (reviveBoardDates b); simpl; done.
Qed.

(** *** Drag reconciliation *)

Lemma find_none_elem {A} (p : A → bool) (l : list A) :
  (∀ x, x ∈ l → p x = false) → List.find p l = None.
Proof.
  induction l as [|x l IH]; simpl; intros H; [done|].
  rewrite (H x) by left. apply IH. intros y Hy. apply H. by right.
Qed.

Lemma find_filter_head {A} (p : A → bool) (l : list A) :
  List.find p l = head (List.filter p l).
Proof.
  induction l as [|x l IH]; simpl; [done|]. by destruct (p x).
Qed.

(** On a board with exclusive membership, the section the handler finds for
    a card is the section that lists it. *)
Lemma currentSection_exclusive (b : Board.t) (cardId : string) (t : Section.t) :
  exclusive b → t ∈ Board.sections b → holds_card cardId t = true →
  currentSection b cardId = Some t.
Proof.
  intros Hex Ht Hh. unfold currentSection. fold (holds_card cardId).
  rewrite find_filter_head. fold (holders b cardId).
  assert (t ∈ holders b cardId) as Hin.
  { apply list_elem_of_In, filter_In. by rewrite <- list_elem_of_In. }
  assert (Hle := proj1 (exclusive_at_most_one b) Hex cardId).
  destruct (holders b cardId) as [|s [|s' l]]; simpl in *; [|by apply list_elem_of_singleton in Hin as ->|lia].
  by apply elem_of_nil in Hin.
Qed.

(** C3.  A drag that ends over nothing, over something that is no section
    of the board, or over the section that currently holds the dragged card
    (the one the handler finds for it, which on a board with exclusive
    membership is the one section that lists it) leaves the whole store as it
    was: no request is issued (so [moveCard] is not called), the board is
    unchanged, and no toast is shown. *)
Theorem drag_without_move {R : Type} `{!Remote R} (event : DragEndEvent.t) (st : Store R) :
  DragEndEvent.over event = None
  ∨ (∃ dropId, DragEndEvent.over event = Some dropId
       ∧ ∀ s, s ∈ Board.sections (board st) → Section.id s ≠ dropId)
  ∨ (∃ dropId t, DragEndEvent.over event = Some dropId
       ∧ targetSection (board st) dropId = Some t
       ∧ (currentSection (board st) (DragEndEvent.active event) = Some t
          ∨ (exclusive (board st) ∧ holds_card (DragEndEvent.active event) t = true))) →
  handleDragEnd event st = (Resolved (), st)
  ∧ calls (snd (handleDragEnd event st)) = calls st
  ∧ board (snd (handleDragEnd event st)) = board st.
Proof.
  intros H.
  assert (handleDragEnd event st = (Resolved (), st)) as Hnoop;
    [|by rewrite Hnoop].
  unfold handleDragEnd.
  destruct H as [->|[(dropId & -> & Hno)|(dropId & t & -> & Ht & Hc)]]; [done| |];
    [|assert (currentSection (board st) (DragEndEvent.active event) = Some t) as Hcur
       by (destruct Hc as [Hc|[Hex Hh]]; [done|];
           apply currentSection_exclusive; [done| |done];
           by apply find_some_elem in Ht as [? _]);
      clear Hc; rename Hcur into Hc].
  - unfold bind, getBoard. simpl. unfold targetSection.
    rewrite find_none_elem; [done|].
    intros s Hs. apply bool_decide_eq_false. by apply Hno.
  - unfold bind, getBoard. simpl. rewrite Ht, Hc. simpl.
    rewrite bool_decide_eq_true_2 by done. by rewrite orb_true_r.
Qed.

(** The card of the demo board dropped on the section that holds it. *)
Lemma drag_without_move_witness :
  handleDragEnd (DragEndEvent.mk "id5" (Some "id2")) demo_store = (Resolved (), demo_store)
  ∧ calls (snd (handleDragEnd (DragEndEvent.mk "id5" (Some "id2")) demo_store))
    = calls demo_store
  ∧ board (snd (handleDragEnd (DragEndEvent.mk "id5" (Some "id2")) demo_store))
    = board demo_store.
Proof.
  apply (drag_without_move (DragEndEvent.mk "id5" (Some "id2")) demo_store).
  right. right. exists "id2", (Section.mk "id2" "To Do" [demo_card] true).
  split; [reflexivity|]. split; [vm_compute; reflexivity|].
  left. vm_compute. reflexivity.
Defined.

(** *** Moving a card *)

(** C5.  When the card is on the board, the target is a section of the
    board and the remote call succeeds, [moveCard] leaves every section in
    its place with the local copies of the card filtered out, and appends
    the card object of the server's response at the end of the target
    section's sequence: identifier, title, description, priority, executor,
    section and assignees are the response's, its date is the response's
    date, its comments are the response's comments (none when the response
    has no such field).  No field comes from a card of the board. *)
Theorem moveCard_relocates {R : Type} `{!Remote R} (cardId targetSectionId : string)
    (st : Store R) (status : nat) (moved : CardJson.t) (r' : R) :
  on_board (board st) cardId →
  (∃ s, s ∈ Board.sections (board st) ∧ Section.id s = targetSectionId) →
  handle (POST_card_move (projectId_of (pathname st)) cardId targetSectionId) (remote st)
  = (Success status moved, r') →
  let b' := board (snd (moveCard cardId targetSectionId st)) in
  let returned :=
    Card.mk (CardJson.id moved) (CardJson.title moved) (CardJson.description moved)
            (CardJson.priority moved) (CardJson.executor moved)
            ((λ cm, Comment.mk (CommentJson.id cm) (CommentJson.text cm)
                               (match CommentJson.createdAt cm with
                                | Some ms => DateMs ms
                                | None => InvalidDate
                                end)
                               (CommentJson.author cm))
               <$> default [] (CardJson.comments moved))
            (match CardJson.createdAt moved with
             | Some ms => DateMs ms
             | None => InvalidDate
             end)
            (CardJson.sectionId moved) (CardJson.assignees moved) in
  fst (moveCard cardId targetSectionId st) = Resolved ()
  ∧ (∀ i s, Board.sections (board st) !! i = Some s →
       ∃ s', Board.sections b' !! i = Some s'
             ∧ Section.id s' = Section.id s
             ∧ Section.cards s'
               = (filter (λ c, Card.id c ≠ cardId) (Section.cards s)
                    ++ if decide (Section.id s = targetSectionId)
                       then [returned] else [])%list)
  ∧ (∀ s', s' ∈ Board.sections b' → Section.id s' ≠ targetSectionId →
       ∀ c, c ∈ Section.cards s' → Card.id c ≠ cardId)
  ∧ (∃ s', s' ∈ Board.sections b' ∧ Section.id s' = targetSectionId)
  ∧ (∀ s', s' ∈ Board.sections b' → Section.id s' = targetSectionId →
       ∃ rest, Section.cards s' = (rest ++ [returned])%list
               ∧ ∀ c, c ∈ rest → Card.id c ≠ cardId)
  ∧ moved_card moved = returned.
Proof.
  intros _ (t & Ht & Htid) Hres b' returned.
  assert (moved_card moved = returned) as Hreturned.
  { unfold moved_card, returned, revive_comment, new_Date.
    by destruct (CardJson.comments moved). }
  assert (fst (moveCard cardId targetSectionId st) = Resolved ()) as Hfst.
  { unfold moveCard, bind, getProjectId, fetch. simpl. by rewrite Hres. }
  assert (b' = moveCard_merge cardId targetSectionId moved (board st)) as ->.
  { unfold b'. rewrite moveCard_board. by rewrite Hres. }
  clearbody returned. subst returned.
  unfold moveCard_merge. simpl. rewrite <- list_fmap_compose.
  split; [done|]. split; [|split; [|split; [|split; [|done]]]].
  - intros i s Hi. rewrite list_lookup_fmap, Hi. simpl. eexists. split; [done|].
    destruct (decide _); simpl; [done|]. by rewrite app_nil_r.
  - intros s' (s & -> & Hs)%list_elem_of_fmap Hne c Hc. simpl in *.
    destruct (decide _); [done|]. simpl in Hc.
    by apply list_elem_of_filter in Hc as [? _].
  - exists ((λ s, if decide (Section.id s = targetSectionId)
                  then with_cards s (Section.cards s ++ [moved_card moved]) else s)
              (with_cards t (filter (λ c, Card.id c ≠ cardId) (Section.cards t)))).
    split; [apply list_elem_of_fmap; by exists t|].
    simpl. by destruct (decide _).
  - intros s' (s & -> & Hs)%list_elem_of_fmap Heq. simpl in *.
    destruct (decide _) as [|Hne]; [|done]. simpl. eexists. split; [done|].
    intros c Hc. by apply list_elem_of_filter in Hc as [? _].
Qed.

(** The card of the demo board moved from "To Do" to "Review": the "Review"
    section ends with the card as the server sent it, its [sectionId] the
    one of "Review". *)
Lemma moveCard_relocates_witness :
  (∃ s', s' ∈ Board.sections (board (snd (moveCard "id5" "id3" demo_store)))
         ∧ Section.id s' = "id3")
  ∧ (∀ s', s' ∈ Board.sections (board (snd (moveCard "id5" "id3" demo_store))) →
       Section.id s' = "id3" →
       ∃ rest, Section.cards s'
               = (rest ++ [Card.mk "id5" "Write tests" "unit" high "Bob" []
                                   (DateMs 1005) "id3" (Some [])])%list
               ∧ ∀ c, c ∈ rest → Card.id c ≠ "id5").
Proof.
  assert (on_board (board demo_store) "id5") as H1.
  { exists (Section.mk "id2" "To Do" [demo_card] true), demo_card.
    repeat split; (apply (bool_decide_unpack _); vm_compute; exact I) || reflexivity. }
  assert (∃ s, s ∈ Board.sections (board demo_store) ∧ Section.id s = "id3") as H2.
  { exists (Section.mk "id3" "Review" [] true).
    split; [apply (bool_decide_unpack _); vm_compute; exact I|reflexivity]. }
  assert (handle (POST_card_move (projectId_of (pathname demo_store)) "id5" "id3")
                 (remote demo_store)
          = (Success 200 (CardJson.mk "id5" "Write tests" "unit" high "Bob" (Some [])
                                      (Some 1005) "id3" (Some [])),
             snd (Api.post_card_move "id0" "id5" "id3" demo_db))) as H3
    by (vm_compute; reflexivity).
  destruct (moveCard_relocates "id5" "id3" demo_store 200 _ _ H1 H2 H3)
    as (_ & _ & _ & H4 & H5 & _).
  exact (conj H4 H5).
Defined.

(** C10.  When the remote call succeeds but no section of the local board
    has the target identifier, the merge is that of [deleteCard]: the card is
    filtered out of every section and appended to none, so a card that was on
    the board is not on it afterwards. *)
Theorem moveCard_unknown_target {R : Type} `{!Remote R} (cardId targetSectionId : string)
    (st : Store R) (status : nat) (moved : CardJson.t) (r' : R) :
  on_board (board st) cardId →
  (∀ s, s ∈ Board.sections (board st) → Section.id s ≠ targetSectionId) →
  handle (POST_card_move (projectId_of (pathname st)) cardId targetSectionId) (remote st)
  = (Success status moved, r') →
  let b' := board (snd (moveCard cardId targetSectionId st)) in
  fst (moveCard cardId targetSectionId st) = Resolved ()
  ∧ b' = deleteCard_merge cardId (board st)
  ∧ (∀ i s, Board.sections (board st) !! i = Some s →
       ∃ s', Board.sections b' !! i = Some s'
             ∧ Section.id s' = Section.id s
             ∧ Section.cards s' = filter (λ c, Card.id c ≠ cardId) (Section.cards s))
  ∧ ¬ on_board b' cardId
  ∧ b' ≠ board st.
Proof.
  intros Hon Hno Hres b'.
  assert (fst (moveCard cardId targetSectionId st) = Resolved ()) as Hfst.
  { unfold moveCard, bind, getProjectId, fetch. simpl. by rewrite Hres. }
  assert (b' = deleteCard_merge cardId (board st)) as Hb'.
  { unfold b'. rewrite moveCard_board, Hres. simpl.
    unfold moveCard_merge, deleteCard_merge. f_equal.
    rewrite <- list_fmap_compose. apply list_fmap_ext. intros i s Hs%list_elem_of_lookup_2.
    simpl. destruct (decide _) as [Heq|]; [|done]. by destruct (Hno s Hs). }
  assert (¬ on_board b' cardId) as Hgone.
  { rewrite Hb'. intros (s' & c & Hs' & Hc & Hid). simpl in Hs'.
    apply list_elem_of_fmap in Hs' as (s & -> & Hs). simpl in Hc.
    by apply list_elem_of_filter in Hc as [? _]. }
  split; [done|]. split; [done|]. split; [|split; [done|]].
  - intros i s Hi. rewrite Hb'. simpl. rewrite list_lookup_fmap, Hi. simpl. eauto.
  - intros Heq. apply Hgone. by rewrite Heq.
Qed.

(** A store whose board was loaded before the "Review" section existed: it
    lists the card under "To Do" and has no section ["id3"]. *)
Lemma moveCard_unknown_target_witness :
  board (snd (moveCard "id5" "id3"
                (mkStore demo_db "/project/id0"
                   (Board.mk "id0-board" "Demo"
                      [Section.mk "id2" "To Do" [demo_card] true])
                   true [] [])))
  = deleteCard_merge "id5"
      (Board.mk "id0-board" "Demo" [Section.mk "id2" "To Do" [demo_card] true]).
Proof.
  refine (proj1 (proj2
    (moveCard_unknown_target "id5" "id3"
       (mkStore demo_db "/project/id0"
          (Board.mk "id0-board" "Demo" [Section.mk "id2" "To Do" [demo_card] true])
          true [] [])
       200
       (CardJson.mk "id5" "Write tests" "unit" high "Bob" (Some []) (Some 1005) "id3" (Some []))
       (snd (Api.post_card_move "id0" "id5" "id3" demo_db)) _ _ _))).
  - exists (Section.mk "id2" "To Do" [demo_card] true), demo_card.
    repeat split; left.
  - intros s Hs. apply list_elem_of_singleton in Hs as ->. discriminate.
  - vm_compute. reflexivity.
Defined.

(** *** Updating a card *)

(** What the update route answers with: the fields of the request, and
    always a list of comments and a date. *)
Lemma put_card_echo (projectId cardId : string) (payload : CardUpdate.t)
    (db db' : Prisma.t) (status : nat) (updated : CardJson.t) :
  Api.put_card projectId cardId payload db = (Success status updated, db') →
  CardJson.title updated = CardUpdate.title payload
  ∧ CardJson.description updated = CardUpdate.description payload
  ∧ CardJson.priority updated = CardUpdate.priority payload
  ∧ CardJson.executor updated = CardUpdate.executor payload
  ∧ CardJson.sectionId updated = CardUpdate.sectionId payload
  ∧ is_Some (CardJson.comments updated)
  ∧ is_Some (CardJson.createdAt updated)
  ∧ is_Some (CardJson.assignees updated).
Proof.
  unfold Api.put_card. case_match; [done|]. case_match; [done|].
  destruct (Prisma.update_card _ _ _) as [[row db1]|] eqn:Hupd; [|done].
  intros [= _ <- _]. revert Hupd. unfold Prisma.update_card.
  destruct (Prisma.findCard db cardId) as [c0|]; [|done]. simpl.
  case_match; [|done]. intros [= <- _]. simpl. by repeat split.
Qed.

(** C6 (as amended).  A successful [updateCard] against the API leaves every
    section in its place with a card sequence of the same length: each
    position that held a card with the identifier of [card] now holds the
    card object of the server's response, every other position is
    untouched.  That object takes every field from the response, which
    always carries comments and a date: identifier, title, description,
    priority, executor and section are the ones the request sent and the
    server stored; nothing of the card that was at the position is kept.
    The sections that list the card are therefore the ones that listed it
    before, whatever [sectionId] the server returned, which the card merely
    carries as a field. *)
Theorem updateCard_overwrites_in_place (card : Card.t) (st : Store Prisma.t)
    (status : nat) (updated : CardJson.t) (db' : Prisma.t) :
  handle (PUT_card (projectId_of (pathname st)) (Card.id card)
            (CardUpdate.mk (Card.title card) (Card.description card)
                           (Card.priority card) (Card.executor card)
                           (Card.sectionId card)))
         (remote st)
  = (Success status updated, db') →
  let b' := board (snd (updateCard card st)) in
  let returned :=
    Card.mk (CardJson.id updated) (CardJson.title updated) (CardJson.description updated)
            (CardJson.priority updated) (CardJson.executor updated)
            ((λ cm, Comment.mk (CommentJson.id cm) (CommentJson.text cm)
                               (match CommentJson.createdAt cm with
                                | Some ms => DateMs ms
                                | None => InvalidDate
                                end)
                               (CommentJson.author cm))
               <$> default [] (CardJson.comments updated))
            (match CardJson.createdAt updated with
             | Some ms => DateMs ms
             | None => InvalidDate
             end)
            (CardJson.sectionId updated) (CardJson.assignees updated) in
  fst (updateCard card st) = Resolved ()
  ∧ (∀ i s, Board.sections (board st) !! i = Some s →
       ∃ s', Board.sections b' !! i = Some s'
             ∧ Section.id s' = Section.id s
             ∧ length (Section.cards s') = length (Section.cards s)
             ∧ holds_card (Card.id card) s' = holds_card (Card.id card) s
             ∧ ∀ j c, Section.cards s !! j = Some c →
                 Section.cards s' !! j
                 = Some (if decide (Card.id c = Card.id card)
                         then updated_card updated c else c))
  ∧ (∀ c, Card.sectionId (updated_card updated c) = CardJson.sectionId updated)
  ∧ Section.id <$> holders b' (Card.id card)
    = Section.id <$> holders (board st) (Card.id card)
  ∧ (∀ c, updated_card updated c = returned)
  ∧ is_Some (CardJson.comments updated)
  ∧ is_Some (CardJson.createdAt updated)
  ∧ Card.id returned = Card.id card
  ∧ Card.title returned = Card.title card
  ∧ Card.description returned = Card.description card
  ∧ Card.priority returned = Card.priority card
  ∧ Card.executor returned = Card.executor card
  ∧ Card.sectionId returned = Card.sectionId card.
Proof.
  intros Hres b' returned.
  assert (CardJson.id updated = Card.id card) as Hid by (by eapply put_card_id).
  pose proof (put_card_echo _ _ _ _ _ _ _ Hres)
    as (Htitle & Hdesc & Hprio & Hexec & Hsec & [cms Hcms] & [ms Hms] & _).
  simpl in Htitle, Hdesc, Hprio, Hexec, Hsec.
  assert (∀ c, updated_card updated c = returned) as Hreturned.
  { intros c. unfold updated_card, returned, revive_comment, new_Date.
    by rewrite Hcms, Hms. }
  assert (fst (updateCard card st) = Resolved ()) as Hfst.
  { unfold updateCard, bind, getProjectId, fetch. simpl. by rewrite Hres. }
  assert (b' = updateCard_merge card updated (board st)) as ->.
  { unfold b'. rewrite updateCard_board. by rewrite Hres. }
  assert (∀ s, holds_card (Card.id card)
                 (with_cards s
                    ((λ c, if decide (Card.id c = Card.id card)
                           then updated_card updated c else c) <$> Section.cards s))
               = holds_card (Card.id card) s) as Hholds.
  { intros s. rewrite !holds_card_ids. simpl. f_equal.
    apply bool_decide_ext. rewrite <- list_fmap_compose.
    erewrite list_fmap_ext; [done|]. intros j c _. simpl.
    destruct (decide _) as [Heq|]; [|done]. simpl. congruence. }
  split; [done|]. split; [|split; [done|split]].
  - intros i s Hi. simpl. rewrite list_lookup_fmap, Hi. simpl. eexists.
    split; [done|]. split; [done|]. simpl. split; [by rewrite length_fmap|].
    split; [apply Hholds|].
    intros j c Hj. by rewrite list_lookup_fmap, Hj.
  - unfold holders, updateCard_merge. simpl.
    rewrite filter_fmap_comm, <- list_fmap_compose.
    erewrite (filter_pointwise _ (holds_card (Card.id card))); [done|].
    intros s _. apply Hholds.
  - split; [done|]. split; [by rewrite Hcms|]. split; [by rewrite Hms|].
    by repeat split.
Qed.

(** The demo card saved with the Backlog section as its [sectionId]: the
    card stays under "To Do", and what is there is the server's card, with
    ["id1"] as its [sectionId]. *)
Lemma updateCard_overwrites_in_place_witness :
  Section.id
    <$> holders (board (snd (updateCard
                               (Card.mk "id5" "Write tests" "unit" high "Bob" []
                                        (DateMs 1005) "id1" (Some []))
                               demo_store))) "id5"
  = Section.id <$> holders (board demo_store) "id5"
  ∧ (∀ c, updated_card
            (CardJson.mk "id5" "Write tests" "unit" high "Bob" (Some []) (Some 1005)
                         "id1" (Some [])) c
          = Card.mk "id5" "Write tests" "unit" high "Bob" [] (DateMs 1005) "id1" (Some [])).
Proof.
  assert (handle (PUT_card (projectId_of (pathname demo_store)) "id5"
                    (CardUpdate.mk "Write tests" "unit" high "Bob" "id1"))
                 (remote demo_store)
          = (Success 200 (CardJson.mk "id5" "Write tests" "unit" high "Bob" (Some [])
                                      (Some 1005) "id1" (Some [])),
             snd (Api.put_card "id0" "id5"
                    (CardUpdate.mk "Write tests" "unit" high "Bob" "id1") demo_db))) as Hres
    by (vm_compute; reflexivity).
  destruct (updateCard_overwrites_in_place
              (Card.mk "id5" "Write tests" "unit" high "Bob" [] (DateMs 1005) "id1" (Some []))
              demo_store 200 _ _ Hres)
    as (_ & _ & _ & Hholders & Hreturned & _).
  exact (conj Hholders Hreturned).
Defined.

(** C6 as written fails: the demo card, listed under "To Do" (["id2"]), is
    saved with [sectionId] ["id1"]; the server moves it and answers with
    [sectionId] ["id1"]; the local board still lists the card under ["id2"]
    and not under ["id1"]. *)
Lemma updateCard_keeps_local_placement :
  let card := Card.mk "id5" "Write tests" "unit" high "Bob" [] (DateMs 1005) "id1" (Some []) in
  let res := fst (handle (PUT_card "id0" "id5"
                            (CardUpdate.mk "Write tests" "unit" high "Bob" "id1"))
                         (remote demo_store)) in
  let b' := board (snd (updateCard card demo_store)) in
  (∃ updated, res = Success 200 updated ∧ CardJson.sectionId updated = "id1")
  ∧ Section.id <$> holders (board demo_store) "id5" = ["id2"]
  ∧ fst (updateCard card demo_store) = Resolved ()
  ∧ Section.id <$> holders b' "id5" = ["id2"]
  ∧ (∀ s, s ∈ Board.sections b' → Section.id s = "id1" → holds_card "id5" s = false).
Proof.
  split; [eexists; split; vm_compute; reflexivity|].
  split; [vm_compute; reflexivity|].
  split; [vm_compute; reflexivity|].
  split; [vm_compute; reflexivity|].
  intros s Hs Hid. revert Hs. vm_compute. intros Hs.
  repeat (apply elem_of_cons in Hs as [->|Hs]; [by (reflexivity || discriminate Hid)|]).
  by apply elem_of_nil in Hs.
Qed.

(** *** Sorting *)

Lemma sort_insert_perm {A} (cmp : A → A → Z) (x : A) (l : list A) :
  Permutation (sort_insert cmp x l) (x :: l).
Proof.
  induction l as [|y l IH]; simpl; [done|].
  destruct (cmp x y <=? 0); [done|].
  rewrite IH. apply perm_swap.
Qed.

Lemma array_sort_perm {A} (cmp : A → A → Z) (l : list A) :
  Permutation (array_sort cmp l) l.
Proof.
  induction l as [|x l IH]; simpl; [done|].
  rewrite sort_insert_perm. by constructor.
Qed.

Lemma array_sort_elem {A} (cmp : A → A → Z) (l : list A) (x : A) :
  x ∈ array_sort cmp l ↔ x ∈ l.
Proof. by rewrite array_sort_perm. Qed.

(** *** Deleting sections on the server *)

Lemma filter_key_NoDup {A} (key : A → string) (p : A → bool) (l : list A) :
  NoDup (key <$> l) → NoDup (key <$> List.filter p l).
Proof.
  induction l as [|x l IH]; [done|].
  rewrite fmap_cons. intros [Hx Hnd]%NoDup_cons. simpl List.filter.
  destruct (p x); [|by apply IH]. rewrite fmap_cons. apply NoDup_cons. split; [|by apply IH].
  intros (y & Hy & Hin)%list_elem_of_fmap. apply Hx, list_elem_of_fmap.
  exists y. split; [done|]. apply list_elem_of_In in Hin. apply filter_In in Hin as [Hin _].
  by apply list_elem_of_In.
Qed.

Lemma key_injective {A} (key : A → string) (l : list A) (a b : A) :
  NoDup (key <$> l) → a ∈ l → b ∈ l → key a = key b → a = b.
Proof.
  induction l as [|x l IH]; [by intros _ ?%elem_of_nil|].
  rewrite fmap_cons. intros [Hx Hnd]%NoDup_cons Ha Hb Hk.
  apply elem_of_cons in Ha as [->|Ha]; apply elem_of_cons in Hb as [->|Hb]; [done| | |by apply IH].
  - destruct Hx. rewrite Hk. by apply list_elem_of_fmap_2.
  - destruct Hx. rewrite <- Hk. by apply list_elem_of_fmap_2.
Qed.

Lemma NoDup_snoc_fresh {A} (l : list A) (x : A) :
  NoDup l → x ∉ l → NoDup (l ++ [x]).
Proof.
  intros Hl Hx. apply NoDup_app. split; [done|]. split; [|apply NoDup_singleton].
  intros y Hy Hyx%list_elem_of_singleton. by subst.
Qed.

Lemma filter_elem {A} (p : A → bool) (l : list A) (x : A) :
  x ∈ List.filter p l ↔ x ∈ l ∧ p x = true.
Proof. by rewrite !list_elem_of_In, filter_In. Qed.

Lemma delete_sections_sections (ids : list string) (db : Prisma.t) :
  Prisma.sections (Prisma.delete_sections ids db)
  = List.filter (λ s, negb (Prisma.mem (SectionRow.id s) ids)) (Prisma.sections db).
Proof. reflexivity. Qed.

Lemma create_section_sections (s : SectionRow.t) (db db' : Prisma.t) :
  Prisma.create_section s db = Some db' →
  Prisma.sections db' = (Prisma.sections db ++ [s])%list
  ∧ SectionRow.id s ∉ SectionRow.id <$> Prisma.sections db.
Proof.
  unfold Prisma.create_section, Prisma.mem. case_bool_decide; [done|]. by intros [= <-].
Qed.

Lemma section_step_key (db db' : Prisma.t) :
  section_step db db' → section_key db → section_key db'.
Proof.
  unfold section_key. intros [Heq|news Heq Hnd|ids Heq _] Hkey; rewrite Heq; [done..|].
  by apply filter_key_NoDup.
Qed.

Lemma section_step_keeps (db db' : Prisma.t) (s : SectionRow.t) :
  section_step db db' → section_key db →
  s ∈ Prisma.sections db → SectionRow.canDelete s = false → s ∈ Prisma.sections db'.
Proof.
  intros [Heq|news Heq Hnd|ids Heq Hids] Hkey Hs Hflag; rewrite Heq; [done| |].
  - apply elem_of_app. by left.
  - apply filter_elem. split; [done|]. apply negb_true_iff, bool_decide_eq_false.
    intros (s' & Hs' & Hk & Hdel)%Hids.
    assert (s' = s) as -> by (by eapply (key_injective SectionRow.id)).
    congruence.
Qed.

Lemma seed_sections_step (projectId : string) (db db' : Prisma.t) :
  section_key db →
  Api.seed_sections projectId db = Some db' →
  ∃ b rest, Prisma.sections db' = (Prisma.sections db ++ b :: rest)%list
            ∧ SectionRow.title b = "Backlog" ∧ SectionRow.projectId b = projectId
            ∧ SectionRow.canDelete b = false
            ∧ section_key db'.
Proof.
  unfold Api.seed_sections. intros Hkey H.
  destruct (Prisma.create_section _ db) as [db1|] eqn:H1; simpl in H; [|done].
  destruct (Prisma.create_section _ db1) as [db2|] eqn:H2; simpl in H; [|done].
  destruct (Prisma.create_section _ db2) as [db3|] eqn:H3; simpl in H; [|done].
  apply create_section_sections in H1 as [E1 N1], H2 as [E2 N2], H3 as [E3 N3],
    H as [E4 N4].
  assert (section_key db') as Hkey'.
  { unfold section_key in *. rewrite E4, fmap_app. apply NoDup_snoc_fresh; [|done].
    rewrite E3, fmap_app. apply NoDup_snoc_fresh; [|done].
    rewrite E2, fmap_app. apply NoDup_snoc_fresh; [|done].
    rewrite E1, fmap_app. by apply NoDup_snoc_fresh. }
  do 2 eexists. rewrite E4, E3, E2, E1, <- !app_assoc. simpl.
  split; [reflexivity|]. repeat split. exact Hkey'.
Qed.

Lemma update_card_sections (cardId : string) (f : CardRow.t → CardRow.t)
    (db db' : Prisma.t) (c : CardRow.t) :
  Prisma.update_card cardId f db = Some (c, db') → Prisma.sections db' = Prisma.sections db.
Proof.
  unfold Prisma.update_card. destruct (Prisma.findCard _ _); simpl; [|done].
  case_match; [|done]. by intros [= _ <-].
Qed.

Lemma create_card_sections (c : CardRow.t) (db db' : Prisma.t) :
  Prisma.create_card c db = Some db' → Prisma.sections db' = Prisma.sections db.
Proof. unfold Prisma.create_card. case_match; [done|]. by intros [= <-]. Qed.

Lemma create_project_sections (p : ProjectRow.t) (db db' : Prisma.t) :
  Prisma.create_project p db = Some db' → Prisma.sections db' = Prisma.sections db.
Proof. unfold Prisma.create_project. case_match; [done|]. by intros [= <-]. Qed.

(** Every route moves the section table by one of the three steps. *)
Lemma route_section_step {A} (req : Request A) (db : Prisma.t) :
  section_key db → section_step db (snd (Api.route req db)).
Proof.
  intros Hkey. destruct req; simpl.
  - (* POST projects *)
    unfold Api.post_projects.
    destruct (Prisma.create_project _ _) as [db1|] eqn:Hp; [|by apply sections_kept].
    apply create_project_sections in Hp. simpl in Hp.
    destruct (Api.seed_sections _ db1) as [db2|] eqn:Hs; [|by apply sections_kept].
    apply seed_sections_step in Hs as (b & rest & Heq & _ & _ & _ & Hkey2);
      [|by unfold section_key; rewrite Hp].
    apply (sections_grown _ _ (b :: rest)); simpl; [by rewrite Heq, Hp|].
    unfold section_key in Hkey2. by rewrite Heq, Hp in Hkey2.
  - (* GET board *)
    unfold Api.get_board. case_match; by apply sections_kept.
  - (* POST sections *)
    unfold Api.post_sections. case_match; [by apply sections_kept|].
    case_match; [|by apply sections_kept].
    destruct (Prisma.create_section _ _) as [db1|] eqn:Hc; [|by apply sections_kept].
    apply create_section_sections in Hc as [Heq Hfresh]. simpl in *.
    eapply sections_grown; [exact Heq|].
    rewrite fmap_app. by apply NoDup_snoc_fresh.
  - (* DELETE section *)
    unfold Api.delete_section.
    destruct (Prisma.findSectionById _ _ _) as [section|] eqn:Hfind; [|by apply sections_kept].
    destruct (SectionRow.canDelete section) eqn:Hdel; simpl; [|by apply sections_kept].
    apply (sections_deleted _ _ [sectionId]); [done|].
    intros k ->%list_elem_of_singleton.
    apply find_some_elem in Hfind as [Hin [Hid _]%andb_prop].
    apply bool_decide_eq_true in Hid. by exists section.
  - (* POST section clear *)
    unfold Api.post_section_clear. case_match; [|by apply sections_kept].
    simpl. case_match; by apply sections_kept.
  - (* POST sections delete-all *)
    unfold Api.post_sections_delete_all. case_match; [|by apply sections_kept].
    simpl. eapply sections_deleted; [done|].
    intros k (s & -> & [[Hs _]%filter_elem Hdel]%filter_elem)%list_elem_of_fmap.
    by exists s.
  - (* POST assignees *)
    unfold Api.post_assignees. repeat case_match; by apply sections_kept.
  - (* DELETE assignee *)
    unfold Api.delete_assignee. repeat case_match; by apply sections_kept.
  - (* POST cards *)
    unfold Api.post_cards. case_match; [by apply sections_kept|].
    case_match; [|by apply sections_kept].
    destruct (Prisma.create_card _ _) as [db1|] eqn:Hc; [|by apply sections_kept].
    apply sections_kept. by apply create_card_sections in Hc.
  - (* PUT card *)
    unfold Api.put_card. case_match; [by apply sections_kept|].
    case_match; [by apply sections_kept|].
    destruct (Prisma.update_card _ _ _) as [[c db1]|] eqn:Hu; [|by apply sections_kept].
    apply sections_kept. by apply update_card_sections in Hu.
  - (* DELETE card *)
    unfold Api.delete_card. case_match; by apply sections_kept.
  - (* POST card move *)
    unfold Api.post_card_move. case_match; [by apply sections_kept|].
    case_match; [|by apply sections_kept].
    destruct (Prisma.update_card _ _ _) as [[c db1]|] eqn:Hu; [|by apply sections_kept].
    apply sections_kept. by apply update_card_sections in Hu.
Qed.

Lemma serve_keeps (reqs : list AnyRequest) (db : Prisma.t) (s : SectionRow.t) :
  section_key db → s ∈ Prisma.sections db → SectionRow.canDelete s = false →
  section_key (serve reqs db) ∧ s ∈ Prisma.sections (serve reqs db).
Proof.
  revert db. induction reqs as [|[A req] reqs IH]; intros db Hkey Hs Hflag; [done|].
  simpl. assert (Hstep := route_section_step req db Hkey). apply IH.
  - by eapply section_step_key.
  - by eapply section_step_keeps.
  - done.
Qed.

Lemma findSectionById_key (db : Prisma.t) (s : SectionRow.t) :
  section_key db → s ∈ Prisma.sections db →
  Prisma.findSectionById db (SectionRow.projectId s) (SectionRow.id s) = Some s.
Proof.
  intros Hkey Hs. unfold Prisma.findSectionById.
  destruct (List.find _ _) as [s'|] eqn:Hfind.
  - apply find_some_elem in Hfind as [Hin [Hid _]%andb_prop].
    apply bool_decide_eq_true in Hid. f_equal.
    by eapply (key_injective SectionRow.id).
  - eapply find_none in Hfind; [|by apply list_elem_of_In].
    simpl in Hfind. by rewrite !bool_decide_eq_true_2 in Hfind.
Qed.

Lemma get_board_lists (projectId : string) (db db' : Prisma.t) (status : nat)
    (b : BoardJson.t) (s : SectionRow.t) :
  Api.get_board projectId db = (Success status b, db') →
  s ∈ Prisma.sections db → SectionRow.projectId s = projectId →
  ∃ sj, sj ∈ BoardJson.sections b
        ∧ SectionJson.id sj = SectionRow.id s
        ∧ SectionJson.title sj = SectionRow.title s
        ∧ SectionJson.canDelete sj = SectionRow.canDelete s.
Proof.
  unfold Api.get_board. case_match; [|done]. intros [= _ <- _] Hs Hp. simpl.
  eexists. split; [apply list_elem_of_fmap; exists s; split; [reflexivity|]|done].
  apply array_sort_elem, filter_elem. split; [done|]. by apply bool_decide_eq_true.
Qed.

(** The page asks for a deletion only when the board lists the section as
    deletable. *)
Lemma handleDeleteSection_gate {R : Type} `{!Remote R} (sectionId : string) (st : Store R) :
  calls (snd (handleDeleteSection sectionId st)) ≠ calls st →
  ∃ s, s ∈ Board.sections (board st) ∧ Section.id s = sectionId
       ∧ Section.canDelete s = true.
Proof.
  unfold handleDeleteSection, bind, getBoard. simpl.
  destruct (List.find _ _) as [s|] eqn:Hfind; [|done].
  destruct (Section.canDelete s) eqn:Hdel; [|done]. intros _.
  apply find_some_elem in Hfind as [Hin Hid%bool_decide_eq_true]. by exists s.
Qed.

(** *** Backlog immunity *)

(** C7.  Take a section row the primary key holds once and whose
    [canDelete] flag is false, as the Backlog row that project creation seeds
    is.  (a) The delete route answers 400 for it and changes nothing.
    (b) After any sequence of requests the row is still in the table, flag
    included, and (c) a board fetched then still shows it as not deletable.
    (d) The page handler issues a request only for a section the board
    shows as deletable, and the column's menu offers the deletion only for
    such a section.  (e) Project creation seeds a "Backlog" row with the
    flag false, and (f) so is the Backlog of the board the store starts
    from. *)
Theorem backlog_immunity (db : Prisma.t) (backlog : SectionRow.t) (reqs : list AnyRequest) :
  section_key db →
  backlog ∈ Prisma.sections db →
  SectionRow.canDelete backlog = false →
  Api.delete_section (SectionRow.projectId backlog) (SectionRow.id backlog) db
  = (Failure 400 (Message "Backlog cannot be deleted"), db)
  ∧ backlog ∈ Prisma.sections (serve reqs db)
  ∧ (∀ status b db',
       Api.get_board (SectionRow.projectId backlog) (serve reqs db) = (Success status b, db') →
       ∃ sj, sj ∈ BoardJson.sections b ∧ SectionJson.id sj = SectionRow.id backlog
             ∧ SectionJson.canDelete sj = false)
  ∧ (∀ (R : Type) (api : Remote R) (st : Store R) (sectionId : string),
       calls (snd (handleDeleteSection sectionId st)) ≠ calls st →
       ∃ s, s ∈ Board.sections (board st) ∧ Section.id s = sectionId
            ∧ Section.canDelete s = true)
  ∧ (∀ section, DeleteSectionItem ∈ section_menu section → Section.canDelete section = true)
  ∧ (∀ title status p db',
       Api.post_projects title db = (Success status p, db') →
       ∃ b, b ∈ Prisma.sections db' ∧ SectionRow.title b = "Backlog"
            ∧ SectionRow.projectId b = ProjectJson.id p
            ∧ SectionRow.canDelete b = false)
  ∧ (∀ s, s ∈ Board.sections initial_board → Section.title s = "Backlog" →
       Section.canDelete s = false).
Proof.
  intros Hkey Hin Hflag.
  destruct (serve_keeps reqs db backlog Hkey Hin Hflag) as [Hkey' Hin'].
  split; [|split; [done|split; [|split; [|split; [|split]]]]].
  - unfold Api.delete_section. by rewrite findSectionById_key, Hflag.
  - intros status b db' Hget.
    destruct (get_board_lists _ _ _ _ _ _ Hget Hin' eq_refl) as (sj & ? & ? & _ & Hc).
    exists sj. by rewrite Hc, Hflag.
  - intros R api st sectionId. apply handleDeleteSection_gate.
  - intros section. unfold section_menu. destruct (Section.canDelete section); [done|].
    intros [[=]|Hnil%elem_of_nil]%elem_of_cons. done.
  - intros title status p db'. unfold Api.post_projects.
    destruct (Prisma.create_project _ _) as [db1|] eqn:Hp; [|done].
    apply create_project_sections in Hp. simpl in Hp.
    destruct (Api.seed_sections _ db1) as [db2|] eqn:Hs; [|done].
    apply seed_sections_step in Hs as (b & rest & Heq & Ht & Hpid & Hdel & _);
      [|by unfold section_key; rewrite Hp].
    intros [= _ <- <-]. exists b. simpl. rewrite Heq.
    split; [apply elem_of_app; right; left|done].
  - intros s Hs Ht. unfold initial_board in Hs. simpl in Hs.
    repeat (apply elem_of_cons in Hs as [->|Hs]; [done|]).
    by apply elem_of_nil in Hs.
Qed.

(** The Backlog row of the demo project survives a request to delete it and
    a request to delete all sections. *)
Lemma backlog_immunity_witness :
  SectionRow.mk "id1" "Backlog" false "id0"
  ∈ Prisma.sections (serve [ existT _ (DELETE_section "id0" "id1");
                             existT _ (POST_sections_delete_all "id0") ] demo_db).
Proof.
  refine (proj1 (proj2
    (backlog_immunity demo_db (SectionRow.mk "id1" "Backlog" false "id0")
       [ existT _ (DELETE_section "id0" "id1");
         existT _ (POST_sections_delete_all "id0") ] _ _ _))).
  - apply (bool_decide_unpack _). vm_compute. exact I.
  - vm_compute. left.
  - reflexivity.
Defined.

(** *** Deleting a section *)

(** What the delete route does to the cards of the section: a successful
    deletion leaves no row with the identifier of a card that was in it. *)
Lemma delete_section_deletes_cards (projectId id : string) (db db' : Prisma.t)
    (status : nat) (c : CardRow.t) :
  Api.delete_section projectId id db = (Success status (), db') →
  c ∈ Prisma.cards db → CardRow.sectionId c = id →
  ∀ c', c' ∈ Prisma.cards db' → CardRow.id c' ≠ CardRow.id c.
Proof.
  unfold Api.delete_section. case_match; [|done]. case_match; [done|].
  intros [= _ <-] Hc Hsec c' Hc' Heq. simpl in Hc'.
  apply filter_elem in Hc' as [Hc' _]. apply filter_elem in Hc' as [_ Hout].
  apply negb_true_iff, bool_decide_eq_false in Hout. apply Hout.
  rewrite Heq. apply list_elem_of_fmap. exists c. split; [done|].
  apply filter_elem. split; [done|]. by apply bool_decide_eq_true.
Qed.

(** C2 at the demo store.  The "To Do" section is deletable and holds the
    card ["id5"].  [deleteSection] resolves after the delete call and the
    board refetch; the refetched board has no "To Do" section, its Backlog
    section is empty, the card is on the board nowhere, and the server has
    no card row left. *)
Theorem deleteSection_loses_cards :
  let st' := snd (deleteSection "id2" demo_store) in
  Section.id <$> holders (board demo_store) "id5" = ["id2"]
  ∧ (Section.canDelete <$> targetSection (board demo_store) "id2") = Some true
  ∧ fst (deleteSection "id2" demo_store) = Resolved ()
  ∧ calls st' = (calls demo_store
                   ++ [existT _ (DELETE_section "id0" "id2"); existT _ (GET_board "id0")])%list
  ∧ (Section.title <$> Board.sections (board st')) = ["Backlog"; "Done"; "Review"]
  ∧ (Section.cards <$> Board.sections (board st')) = [[]; []; []]
  ∧ holders (board st') "id5" = []
  ∧ Prisma.cards (remote st') = [].
Proof. vm_compute. repeat split. Qed.

(** The sibling route: [deleteAllSections] on the same store does relocate
    the card to the Backlog section. *)
Lemma deleteAllSections_relocates_cards :
  let st' := snd (deleteAllSections demo_store) in
  fst (deleteAllSections demo_store) = Resolved ()
  ∧ (Section.title <$> Board.sections (board st')) = ["Backlog"]
  ∧ (Card.id <$> mjoin (Section.cards <$> Board.sections (board st'))) = ["id5"]
  ∧ Section.title <$> holders (board st') "id5" = ["Backlog"].
Proof. vm_compute. repeat split. Qed.

(** *** The filter/sort view *)

Lemma view_perm (filters : FilterState.t) (cards : list Card.t) :
  Permutation (getFilteredAndSortedCards filters cards)
              (if hasActiveFilters filters
               then List.filter (card_matches filters) cards else cards).
Proof.
  unfold getFilteredAndSortedCards.
  destruct (comparator _); [apply array_sort_perm|done].
Qed.

(** C8.  With the priority filter [high] and the executor filter ["Bob"],
    the view of any list of cards holds, up to the order the sort mode
    gives, exactly the cards that are high or Bob's in disjunctive mode, and
    exactly the cards that are high and Bob's in conjunctive mode. *)
Theorem filter_or_and (cards : list Card.t) (sortBy : SortBy) :
  let either c := bool_decide (Card.priority c = high) || bool_decide (Card.executor c = "Bob") in
  let both c := bool_decide (Card.priority c = high) && bool_decide (Card.executor c = "Bob") in
  let disjunctive := FilterState.mk [high] ["Bob"] false sortBy in
  let conjunctive := FilterState.mk [high] ["Bob"] true sortBy in
  Permutation (getFilteredAndSortedCards disjunctive cards) (List.filter either cards)
  ∧ Permutation (getFilteredAndSortedCards conjunctive cards) (List.filter both cards)
  ∧ (∀ c, c ∈ getFilteredAndSortedCards disjunctive cards
          ↔ c ∈ cards ∧ (Card.priority c = high ∨ Card.executor c = "Bob"))
  ∧ (∀ c, c ∈ getFilteredAndSortedCards conjunctive cards
          ↔ c ∈ cards ∧ (Card.priority c = high ∧ Card.executor c = "Bob"))
  ∧ (comparator sortBy = None →
     getFilteredAndSortedCards disjunctive cards = List.filter either cards
     ∧ getFilteredAndSortedCards conjunctive cards = List.filter both cards).
Proof.
  intros either both disjunctive conjunctive.
  assert (∀ c, card_matches disjunctive c = either c) as Hany.
  { intros c. unfold card_matches, either. simpl. f_equal; apply bool_decide_ext.
    - by rewrite list_elem_of_singleton.
    - by rewrite list_elem_of_singleton. }
  assert (∀ c, card_matches conjunctive c = both c) as Hall.
  { intros c. unfold card_matches, both. simpl. f_equal; apply bool_decide_ext.
    - by rewrite list_elem_of_singleton.
    - by rewrite list_elem_of_singleton. }
  assert (Permutation (getFilteredAndSortedCards disjunctive cards) (List.filter either cards))
    as Hp1.
  { rewrite view_perm. simpl. by rewrite (filter_pointwise _ either). }
  assert (Permutation (getFilteredAndSortedCards conjunctive cards) (List.filter both cards))
    as Hp2.
  { rewrite view_perm. simpl. by rewrite (filter_pointwise _ both). }
  split; [done|]. split; [done|]. split; [|split].
  - intros c. rewrite Hp1, filter_elem. unfold either.
    by rewrite orb_true_iff, !bool_decide_eq_true.
  - intros c. rewrite Hp2, filter_elem. unfold both.
    by rewrite andb_true_iff, !bool_decide_eq_true.
  - intros Hnone. unfold getFilteredAndSortedCards. simpl. rewrite Hnone.
    by rewrite (filter_pointwise _ either), (filter_pointwise (card_matches conjunctive) both).
Qed.

(** The cards of the specification's example: priorities low and high,
    executors Alice and Bob. *)
Example filter_or_and_example :
  let card (id : string) (p : Priority) (e : string) :=
    Card.mk id id EmptyString p e [] (DateMs 0) "s" None in
  let cards := [card "1" low "Alice"; card "2" low "Bob"; card "3" high "Alice";
                card "4" high "Bob"] in
  Card.id <$> getFilteredAndSortedCards (FilterState.mk [high] ["Bob"] false sort_date) cards
  = ["2"; "3"; "4"]
  ∧ Card.id <$> getFilteredAndSortedCards (FilterState.mk [high] ["Bob"] true sort_date) cards
    = ["4"].
Proof. vm_compute. split; reflexivity. Qed.

(** *** The view and the arrays of the store *)

Section ViewFrame.
Local Open Scope list_scope.

Lemma cards_at_app (h ext : Heap) (r : nat) :
  (r < length h)%nat → cards_at (h ++ ext) r = cards_at h r.
Proof. intros Hr. unfold cards_at. by rewrite lookup_app_l. Qed.

Lemma sections_at_app (h ext : Heap) (r : nat) :
  (r < length h)%nat → sections_at (h ++ ext) r = sections_at h r.
Proof. intros Hr. unfold sections_at. by rewrite lookup_app_l. Qed.

Lemma cards_at_alloc (h : Heap) (r : nat) :
  cards_at (h ++ [CardArray (cards_at h r)]) r = cards_at h r.
Proof.
  destruct (decide (r < length h)%nat) as [Hlt|Hge]; [by apply cards_at_app|].
  unfold cards_at. rewrite (lookup_ge_None_2 h r) by lia.
  destruct (decide (r = length h)) as [->|Hne].
  - by rewrite list_lookup_middle.
  - rewrite lookup_ge_None_2; [done|]. rewrite length_app. simpl. lia.
Qed.

(** One call of the view on an array: the heap grows at its end, the result
    is one of the new addresses, and it holds the view of the contents of
    the argument. *)
Lemma getFilteredAndSortedCards_at_spec (filters : FilterState.t) (cards : nat) (h : Heap) :
  ∃ ext,
    snd (getFilteredAndSortedCards_at filters cards h) = (h ++ ext)
    ∧ (length h ≤ fst (getFilteredAndSortedCards_at filters cards h)
       < length (h ++ ext))%nat
    ∧ cards_at (h ++ ext) (fst (getFilteredAndSortedCards_at filters cards h))
      = getFilteredAndSortedCards filters (cards_at h cards).
Proof.
  unfold getFilteredAndSortedCards_at, getFilteredAndSortedCards, alloc, sort_in_place.
  destruct (hasActiveFilters filters); destruct (comparator _) as [cmp|]; simpl.
  - rewrite cards_at_alloc.
    eexists [_; _]. rewrite <- app_assoc. simpl.
    rewrite insert_app_r_alt by (rewrite length_app; simpl; lia).
    rewrite !length_app. simpl. replace (length h + 1 - length h)%nat with 1%nat by lia.
    simpl. split; [reflexivity|]. split; [lia|].
    unfold cards_at.
    rewrite (lookup_app_r h) by lia. replace (length h + 1 - length h)%nat with 1%nat by lia.
    simpl. f_equal. unfold cards_at.
    replace ((h ++ [CardArray (cards_at h cards)]) ++
             [CardArray (List.filter (card_matches filters) (cards_at h cards))])
      with (h ++ [CardArray (cards_at h cards);
                  CardArray (List.filter (card_matches filters) (cards_at h cards))])
      by (by rewrite <- app_assoc).
    rewrite (lookup_app_r h) by lia.
    by replace (length h + 1 - length h)%nat with 1%nat by lia.
  - rewrite cards_at_alloc.
    eexists [_; _]. rewrite <- app_assoc. simpl.
    rewrite !length_app. simpl. split; [reflexivity|]. split; [lia|].
    unfold cards_at. rewrite (lookup_app_r h) by lia.
    by replace (length h + 1 - length h)%nat with 1%nat by lia.
  - eexists [_]. rewrite insert_app_r_alt by lia. rewrite Nat.sub_diag. simpl.
    rewrite !length_app. simpl. split; [reflexivity|]. split; [lia|].
    unfold cards_at at 1. rewrite list_lookup_middle by done.
    f_equal. unfold cards_at at 1. by rewrite list_lookup_middle.
  - eexists [_]. rewrite !length_app. simpl. split; [reflexivity|]. split; [lia|].
    unfold cards_at at 1. by rewrite list_lookup_middle.
Qed.

(** The callback run over the sections: the heap grows at its end, every
    section of the result points at a new array of its own. *)
Lemma map_sections_at_fresh (filters : FilterState.t) (ss : list SectionObj.t) (h : Heap) :
  ∃ ext,
    snd (map_sections_at filters ss h) = h ++ ext
    ∧ Forall (λ s', length h ≤ SectionObj.cards s' < length (h ++ ext))%nat
             (fst (map_sections_at filters ss h))
    ∧ NoDup (SectionObj.cards <$> fst (map_sections_at filters ss h)).
Proof.
  revert h. induction ss as [|s ss IH]; intros h.
  - exists []. simpl. rewrite app_nil_r. split; [done|]. split; constructor.
  - simpl.
    destruct (getFilteredAndSortedCards_at_spec filters (SectionObj.cards s) h)
      as (e1 & Hh1 & Hc & _).
    destruct (getFilteredAndSortedCards_at filters (SectionObj.cards s) h) as [c h1].
    simpl in Hh1, Hc. subst h1.
    destruct (IH (h ++ e1)) as (e2 & Hh2 & Hall & Hnd).
    destruct (map_sections_at filters ss (h ++ e1)) as [rest' h2].
    cbn [fst snd] in *. subst h2. exists (e1 ++ e2). rewrite app_assoc.
    split; [done|]. split.
    + constructor; simpl.
      * rewrite length_app. lia.
      * eapply Forall_impl; [exact Hall|]. intros s'. simpl. rewrite !length_app. lia.
    + rewrite fmap_cons. simpl. apply NoDup_cons. split; [|done].
      intros (s' & Heq & Hin)%list_elem_of_fmap.
      rewrite Forall_forall in Hall. apply Hall in Hin. lia.
Qed.

(** When the arrays of the sections are allocated, the sections of the
    result stand for the views of the sections. *)
Lemma map_sections_at_value (filters : FilterState.t) (ss : list SectionObj.t) (h : Heap) :
  (∀ s, s ∈ ss → SectionObj.cards s < length h)%nat →
  section_value (snd (map_sections_at filters ss h)) <$> fst (map_sections_at filters ss h)
  = (λ section, with_cards section
                  (getFilteredAndSortedCards filters (Section.cards section)))
      <$> (section_value h <$> ss).
Proof.
  revert h. induction ss as [|s ss IH]; intros h Halloc; [done|].
  simpl.
  destruct (getFilteredAndSortedCards_at_spec filters (SectionObj.cards s) h)
    as (e1 & Hh1 & Hc & Hv).
  destruct (getFilteredAndSortedCards_at filters (SectionObj.cards s) h) as [c h1].
  simpl in Hh1, Hc, Hv. subst h1.
  destruct (map_sections_at_fresh filters ss (h ++ e1)) as (e2 & Hh2 & _ & _).
  assert (IH' := IH (h ++ e1)).
  destruct (map_sections_at filters ss (h ++ e1)) as [rest' h2].
  cbn [fst snd] in *. subst h2. rewrite !fmap_cons. f_equal.
  - unfold section_value, with_cards. simpl. f_equal.
    rewrite cards_at_app by lia. done.
  - rewrite IH'.
    + f_equal. apply list_fmap_ext. intros i s0 Hs0%list_elem_of_lookup_2.
      unfold section_value. f_equal. apply cards_at_app. apply Halloc. by right.
    + intros s0 Hs0. rewrite length_app. assert (H0 := Halloc s0 (list_elem_of_further _ _ _ Hs0)). lia.
Qed.

(** C9.  Evaluating the view of the board allocates new arrays and writes
    to no array that existed before: every cell of the heap is what it was,
    so the section array of the store and the card array of each of its
    sections hold the same elements as before; the section array of the view
    and the card array of each of its sections are new and pairwise
    distinct; and the view stands for [filteredBoard] of the store's
    board. *)
Theorem view_never_mutates_store (filters : FilterState.t) (store : BoardObj.t) (h : Heap) :
  allocated h store →
  let view := fst (filteredBoard_at filters store h) in
  let h' := snd (filteredBoard_at filters store h) in
  (∀ r, r < length h → h' !! r = h !! r)%nat
  ∧ sections_at h' (BoardObj.sections store) = sections_at h (BoardObj.sections store)
  ∧ (∀ s, s ∈ sections_at h (BoardObj.sections store) →
       cards_at h' (SectionObj.cards s) = cards_at h (SectionObj.cards s))
  ∧ board_value h' store = board_value h store
  ∧ (length h ≤ BoardObj.sections view)%nat
  ∧ (∀ s, s ∈ sections_at h' (BoardObj.sections view) →
       length h ≤ SectionObj.cards s ∧ SectionObj.cards s ≠ BoardObj.sections view)%nat
  ∧ NoDup (SectionObj.cards <$> sections_at h' (BoardObj.sections view))
  ∧ board_value h' view = filteredBoard filters (board_value h store).
Proof.
  intros [Hsec Hcards] view h'. unfold filteredBoard_at in view, h'.
  destruct (map_sections_at_fresh filters (sections_at h (BoardObj.sections store)) h)
    as (ext & Hh1 & Hall & Hnd).
  assert (Hval := map_sections_at_value filters _ h Hcards).
  destruct (map_sections_at filters (sections_at h (BoardObj.sections store)) h)
    as [ss h1].
  simpl in Hh1, Hall, Hnd, Hval. subst h1. unfold alloc in view, h'. simpl in view, h'.
  assert (∀ r, (r < length h)%nat → h' !! r = h !! r) as Hframe.
  { intros r Hr. unfold h'. rewrite <- app_assoc. by rewrite lookup_app_l. }
  assert (sections_at h' (BoardObj.sections view) = ss) as Hview.
  { unfold sections_at, h', view. simpl. by rewrite list_lookup_middle. }
  assert (∀ s, s ∈ sections_at h (BoardObj.sections store) →
            cards_at h' (SectionObj.cards s) = cards_at h (SectionObj.cards s)) as Hsame.
  { intros s Hs. unfold cards_at. by rewrite Hframe by by apply Hcards. }
  assert (sections_at h' (BoardObj.sections store) = sections_at h (BoardObj.sections store))
    as Hsecs.
  { unfold sections_at. by rewrite Hframe. }
  split; [done|]. split; [done|]. split; [done|]. split; [|split; [|split; [|split]]].
  - unfold board_value. rewrite Hsecs. f_equal.
    apply list_fmap_ext. intros i s Hs%list_elem_of_lookup_2.
    unfold section_value. f_equal. by apply Hsame.
  - unfold view. simpl. rewrite length_app. lia.
  - rewrite Hview. intros s Hs. rewrite Forall_forall in Hall.
    apply Hall in Hs. unfold view. simpl. lia.
  - by rewrite Hview.
  - unfold board_value, filteredBoard. rewrite Hview. unfold view at 1 2. simpl.
    f_equal. rewrite <- Hval.
    apply list_fmap_ext. intros i s Hs%list_elem_of_lookup_2.
    unfold section_value. f_equal. unfold h'. apply cards_at_app.
    rewrite Forall_forall in Hall. apply Hall in Hs. lia.
Qed.

(** The demo heap, viewed with the filter [high] and the sort by date. *)
Lemma view_never_mutates_store_witness :
  board_value (snd (filteredBoard_at (FilterState.mk [high] [] false sort_date)
                                     demo_board_obj demo_heap))
              demo_board_obj
  = board_value demo_heap demo_board_obj.
Proof.
  refine (proj1 (proj2 (proj2 (proj2
    (view_never_mutates_store (FilterState.mk [high] [] false sort_date)
                              demo_board_obj demo_heap _))))).
  split; [simpl; lia|].
  intros s Hs. simpl in Hs.
  repeat (apply elem_of_cons in Hs as [->|Hs]; [simpl; lia|]).
  by apply elem_of_nil in Hs.
Defined.

(** Sorting the array of the store itself, without the copy, would have
    reordered it: the copy is what the property rests on. *)
Example sort_in_place_reorders :
  Card.id <$> cards_at demo_heap 1 = ["id5"; "id6"]
  ∧ Card.id <$> cards_at (snd (sort_in_place by_date 1 demo_heap)) 1 = ["id6"; "id5"]
  ∧ Card.id <$> cards_at (snd (getFilteredAndSortedCards_at
                                 (FilterState.mk [] [] false sort_date) 1 demo_heap)) 1
    = ["id5"; "id6"].
Proof. vm_compute. repeat split. Qed.

(** Two evaluations in a row give two views that share no array. *)
Example view_is_fresh_each_time :
  let filters := FilterState.mk [high] [] false sort_date in
  let first := filteredBoard_at filters demo_board_obj demo_heap in
  let second := filteredBoard_at filters demo_board_obj (snd first) in
  BoardObj.sections (fst first) = 7%nat
  ∧ SectionObj.cards <$> sections_at (snd first) 7 = [4; 6]%nat
  ∧ BoardObj.sections (fst second) = 12%nat
  ∧ SectionObj.cards <$> sections_at (snd second) 12 = [9; 11]%nat
  ∧ board_value (snd second) (fst second) = board_value (snd first) (fst first).
Proof. vm_compute. repeat split. Qed.

End ViewFrame.

(** ** Further properties *)

(** *** Sorting, in general *)

Section Sorting.
Context {A : Type} (cmp : A → A → Z) (key : A → Z) (P : A → Prop).
Hypothesis cmp_key : ∀ a b, P a → P b → (cmp a b ≤ 0 ↔ key a ≤ key b).

Lemma sort_insert_Forall (Q : A → Prop) (x : A) (l : list A) :
  Q x → Forall Q l → Forall Q (sort_insert cmp x l).
Proof.
  intros Hx Hl. induction Hl as [|y l Hy Hl IH]; simpl; [by repeat constructor|].
  destruct (cmp x y <=? 0); by repeat constructor.
Qed.

Lemma array_sort_Forall (Q : A → Prop) (l : list A) :
  Forall Q l → Forall Q (array_sort cmp l).
Proof.
  induction 1 as [|x l Hx Hl IH]; simpl; [constructor|]. by apply sort_insert_Forall.
Qed.

Lemma sort_insert_sorted (x : A) (l : list A) :
  P x → Forall P l →
  StronglySorted (λ a b, key a ≤ key b) l →
  StronglySorted (λ a b, key a ≤ key b) (sort_insert cmp x l).
Proof.
  intros Hx HP Hs. induction Hs as [|y l Hs IH Hy]; simpl.
  - repeat constructor.
  - apply Forall_cons in HP as [HPy HP].
    destruct (cmp x y <=? 0) eqn:Hc.
    + apply Z.leb_le, cmp_key in Hc; [|done..].
      constructor; [by constructor|]. constructor; [done|].
      eapply Forall_impl; [exact Hy|]. simpl. intros z Hz. lia.
    + apply Z.leb_gt in Hc.
      assert (key y ≤ key x) as Hyx.
      { destruct (Z.le_gt_cases (key y) (key x)) as [|Hlt]; [done|].
        assert (cmp x y ≤ 0) by (apply cmp_key; [done..|lia]). lia. }
      constructor; [by apply IH|]. by apply sort_insert_Forall.
Qed.

Lemma array_sort_sorted (l : list A) :
  Forall P l → StronglySorted (λ a b, key a ≤ key b) (array_sort cmp l).
Proof.
  induction 1 as [|x l Hx Hl IH]; simpl; [constructor|].
  apply sort_insert_sorted; [done| |done]. by apply array_sort_Forall.
Qed.

(** Elements with the same key keep their order. *)
Lemma sort_insert_stable (k : Z) (x : A) (l : list A) :
  P x → Forall P l →
  List.filter (λ a, bool_decide (key a = k)) (sort_insert cmp x l)
  = List.filter (λ a, bool_decide (key a = k)) (x :: l).
Proof.
  intros Hx HP. induction HP as [|y l HPy HP IH]; [done|].
  simpl sort_insert. destruct (cmp x y <=? 0) eqn:Hc; [done|].
  apply Z.leb_gt in Hc.
  assert (key x ≠ key y) as Hne.
  { intros Heq. assert (cmp x y ≤ 0) by (apply cmp_key; [done..|lia]). lia. }
  simpl List.filter in *. rewrite IH.
  repeat case_bool_decide; congruence.
Qed.

Lemma array_sort_stable (k : Z) (l : list A) :
  Forall P l →
  List.filter (λ a, bool_decide (key a = k)) (array_sort cmp l)
  = List.filter (λ a, bool_decide (key a = k)) l.
Proof.
  induction 1 as [|x l Hx Hl IH]; [done|]. simpl array_sort.
  rewrite sort_insert_stable; [|done|by apply array_sort_Forall].
  simpl. by rewrite IH.
Qed.

End Sorting.

Lemma StronglySorted_mono {A} (R1 R2 : A → A → Prop) (l : list A) :
  (∀ a b, R1 a b → R2 a b) → StronglySorted R1 l → StronglySorted R2 l.
Proof.
  intros H. induction 1 as [|x l Hs IH Hx]; constructor; [done|].
  eapply Forall_impl; [exact Hx|]. intros y. apply H.
Qed.

Lemma kept_elem (filters : FilterState.t) (cards : list Card.t) (c : Card.t) :
  c ∈ kept filters cards → c ∈ cards.
Proof.
  unfold kept. destruct (hasActiveFilters filters); [|done]. by intros [? _]%filter_elem.
Qed.

Lemma view_sorted_by (filters : FilterState.t) (cards : list Card.t)
    (cmp : Card.t → Card.t → Z) (key : Card.t → Z) (P : Card.t → Prop) :
  comparator (FilterState.sortBy filters) = Some cmp →
  (∀ a b, P a → P b → (cmp a b ≤ 0 ↔ key a ≤ key b)) →
  Forall P cards →
  StronglySorted (λ a b, key a ≤ key b) (getFilteredAndSortedCards filters cards)
  ∧ ∀ k, List.filter (λ a, bool_decide (key a = k)) (getFilteredAndSortedCards filters cards)
         = List.filter (λ a, bool_decide (key a = k)) (kept filters cards).
Proof.
  intros Hcmp Hkey HP. unfold getFilteredAndSortedCards. rewrite Hcmp. fold (kept filters cards).
  assert (Forall P (kept filters cards)) as HP'.
  { rewrite Forall_forall in *. intros c Hc. by apply HP, (kept_elem filters). }
  split; [by apply (array_sort_sorted cmp key P)|].
  intros k. by apply (array_sort_stable cmp key P).
Qed.

(** *** The sort modes of the view *)

(** X1.  Sorted by "normal first", the view lists the normal cards first,
    then the low ones, then the high ones, and cards of one priority keep the
    order they had among the cards the filter kept. *)
Theorem view_normal_first (filters : FilterState.t) (cards : list Card.t) :
  FilterState.sortBy filters = sort_priority_normal_first →
  StronglySorted (λ a b, normal_first_rank (Card.priority a) ≤ normal_first_rank (Card.priority b))
                 (getFilteredAndSortedCards filters cards)
  ∧ (∀ p, List.filter (λ c, bool_decide (Card.priority c = p))
                      (getFilteredAndSortedCards filters cards)
          = List.filter (λ c, bool_decide (Card.priority c = p)) (kept filters cards))
  ∧ Permutation (getFilteredAndSortedCards filters cards) (kept filters cards).
Proof.
  intros Hsort.
  destruct (view_sorted_by filters cards by_priority_normal_first
              (λ c, normal_first_rank (Card.priority c)) (λ _, True)) as [Hs Hst].
  - by rewrite Hsort.
  - intros a b _ _. unfold by_priority_normal_first.
    destruct (Card.priority a), (Card.priority b); simpl; lia.
  - by apply Forall_forall.
  - split; [done|]. split; [|apply view_perm].
    intros p. specialize (Hst (normal_first_rank p)).
    erewrite (filter_pointwise _ (λ a, bool_decide (normal_first_rank (Card.priority a)
                                                   = normal_first_rank p))).
    + rewrite Hst. apply filter_pointwise. intros c _. apply bool_decide_ext.
      destruct (Card.priority c), p; simpl; split; (done || lia || congruence).
    + intros c _. apply bool_decide_ext.
      destruct (Card.priority c), p; simpl; split; (done || lia || congruence).
Qed.

Lemma view_normal_first_witness :
  Card.priority
    <$> getFilteredAndSortedCards (FilterState.mk [] [] false sort_priority_normal_first)
          [Card.mk "1" "a" EmptyString high EmptyString [] (DateMs 1) "s" None;
           Card.mk "2" "b" EmptyString normal EmptyString [] (DateMs 2) "s" None;
           Card.mk "3" "c" EmptyString low EmptyString [] (DateMs 3) "s" None;
           Card.mk "4" "d" EmptyString normal EmptyString [] (DateMs 4) "s" None]
  = [normal; normal; low; high]
  ∧ StronglySorted
      (λ a b, normal_first_rank (Card.priority a) ≤ normal_first_rank (Card.priority b))
      (getFilteredAndSortedCards (FilterState.mk [] [] false sort_priority_normal_first)
          [Card.mk "1" "a" EmptyString high EmptyString [] (DateMs 1) "s" None;
           Card.mk "2" "b" EmptyString normal EmptyString [] (DateMs 2) "s" None;
           Card.mk "3" "c" EmptyString low EmptyString [] (DateMs 3) "s" None;
           Card.mk "4" "d" EmptyString normal EmptyString [] (DateMs 4) "s" None]).
Proof.
  split; [vm_compute; reflexivity|].
  refine (proj1 (view_normal_first (FilterState.mk [] [] false sort_priority_normal_first) _ _)).
  reflexivity.
Defined.

(** X2.  Sorted by priority, the view is in ascending order of
    [priorityOrder] under "low to high" and in descending order under "high
    to low"; either way cards of one priority keep the order they had among
    the cards the filter kept (so the one is not the reverse of the
    other). *)
Theorem view_by_priority (filters : FilterState.t) (cards : list Card.t) :
  (FilterState.sortBy filters = sort_priority_low_high →
   StronglySorted (λ a b, priorityOrder (Card.priority a) ≤ priorityOrder (Card.priority b))
                  (getFilteredAndSortedCards filters cards))
  ∧ (FilterState.sortBy filters = sort_priority_high_low →
     StronglySorted (λ a b, priorityOrder (Card.priority b) ≤ priorityOrder (Card.priority a))
                    (getFilteredAndSortedCards filters cards))
  ∧ (FilterState.sortBy filters = sort_priority_low_high
     ∨ FilterState.sortBy filters = sort_priority_high_low →
     ∀ p, List.filter (λ c, bool_decide (Card.priority c = p))
                      (getFilteredAndSortedCards filters cards)
          = List.filter (λ c, bool_decide (Card.priority c = p)) (kept filters cards)).
Proof.
  assert (∀ p (l : list Card.t),
            List.filter (λ c, bool_decide (Card.priority c = p)) l
            = List.filter (λ c, bool_decide (priorityOrder (Card.priority c) = priorityOrder p)) l)
    as Hlow.
  { intros p l. apply filter_pointwise. intros c _. apply bool_decide_ext.
    destruct (Card.priority c), p; simpl; split; (done || lia || congruence). }
  assert (∀ p (l : list Card.t),
            List.filter (λ c, bool_decide (Card.priority c = p)) l
            = List.filter (λ c, bool_decide (- priorityOrder (Card.priority c) = - priorityOrder p)) l)
    as Hhigh.
  { intros p l. apply filter_pointwise. intros c _. apply bool_decide_ext.
    destruct (Card.priority c), p; simpl; split; (done || lia || congruence). }
  split; [|split].
  - intros Hsort.
    apply (view_sorted_by filters cards by_priority_low_high
             (λ c, priorityOrder (Card.priority c)) (λ _, True)).
    + by rewrite Hsort.
    + intros a b _ _. unfold by_priority_low_high. lia.
    + by apply Forall_forall.
  - intros Hsort.
    destruct (view_sorted_by filters cards by_priority_high_low
                (λ c, - priorityOrder (Card.priority c)) (λ _, True)) as [Hs _].
    + by rewrite Hsort.
    + intros a b _ _. unfold by_priority_high_low. lia.
    + by apply Forall_forall.
    + eapply StronglySorted_mono; [|exact Hs]. simpl. intros a b. lia.
  - intros [Hsort|Hsort] p.
    + destruct (view_sorted_by filters cards by_priority_low_high
                  (λ c, priorityOrder (Card.priority c)) (λ _, True)) as [_ Hst].
      * by rewrite Hsort.
      * intros a b _ _. unfold by_priority_low_high. lia.
      * by apply Forall_forall.
      * by rewrite !Hlow, Hst.
    + destruct (view_sorted_by filters cards by_priority_high_low
                  (λ c, - priorityOrder (Card.priority c)) (λ _, True)) as [_ Hst].
      * by rewrite Hsort.
      * intros a b _ _. unfold by_priority_high_low. lia.
      * by apply Forall_forall.
      * by rewrite !Hhigh, Hst.
Qed.

Lemma view_by_priority_witness :
  Card.id
    <$> getFilteredAndSortedCards (FilterState.mk [] [] false sort_priority_high_low)
          [Card.mk "1" "a" EmptyString low EmptyString [] (DateMs 1) "s" None;
           Card.mk "2" "b" EmptyString high EmptyString [] (DateMs 2) "s" None;
           Card.mk "3" "c" EmptyString high EmptyString [] (DateMs 3) "s" None]
  = ["2"; "3"; "1"]
  ∧ StronglySorted
      (λ a b, priorityOrder (Card.priority b) ≤ priorityOrder (Card.priority a))
      (getFilteredAndSortedCards (FilterState.mk [] [] false sort_priority_high_low)
          [Card.mk "1" "a" EmptyString low EmptyString [] (DateMs 1) "s" None;
           Card.mk "2" "b" EmptyString high EmptyString [] (DateMs 2) "s" None;
           Card.mk "3" "c" EmptyString high EmptyString [] (DateMs 3) "s" None]).
Proof.
  split; [vm_compute; reflexivity|].
  refine (proj1 (proj2 (view_by_priority
                          (FilterState.mk [] [] false sort_priority_high_low) _)) _).
  reflexivity.
Defined.

(** X3.  Sorted by date, a list of cards whose dates are all valid comes out
    in ascending order of creation time, cards created at the same instant
    keeping the order they had among the cards the filter kept. *)
Theorem view_by_date (filters : FilterState.t) (cards : list Card.t) :
  FilterState.sortBy filters = sort_date →
  Forall (λ c, Card.createdAt c ≠ InvalidDate) cards →
  StronglySorted (λ a b, time_of a ≤ time_of b) (getFilteredAndSortedCards filters cards)
  ∧ (∀ ms, List.filter (λ c, bool_decide (time_of c = ms))
                       (getFilteredAndSortedCards filters cards)
           = List.filter (λ c, bool_decide (time_of c = ms)) (kept filters cards)).
Proof.
  intros Hsort Hvalid.
  apply (view_sorted_by filters cards by_date time_of (λ c, Card.createdAt c ≠ InvalidDate)).
  - by rewrite Hsort.
  - intros a b Ha Hb. unfold by_date, time_of.
    destruct (Card.createdAt a), (Card.createdAt b); simpl; try done. lia.
  - done.
Qed.

Lemma view_by_date_witness :
  StronglySorted (λ a b, time_of a ≤ time_of b)
    (getFilteredAndSortedCards (FilterState.mk [] [] false sort_date)
       [Card.mk "1" "a" EmptyString low EmptyString [] (DateMs 30) "s" None;
        Card.mk "2" "b" EmptyString high EmptyString [] (DateMs 10) "s" None;
        Card.mk "3" "c" EmptyString high EmptyString [] (DateMs 20) "s" None]).
Proof.
  refine (proj1 (view_by_date (FilterState.mk [] [] false sort_date) _ _ _)).
  - reflexivity.
  - repeat constructor; discriminate.
Defined.

(** *** An empty filter set *)

(** X4.  In disjunctive mode (the mode filters start in) an empty filter
    set matches every card: as long as one of the two sets is empty nothing
    is filtered out, whatever the other set holds, and the view is the whole
    list in the order of the sort mode. *)
Theorem disjunctive_filter_needs_both_sets (filters : FilterState.t) (cards : list Card.t) :
  FilterState.multiFilter filters = false →
  FilterState.priorities filters = [] ∨ FilterState.executors filters = [] →
  kept filters cards = cards
  ∧ Permutation (getFilteredAndSortedCards filters cards) cards
  ∧ (∀ c, c ∈ cards → c ∈ getFilteredAndSortedCards filters cards).
Proof.
  intros Hmode Hempty.
  assert (kept filters cards = cards) as Hkept.
  { unfold kept. destruct (hasActiveFilters filters); [|done].
    rewrite <- (filter_pointwise (λ _, true)).
    - induction cards as [|c cards IH]; simpl; [done|]. by rewrite IH.
    - intros c _. unfold card_matches. rewrite Hmode.
      destruct Hempty as [->| ->]; simpl; by rewrite ?orb_true_r. }
  split; [done|]. split.
  - rewrite view_perm. fold (kept filters cards). by rewrite Hkept.
  - intros c Hc. rewrite view_perm. fold (kept filters cards). by rewrite Hkept.
Qed.

(** Only the priority "high" is ticked, in the starting mode: the low card
    stays. *)
Lemma disjunctive_filter_needs_both_sets_witness :
  kept (FilterState.mk [high] [] false sort_date)
       [Card.mk "1" "a" EmptyString low EmptyString [] (DateMs 1) "s" None]
  = [Card.mk "1" "a" EmptyString low EmptyString [] (DateMs 1) "s" None].
Proof.
  refine (proj1 (disjunctive_filter_needs_both_sets
                   (FilterState.mk [high] [] false sort_date) _ _ _)).
  - reflexivity.
  - right. reflexivity.
Defined.

(** X5.  In conjunctive mode an empty filter set imposes nothing: with no
    executor ticked the view holds exactly the cards whose priority is
    ticked, with no priority ticked exactly the cards whose executor is
    ticked. *)
Theorem conjunctive_filter_one_set (filters : FilterState.t) (cards : list Card.t) (c : Card.t) :
  FilterState.multiFilter filters = true →
  (FilterState.executors filters = [] → FilterState.priorities filters ≠ [] →
   (c ∈ getFilteredAndSortedCards filters cards
    ↔ c ∈ cards ∧ Card.priority c ∈ FilterState.priorities filters))
  ∧ (FilterState.priorities filters = [] → FilterState.executors filters ≠ [] →
     (c ∈ getFilteredAndSortedCards filters cards
      ↔ c ∈ cards ∧ Card.executor c ∈ FilterState.executors filters)).
Proof.
  intros Hmode. split.
  - intros He Hp. rewrite view_perm.
    unfold hasActiveFilters, card_matches. rewrite Hmode, He.
    destruct (FilterState.priorities filters) as [|p ps] eqn:Hps; [done|]. simpl.
    rewrite filter_elem, andb_true_r, bool_decide_eq_true. done.
  - intros Hp He. rewrite view_perm.
    unfold hasActiveFilters, card_matches. rewrite Hmode, Hp.
    destruct (FilterState.executors filters) as [|e es] eqn:Hes; [done|]. simpl.
    rewrite filter_elem, bool_decide_eq_true. done.
Qed.

Lemma conjunctive_filter_one_set_witness :
  Card.mk "1" "a" EmptyString high "Bob" [] (DateMs 1) "s" None
  ∈ getFilteredAndSortedCards (FilterState.mk [high] [] true sort_date)
      [Card.mk "1" "a" EmptyString high "Bob" [] (DateMs 1) "s" None]
  ↔ Card.mk "1" "a" EmptyString high "Bob" [] (DateMs 1) "s" None
    ∈ [Card.mk "1" "a" EmptyString high "Bob" [] (DateMs 1) "s" None]
    ∧ high ∈ [high].
Proof.
  refine (proj1 (conjunctive_filter_one_set (FilterState.mk [high] [] true sort_date) _ _ _)
            _ _).
  - reflexivity.
  - reflexivity.
  - discriminate.
Defined.

(** *** Toggling a filter value *)

Lemma toggle_list {A} `{EqDecision A} (x : A) (l : list A) :
  let l' := if bool_decide (x ∈ l) then filter (λ y, y ≠ x) l else (l ++ [x])%list in
  (x ∈ l' ↔ x ∉ l)
  ∧ (∀ y, y ≠ x → (y ∈ l' ↔ y ∈ l))
  ∧ (NoDup l → NoDup l').
Proof.
  simpl. case_bool_decide as Hin.
  - split; [|split].
    + rewrite list_elem_of_filter. tauto.
    + intros y Hy. rewrite list_elem_of_filter. tauto.
    + apply NoDup_filter.
  - split; [|split].
    + rewrite elem_of_app, list_elem_of_singleton. tauto.
    + intros y Hy. rewrite elem_of_app, list_elem_of_singleton. tauto.
    + intros Hnd. apply NoDup_app. split; [done|]. split; [|apply NoDup_singleton].
      intros y Hy ->%list_elem_of_singleton. done.
Qed.

(** X6.  Toggling a priority (an executor) flips whether it is ticked and
    changes neither which other priorities (executors) are ticked nor any
    other part of the filter state; a list without repetition stays without
    repetition, so a value is never ticked twice. *)
Theorem toggle_flips_one_value (prev : FilterState.t) (p : Priority) (e : string) :
  ((p ∈ FilterState.priorities (togglePriority p prev) ↔ p ∉ FilterState.priorities prev)
   ∧ (∀ q, q ≠ p → (q ∈ FilterState.priorities (togglePriority p prev)
                    ↔ q ∈ FilterState.priorities prev))
   ∧ (NoDup (FilterState.priorities prev) → NoDup (FilterState.priorities (togglePriority p prev)))
   ∧ FilterState.executors (togglePriority p prev) = FilterState.executors prev
   ∧ FilterState.multiFilter (togglePriority p prev) = FilterState.multiFilter prev
   ∧ FilterState.sortBy (togglePriority p prev) = FilterState.sortBy prev)
  ∧ ((e ∈ FilterState.executors (toggleExecutor e prev) ↔ e ∉ FilterState.executors prev)
     ∧ (∀ x, x ≠ e → (x ∈ FilterState.executors (toggleExecutor e prev)
                      ↔ x ∈ FilterState.executors prev))
     ∧ (NoDup (FilterState.executors prev) → NoDup (FilterState.executors (toggleExecutor e prev)))
     ∧ FilterState.priorities (toggleExecutor e prev) = FilterState.priorities prev
     ∧ FilterState.multiFilter (toggleExecutor e prev) = FilterState.multiFilter prev
     ∧ FilterState.sortBy (toggleExecutor e prev) = FilterState.sortBy prev).
Proof.
  split.
  - destruct (toggle_list p (FilterState.priorities prev)) as (H1 & H2 & H3).
    split; [exact H1|]. split; [exact H2|]. split; [exact H3|]. done.
  - destruct (toggle_list e (FilterState.executors prev)) as (H1 & H2 & H3).
    split; [exact H1|]. split; [exact H2|]. split; [exact H3|]. done.
Qed.

(** *** The project of a location *)

Lemma upto_slash_clean (s : string) :
  Forall (λ c, c ≠ "/"%char) (String.list_ascii_of_string s) → upto_slash s = s.
Proof.
  induction s as [|c s IH]; simpl; [done|]. intros [Hc Hs]%Forall_cons.
  rewrite (proj2 (Ascii.eqb_neq c "/") Hc). by rewrite IH.
Qed.

Lemma upto_slash_no_slash (s : string) :
  Forall (λ c, c ≠ "/"%char) (String.list_ascii_of_string (upto_slash s)).
Proof.
  induction s as [|c s IH]; simpl; [constructor|].
  destruct (Ascii.eqb c "/") eqn:Hc; simpl; [constructor|].
  constructor; [by apply Ascii.eqb_neq|done].
Qed.

Lemma upto_slash_append (s rest : string) :
  Forall (λ c, c ≠ "/"%char) (String.list_ascii_of_string s) →
  upto_slash (s ++ String "/" rest)%string = s.
Proof.
  induction s as [|c s IH]; simpl; [done|]. intros [Hc Hs]%Forall_cons.
  rewrite (proj2 (Ascii.eqb_neq c "/") Hc). by rewrite IH.
Qed.

Lemma strip_prefix_append (p s : string) : strip_prefix p (p ++ s)%string = Some s.
Proof.
  induction p as [|c p IH]; simpl; [by destruct s|]. by rewrite Ascii.eqb_refl.
Qed.

(** X7.  The project of a location is never empty and holds no slash; it is
    ["default"] unless the path starts with [/project/]; and a path built as
    [/project/<id>], alone or followed by [/...], gives back [<id>] when
    [<id>] is not empty and holds no slash. *)
Theorem projectId_of_path (path id rest : string) :
  (truthy (projectId_of path) = true
   ∧ Forall (λ c, c ≠ "/"%char) (String.list_ascii_of_string (projectId_of path)))
  ∧ (strip_prefix "/project/" path = None → projectId_of path = "default")
  ∧ (truthy id = true → Forall (λ c, c ≠ "/"%char) (String.list_ascii_of_string id) →
     projectId_of ("/project/" ++ id)%string = id
     ∧ projectId_of ("/project/" ++ id ++ String "/" rest)%string = id).
Proof.
  split; [|split].
  - unfold projectId_of. destruct (strip_prefix _ _) as [s|]; [|split; [done|]].
    + destruct (truthy (upto_slash s)) eqn:Ht; [split; [done|apply upto_slash_no_slash]|].
      split; [done|]. repeat constructor; discriminate.
    + repeat constructor; discriminate.
  - unfold projectId_of. by intros ->.
  - intros Hid Hclean. unfold projectId_of.
    rewrite !strip_prefix_append, upto_slash_clean, upto_slash_append, Hid by done. done.
Qed.

Lemma projectId_of_path_witness :
  projectId_of ("/project/" ++ "id0")%string = "id0"
  ∧ projectId_of ("/project/" ++ "id0" ++ String "/" "card/id5")%string = "id0".
Proof.
  refine (proj2 (proj2 (projectId_of_path EmptyString "id0" "card/id5")) _ _).
  - reflexivity.
  - repeat constructor; discriminate.
Defined.

(** *** Loading the board *)

(** X8.  The load on mount never rejects and always ends with the store
    marked as loaded, after exactly one request for the board of the
    location's project; the board is the revived answer when the request
    succeeds with a board whose cards all carry comments, and is left as it
    was in every other case. *)
Theorem load_always_settles {R : Type} `{!Remote R} (st : Store R) :
  fst (load st) = Resolved ()
  ∧ loaded (snd (load st)) = true
  ∧ calls (snd (load st))
    = (calls st ++ [existT _ (GET_board (projectId_of (pathname st)))])%list
  ∧ toasts (snd (load st)) = toasts st
  ∧ board (snd (load st))
    = match fst (handle (GET_board (projectId_of (pathname st))) (remote st)) with
      | Success _ b => default (board st) (reviveBoardDates b)
      | Failure _ _ => board st
      end.
Proof.
  unfold load, try_finally, refetch, bind, getProjectId, fetch, setLoaded, setBoard, throw.
  simpl. destruct (handle _ _) as [[status b|status err] r']; simpl; [|done].
  destruct (reviveBoardDates b); done.
Qed.

(** *** Page handlers whose call is not awaited *)

(** X9.  The handlers for deleting a card, clearing a section and deleting
    all sections start the operation without awaiting it: they never reject
    and always show their success toast, also when the remote call fails, in
    which case the board is what it was. *)
Theorem handlers_toast_regardless {R : Type} `{!Remote R} (st : Store R)
    (cardId sectionId : string) :
  (fst (handleCardDelete cardId st) = Resolved ()
   ∧ toasts (snd (handleCardDelete cardId st))
     = (toasts st ++ [Toast.mk "Card deleted" "Card has been removed from the board"])%list
   ∧ (ok (fst (handle (DELETE_card (projectId_of (pathname st)) cardId) (remote st))) = false →
      board (snd (handleCardDelete cardId st)) = board st))
  ∧ (fst (handleDeleteAllSections st) = Resolved ()
     ∧ toasts (snd (handleDeleteAllSections st))
       = (toasts st ++ [Toast.mk "All sections deleted"
                          "All custom sections deleted, cards moved to Backlog"])%list
     ∧ (ok (fst (handle (POST_sections_delete_all (projectId_of (pathname st))) (remote st)))
        = false →
        board (snd (handleDeleteAllSections st)) = board st))
  ∧ (fst (handleClearSection sectionId st) = Resolved ()
     ∧ (∃ t, toasts (snd (handleClearSection sectionId st)) = (toasts st ++ [t])%list
             ∧ Toast.title t = "Section cleared")
     ∧ (ok (fst (handle (POST_section_clear (projectId_of (pathname st)) sectionId) (remote st)))
        = false →
        board (snd (handleClearSection sectionId st)) = board st)).
Proof.
  split; [|split].
  - unfold handleCardDelete, deleteCard, unawaited, bind, toast, getProjectId, fetch, setBoard, throw.
    simpl. destruct (handle _ _) as [[status body|status err] r']; simpl; repeat split; try done; try (by intros [=]).
  - unfold handleDeleteAllSections, deleteAllSections, refetch, unawaited, bind, toast,
      getProjectId, fetch, setBoard, throw.
    simpl. destruct (handle _ _) as [[status body|status err] r']; simpl; [|repeat split; try done; try (by intros [=])].
    destruct (handle _ _) as [[status2 b|status2 err2] r'']; simpl; [|repeat split; try done; try (by intros [=])].
    destruct (reviveBoardDates b); simpl; repeat split; try done; try (by intros [=]).
  - unfold handleClearSection, clearSection, refetch, unawaited, bind, toast, getBoard,
      getProjectId, fetch, setBoard, throw.
    simpl. destruct (handle _ _) as [[status body|status err] r']; simpl;
      [|repeat split; eauto; try (by intros [=])].
    destruct (handle _ _) as [[status2 b|status2 err2] r'']; simpl;
      [|repeat split; eauto; try (by intros [=])].
    destruct (reviveBoardDates b); simpl; repeat split; eauto; try (by intros [=]).
Qed.

(** *** A drag that moves *)

(** X10.  A drag that ends over a section of the board with a non-empty
    identifier, other than the section the handler finds for the card, issues
    exactly one request, the move of that card to that section, shows the
    "Card moved" toast whatever the answer, and leaves the board as
    [moveCard] leaves it. *)
Theorem drag_to_other_section {R : Type} `{!Remote R} (event : DragEndEvent.t) (st : Store R)
    (dropId : string) (target : Section.t) :
  DragEndEvent.over event = Some dropId →
  targetSection (board st) dropId = Some target →
  truthy (Section.id target) = true →
  Section.id <$> currentSection (board st) (DragEndEvent.active event) ≠ Some (Section.id target) →
  fst (handleDragEnd event st) = Resolved ()
  ∧ calls (snd (handleDragEnd event st))
    = (calls st ++ [existT _ (POST_card_move (projectId_of (pathname st))
                                (DragEndEvent.active event) dropId)])%list
  ∧ (∃ t, toasts (snd (handleDragEnd event st)) = (toasts st ++ [t])%list
          ∧ Toast.title t = "Card moved")
  ∧ board (snd (handleDragEnd event st))
    = board (snd (moveCard (DragEndEvent.active event) dropId st)).
Proof.
  intros Hover Htarget Htruthy Hother.
  assert (Section.id target = dropId) as Hid.
  { apply find_some_elem in Htarget as [_ Hid]. by apply bool_decide_eq_true in Hid. }
  assert (handleDragEnd event st
          = bind (unawaited (moveCard (DragEndEvent.active event) dropId))
                 (λ _, toast (Toast.mk "Card moved"
                                ("Card moved to " ++ dq ++ Section.title target ++ dq)))
                 st) as Hrun.
  { unfold handleDragEnd. rewrite Hover. unfold bind at 1, getBoard. cbv beta iota.
    rewrite Htarget. cbn [fmap option_fmap option_map falsy]. rewrite Htruthy.
    rewrite bool_decide_eq_false_2 by (intros Heq; by rewrite Heq in Hother).
    cbn [negb orb]. by rewrite Hid. }
  rewrite Hrun.
  unfold moveCard, unawaited, bind, toast, getProjectId, fetch, setBoard, throw. simpl.
  destruct (handle _ _) as [[status body|status err] r']; simpl;
    (split; [done|]; split; [done|]; split; [eexists; split; reflexivity|done]).
Qed.

Lemma drag_to_other_section_witness :
  calls (snd (handleDragEnd (DragEndEvent.mk "id5" (Some "id3")) demo_store))
  = (calls demo_store ++ [existT _ (POST_card_move "id0" "id5" "id3")])%list.
Proof.
  refine (proj1 (proj2
    (drag_to_other_section (DragEndEvent.mk "id5" (Some "id3")) demo_store "id3"
       (Section.mk "id3" "Review" [] true) _ _ _ _))).
  - reflexivity.
  - vm_compute. reflexivity.
  - reflexivity.
  - vm_compute. discriminate.
Defined.

(** *** The board the server sends *)

Lemma mapM_fmap_total {A B C} (f : B → option C) (h : A → B) (g : A → C) (l : list A) :
  (∀ x, x ∈ l → f (h x) = Some (g x)) → mapM f (h <$> l) = Some (g <$> l).
Proof.
  induction l as [|x l IH]; intros H; [done|].
  rewrite !fmap_cons. cbn. rewrite (H x) by left. cbn. rewrite IH; [done|].
  intros y Hy. apply H. by right.
Qed.

Lemma revive_section_row (db : Prisma.t) (s : SectionRow.t) (cs : list CardRow.t) :
  revive_section (Api.section_row_json s (Prisma.card_json db <$> cs))
  = Some (Section.mk (SectionRow.id s) (SectionRow.title s) (row_card db <$> cs)
                     (SectionRow.canDelete s)).
Proof.
  unfold revive_section. simpl.
  by rewrite (mapM_fmap_total revive_card (Prisma.card_json db) (row_card db)).
Qed.

(** The cards of a project, in the order of the board route. *)
Lemma project_cards_elem (db : Prisma.t) (projectId : string) (c : CardRow.t) :
  c ∈ array_sort Prisma.by_createdAt
        (List.filter (Prisma.card_in_project db projectId) (Prisma.cards db))
  ↔ c ∈ Prisma.cards db ∧ Prisma.card_in_project db projectId c = true.
Proof. by rewrite array_sort_elem, filter_elem. Qed.

Lemma sorted_key_NoDup {A} (cmp : A → A → Z) (key : A → string) (p : A → bool) (l : list A) :
  NoDup (key <$> l) → NoDup (key <$> array_sort cmp (List.filter p l)).
Proof.
  intros Hnd. rewrite array_sort_perm. by apply filter_key_NoDup.
Qed.

(** X11.  When the primary keys of the section and card tables hold, the
    board route changes nothing and answers with a board the store can
    revive; on the revived board section identifiers are pairwise distinct,
    every card is listed by exactly one section, which is the section its
    [sectionId] names, and the cards on the board are exactly the card rows
    whose section belongs to the project. *)
Theorem fetched_board_is_consistent (db db' : Prisma.t) (projectId : string)
    (status : nat) (b : BoardJson.t) :
  section_key db → card_key db →
  Api.get_board projectId db = (Success status b, db') →
  db' = db
  ∧ ∃ board, reviveBoardDates b = Some board
      ∧ NoDup (Section.id <$> Board.sections board)
      ∧ exclusive board
      ∧ placed board
      ∧ (∀ cardId, on_board board cardId
                   ↔ ∃ c, c ∈ Prisma.cards db ∧ CardRow.id c = cardId
                          ∧ Prisma.card_in_project db projectId c = true).
Proof.
  intros Hskey Hckey. unfold Api.get_board.
  destruct (List.find _ (Prisma.projects db)) as [project|]; [|done].
  intros [= _ <- <-]. split; [done|].
  set (sections := array_sort Prisma.by_title
         (List.filter (λ s, bool_decide (SectionRow.projectId s = projectId))
                      (Prisma.sections db))).
  set (cards := array_sort Prisma.by_createdAt
         (List.filter (Prisma.card_in_project db projectId) (Prisma.cards db))).
  set (section_of := λ s : SectionRow.t,
         Section.mk (SectionRow.id s) (SectionRow.title s)
           (row_card db <$> List.filter (λ c, bool_decide (CardRow.sectionId c = SectionRow.id s))
                                        cards)
           (SectionRow.canDelete s)).
  assert (NoDup (SectionRow.id <$> sections)) as Hsnd by by apply sorted_key_NoDup.
  assert (NoDup (CardRow.id <$> cards)) as Hcnd by by apply sorted_key_NoDup.
  exists (Board.mk (projectId ++ "-board") (ProjectRow.title project) (section_of <$> sections)).
  assert (∀ cardId s, holds_card cardId (section_of s) = true
            ↔ ∃ c, c ∈ cards ∧ CardRow.id c = cardId ∧ CardRow.sectionId c = SectionRow.id s)
    as Hholds.
  { intros cardId s. rewrite holds_card_true. simpl. split.
    - intros (c' & (c & -> & [Hc Hs]%filter_elem)%list_elem_of_fmap & Hid).
      apply bool_decide_eq_true in Hs. by exists c.
    - intros (c & Hc & Hid & Hs). exists (row_card db c). split; [|done].
      apply list_elem_of_fmap. exists c. split; [done|]. apply filter_elem.
      split; [done|]. by apply bool_decide_eq_true. }
  split; [|split; [|split; [|split]]].
  - unfold reviveBoardDates. simpl.
    rewrite (mapM_fmap_total revive_section _ section_of); [done|].
    intros s _. apply revive_section_row.
  - simpl. rewrite <- list_fmap_compose. done.
  - apply exclusive_at_most_one. intros cardId. unfold holders. simpl.
    rewrite filter_fmap_comm, length_fmap.
    destruct (List.find (λ c, bool_decide (CardRow.id c = cardId)) cards) as [c0|] eqn:Hfind.
    + apply find_some_elem in Hfind as [Hc0 Hid0%bool_decide_eq_true].
      etrans; [|by apply (filter_key_length SectionRow.id (CardRow.sectionId c0))].
      apply filter_length_mono. intros s _ (c & Hc & Hid & Hs)%Hholds.
      apply bool_decide_eq_true.
      assert (c = c0) as -> by (eapply (key_injective CardRow.id); [done..|congruence]).
      done.
    + rewrite filter_none; [simpl; lia|].
      intros s _. apply not_true_is_false. intros (c & Hc & Hid & _)%Hholds.
      eapply find_none in Hfind; [|by apply list_elem_of_In].
      simpl in Hfind. by rewrite bool_decide_eq_true_2 in Hfind.
  - intros s' c' (s & -> & _)%list_elem_of_fmap. simpl.
    intros (c & -> & [_ Hs]%filter_elem)%list_elem_of_fmap.
    by apply bool_decide_eq_true in Hs.
  - intros cardId. unfold on_board. simpl. split.
    + intros (s' & c' & (s & -> & Hs)%list_elem_of_fmap & Hc' & Hid). simpl in Hc'.
      apply list_elem_of_fmap in Hc' as (c & -> & [Hc _]%filter_elem).
      apply project_cards_elem in Hc as [Hc Hp]. by exists c.
    + intros (c & Hc & Hid & Hp).
      assert (Hp' := Hp). unfold Prisma.card_in_project in Hp'.
      apply existsb_exists in Hp' as (s & Hs & [Hsid Hspid]%andb_prop).
      apply bool_decide_eq_true in Hsid. apply bool_decide_eq_true in Hspid.
      exists (section_of s), (row_card db c). split; [|split; [|done]].
      * apply list_elem_of_fmap. exists s. split; [done|].
        apply array_sort_elem, filter_elem. split; [by apply list_elem_of_In|].
        by apply bool_decide_eq_true.
      * simpl. apply list_elem_of_fmap. exists c. split; [done|].
        apply filter_elem. split; [by apply project_cards_elem|].
        by apply bool_decide_eq_true.
Qed.

Lemma fetched_board_is_consistent_witness :
  ∃ board, reviveBoardDates
             (BoardJson.mk "id0-board" "Demo"
                [SectionJson.mk "id1" "Backlog" [] false;
                 SectionJson.mk "id4" "Done" [] true;
                 SectionJson.mk "id3" "Review" [] true;
                 SectionJson.mk "id2" "To Do"
                   [CardJson.mk "id5" "Write tests" "unit" high "Bob" (Some []) (Some 1005)
                                "id2" (Some [])] true]) = Some board
           ∧ NoDup (Section.id <$> Board.sections board)
           ∧ exclusive board
           ∧ placed board
           ∧ (∀ cardId, on_board board cardId
                        ↔ ∃ c, c ∈ Prisma.cards demo_db ∧ CardRow.id c = cardId
                               ∧ Prisma.card_in_project demo_db "id0" c = true).
Proof.
  refine (proj2 (fetched_board_is_consistent demo_db demo_db "id0" 200 _ _ _ _)).
  - apply (bool_decide_unpack _). vm_compute. exact I.
  - apply (bool_decide_unpack _). vm_compute. exact I.
  - vm_compute. reflexivity.
Defined.

(** *** Keys and references of the database *)

Lemma integrity_same_tables (db db' : Prisma.t) :
  Prisma.sections db' = Prisma.sections db → Prisma.cards db' = Prisma.cards db →
  integrity db → integrity db'.
Proof.
  unfold integrity, section_key, card_key, card_fk. intros -> ->. done.
Qed.

Lemma delete_cards_integrity (ids : list string) (db : Prisma.t) :
  integrity db → integrity (Prisma.delete_cards ids db).
Proof.
  intros (Hs & Hc & Hfk). split; [done|]. split.
  - unfold card_key. simpl. by apply filter_key_NoDup.
  - intros c. simpl. intros [Hc' _]%filter_elem. by apply Hfk.
Qed.

Lemma delete_sections_integrity (ids : list string) (db : Prisma.t) :
  integrity db → integrity (Prisma.delete_sections ids db).
Proof.
  intros (Hs & Hc & Hfk). split; [|split].
  - unfold section_key. simpl. by apply filter_key_NoDup.
  - unfold card_key. simpl. by apply filter_key_NoDup.
  - intros c. simpl. intros [Hc' Hkeep]%filter_elem.
    apply negb_true_iff, bool_decide_eq_false in Hkeep.
    pose proof (Hfk c Hc') as (s & Hsid & Hsin)%list_elem_of_fmap.
    apply list_elem_of_fmap. exists s. split; [done|]. apply filter_elem. split; [done|].
    apply negb_true_iff, bool_decide_eq_false. intros Hin. apply Hkeep.
    apply list_elem_of_fmap. exists c. split; [done|]. apply filter_elem. split; [done|].
    apply bool_decide_eq_true. by rewrite Hsid.
Qed.

Lemma create_section_integrity (s : SectionRow.t) (db db' : Prisma.t) :
  Prisma.create_section s db = Some db' → integrity db → integrity db'.
Proof.
  intros Hcreate (Hs & Hc & Hfk).
  assert (Prisma.cards db' = Prisma.cards db) as Hcards.
  { revert Hcreate. unfold Prisma.create_section. case_match; [done|]. by intros [= <-]. }
  apply create_section_sections in Hcreate as [Heq Hfresh].
  split; [|split].
  - unfold section_key. rewrite Heq, fmap_app. by apply NoDup_snoc_fresh.
  - unfold card_key. by rewrite Hcards.
  - intros c. rewrite Hcards, Heq, fmap_app. intros Hin. apply elem_of_app. left. by apply Hfk.
Qed.

Lemma create_card_integrity (c : CardRow.t) (db db' : Prisma.t) :
  Prisma.create_card c db = Some db' →
  CardRow.sectionId c ∈ SectionRow.id <$> Prisma.sections db →
  integrity db → integrity db'.
Proof.
  unfold Prisma.create_card, Prisma.mem. case_bool_decide as Hfresh; [done|].
  intros [= <-] Hsec (Hs & Hc & Hfk). split; [done|]. split.
  - unfold card_key. simpl. rewrite fmap_app. by apply NoDup_snoc_fresh.
  - intros c'. simpl. intros [Hin| ->%list_elem_of_singleton]%elem_of_app; [by apply Hfk|done].
Qed.

Lemma update_card_integrity (cardId : string) (f : CardRow.t → CardRow.t)
    (db db' : Prisma.t) (c : CardRow.t) :
  (∀ c0, CardRow.id (f c0) = CardRow.id c0) →
  (∀ c1 c2, CardRow.sectionId (f c1) = CardRow.sectionId (f c2)) →
  Prisma.update_card cardId f db = Some (c, db') →
  integrity db → integrity db'.
Proof.
  intros Hid Hsec. unfold Prisma.update_card, Prisma.mem.
  destruct (Prisma.findCard db cardId) as [c0|]; [|done]. simpl.
  case_bool_decide as Hfk0; [|done]. intros [= <- <-] (Hs & Hc & Hfk).
  split; [done|]. split.
  - unfold card_key. simpl. rewrite <- list_fmap_compose.
    erewrite list_fmap_ext; [exact Hc|]. intros i c1 _. simpl. by case_bool_decide.
  - intros c'. simpl. intros (c1 & -> & Hc1)%list_elem_of_fmap.
    case_bool_decide; [|by apply Hfk]. by rewrite (Hsec c1 c0).
Qed.

Lemma findSectionById_elem (db : Prisma.t) (projectId sectionId : string) (s : SectionRow.t) :
  Prisma.findSectionById db projectId sectionId = Some s →
  s ∈ Prisma.sections db ∧ SectionRow.id s = sectionId ∧ SectionRow.projectId s = projectId.
Proof.
  intros [Hin [Hid Hp]%andb_prop]%find_some_elem.
  by apply bool_decide_eq_true in Hid; apply bool_decide_eq_true in Hp.
Qed.

Lemma route_integrity {A} (req : Request A) (db : Prisma.t) :
  integrity db → integrity (snd (Api.route req db)).
Proof.
  intros Hint. destruct req; simpl.
  - (* POST projects *)
    unfold Api.post_projects.
    destruct (Prisma.create_project _ _) as [db1|] eqn:Hp; [|by apply (integrity_same_tables db)].
    assert (integrity db1) as H1.
    { revert Hp. unfold Prisma.create_project. case_match; [done|]. intros [= <-].
      by apply (integrity_same_tables db). }
    destruct (Api.seed_sections _ db1) as [db2|] eqn:Hs; [|by apply (integrity_same_tables db1)].
    apply (integrity_same_tables db2); [done..|].
    revert Hs. unfold Api.seed_sections.
    destruct (Prisma.create_section _ db1) as [d1|] eqn:E1; simpl; [|done].
    destruct (Prisma.create_section _ d1) as [d2|] eqn:E2; simpl; [|done].
    destruct (Prisma.create_section _ d2) as [d3|] eqn:E3; simpl; [|done].
    intros E4. eauto using create_section_integrity.
  - unfold Api.get_board. by case_match.
  - unfold Api.post_sections. case_match; [done|]. case_match; [|done].
    destruct (Prisma.create_section _ _) as [db1|] eqn:Hc; [|by apply (integrity_same_tables db)].
    eapply create_section_integrity; [exact Hc|]. by apply (integrity_same_tables db).
  - unfold Api.delete_section. case_match; [|done]. case_match; [done|]. simpl.
    by apply delete_sections_integrity, delete_cards_integrity.
  - unfold Api.post_section_clear. case_match; [|done]. simpl.
    case_match; [by apply delete_cards_integrity|done].
  - unfold Api.post_sections_delete_all.
    destruct (List.find _ _) as [backlog|] eqn:Hfind; [|done]. simpl.
    apply delete_sections_integrity.
    apply find_some_elem in Hfind as [[Hin _]%filter_elem _].
    destruct Hint as (Hs & Hc & Hfk). split; [done|]. split.
    + unfold card_key. simpl. rewrite <- list_fmap_compose.
      erewrite list_fmap_ext; [exact Hc|]. intros i c _. simpl. by case_match.
    + intros c'. simpl. intros (c & -> & Hcin)%list_elem_of_fmap.
      case_match; [|by apply Hfk]. simpl. by apply list_elem_of_fmap_2.
  - unfold Api.post_assignees. repeat case_match; try done; by apply (integrity_same_tables db).
  - unfold Api.delete_assignee. case_match; [|done]. by apply (integrity_same_tables db).
  - unfold Api.post_cards. case_match; [done|].
    destruct (Prisma.findSectionById _ _ _) as [s|] eqn:Hfind; [|done].
    destruct (Prisma.create_card _ _) as [db1|] eqn:Hc; [|by apply (integrity_same_tables db)].
    apply findSectionById_elem in Hfind as (Hin & Hid & _).
    eapply create_card_integrity; [exact Hc| |by apply (integrity_same_tables db)].
    simpl. rewrite <- Hid. by apply list_elem_of_fmap_2.
  - unfold Api.put_card. case_match; [done|]. case_match; [done|].
    destruct (Prisma.update_card _ _ _) as [[c db1]|] eqn:Hu; [|done].
    by eapply update_card_integrity; [| |exact Hu|].
  - unfold Api.delete_card. case_match.
    + apply delete_cards_integrity. by apply (integrity_same_tables db).
    + by apply (integrity_same_tables db).
  - unfold Api.post_card_move. case_match; [done|]. case_match; [|done].
    destruct (Prisma.update_card _ _ _) as [[c db1]|] eqn:Hu; [|done].
    by eapply update_card_integrity; [| |exact Hu|].
Qed.

Lemma authMiddleware_integrity {A} (jwt_verify : string → option string)
    (authorization : option string) (next : string → Api.Handler A) (db : Prisma.t) :
  (∀ userId, integrity (snd (next userId db))) → integrity db →
  integrity (snd (CommentApi.authMiddleware jwt_verify authorization next db)).
Proof.
  intros Hnext Hint. unfold CommentApi.authMiddleware. repeat case_match; done.
Qed.

Lemma api_step_integrity (db db' : Prisma.t) :
  api_step db db' → integrity db → integrity db'.
Proof.
  intros [A req db0|v a p c t db0|v a p c t db0|v a p c db0|p sc sid pr db0] Hint.
  - by apply route_integrity.
  - apply authMiddleware_integrity; [|done]. intros userId.
    case_match; [done|]. case_match; [|done].
    unfold CommentApi.create_comment.
    repeat case_match; simplify_eq; by apply (integrity_same_tables db0).
  - apply authMiddleware_integrity; [|done]. intros userId.
    repeat case_match; try done; by apply (integrity_same_tables db0).
  - apply authMiddleware_integrity; [|done]. intros userId.
    repeat case_match; try done; by apply (integrity_same_tables db0).
  - unfold CommentApi.bulk_delete. repeat case_match; try done;
      by apply delete_cards_integrity.
Qed.

(** X12.  Every run of the server keeps the database consistent: starting
    from a database in which section and card identifiers are unique and
    every card points at an existing section, the same holds after any
    sequence of requests to the modelled routes, whatever they answer. *)
Theorem server_keeps_integrity (db db' : Prisma.t) :
  api_run db db' → integrity db → integrity db'.
Proof.
  induction 1 as [|db db' db'' Hstep _ IH]; [done|].
  intros Hint. apply IH. by eapply api_step_integrity.
Qed.

Lemma server_keeps_integrity_witness : integrity demo_db.
Proof.
  apply (server_keeps_integrity (Prisma.empty demo_genId demo_clock)).
  - eapply run_step; [apply (step_route (POST_projects (Some "Demo")))|].
    eapply run_step; [apply (step_route (POST_cards "id0" "id2" demo_draft))|].
    apply run_done.
  - repeat split; try apply NoDup_nil_2. by intros c Hc%elem_of_nil.
Defined.

(** *** Bulk operations of the server *)

Lemma delete_by_filter (p : CardRow.t → bool) (db : Prisma.t) :
  card_key db →
  Prisma.cards (Prisma.delete_cards (CardRow.id <$> List.filter p (Prisma.cards db)) db)
  = List.filter (λ c, negb (p c)) (Prisma.cards db).
Proof.
  intros Hkey. simpl. apply filter_pointwise. intros c Hc. f_equal.
  unfold Prisma.mem. destruct (p c) eqn:Hp.
  - apply bool_decide_eq_true, list_elem_of_fmap. exists c. split; [done|].
    by apply filter_elem.
  - apply bool_decide_eq_false.
    intros (c2 & Hid & [Hc2 Hp2]%filter_elem)%list_elem_of_fmap.
    assert (c = c2) by (by eapply (key_injective CardRow.id)). congruence.
Qed.

Lemma filter_all {A} (p : A → bool) (l : list A) :
  (∀ x, x ∈ l → p x = true) → List.filter p l = l.
Proof.
  induction l as [|x l IH]; simpl; intros H; [done|].
  rewrite (H x) by left. f_equal. apply IH. intros y Hy. apply H. by right.
Qed.

Lemma guarded_delete_cards (ids : list string) (db : Prisma.t) :
  Prisma.cards (if (0 <? length ids)%nat then Prisma.delete_cards ids db else db)
  = Prisma.cards (Prisma.delete_cards ids db)
  ∧ Prisma.comments (if (0 <? length ids)%nat then Prisma.delete_cards ids db else db)
    = Prisma.comments (Prisma.delete_cards ids db)
  ∧ Prisma.sections (if (0 <? length ids)%nat then Prisma.delete_cards ids db else db)
    = Prisma.sections db.
Proof.
  destruct ids as [|i ids]; [|done]. simpl.
  split; [|split; [|done]]; symmetry; apply filter_all; intros x _; unfold Prisma.mem;
    first [reflexivity
          | apply negb_true_iff, bool_decide_eq_false; by intros ?%elem_of_nil].
Qed.

Lemma filter_split_length {A} (p : A → bool) (l : list A) :
  length l = (length (List.filter (λ x, negb (p x)) l) + length (List.filter p l))%nat.
Proof.
  induction l as [|x l IH]; [done|]. simpl. destruct (p x); simpl; lia.
Qed.

(** X13.  Clearing a section deletes exactly the cards of that section:
    when card identifiers are unique, the card table afterwards is the old
    one without the rows whose section is the cleared one, the section
    table is untouched, the comments of the deleted cards are gone and all
    other comments stay; the answer is the section with no cards. *)
Theorem clear_deletes_the_sections_cards (db db' : Prisma.t) (projectId id : string)
    (status : nat) (body : SectionJson.t) :
  card_key db →
  Api.post_section_clear projectId id db = (Success status body, db') →
  SectionJson.id body = id ∧ SectionJson.cards body = []
  ∧ Prisma.sections db' = Prisma.sections db
  ∧ Prisma.cards db'
    = List.filter (λ c, negb (bool_decide (CardRow.sectionId c = id))) (Prisma.cards db)
  ∧ (∀ cm, cm ∈ Prisma.comments db'
           ↔ cm ∈ Prisma.comments db
             ∧ ¬ ∃ c, c ∈ Prisma.cards db ∧ CardRow.sectionId c = id
                      ∧ CardRow.id c = CommentRow.cardId cm).
Proof.
  intros Hkey. unfold Api.post_section_clear.
  destruct (Prisma.findSectionById db projectId id) as [s|] eqn:Hfind; [|done].
  apply findSectionById_elem in Hfind as (_ & Hid & _).
  intros [= <- <- <-].
  destruct (guarded_delete_cards
              (CardRow.id <$> List.filter (λ c, bool_decide (CardRow.sectionId c = id))
                                          (Prisma.cards db)) db) as (-> & -> & ->).
  split; [done|]. split; [done|]. split; [done|]. split.
  - by apply (delete_by_filter (λ c, bool_decide (CardRow.sectionId c = id))).
  - intros cm. simpl. rewrite filter_elem. unfold Prisma.mem.
    rewrite negb_true_iff, bool_decide_eq_false, list_elem_of_fmap.
    apply and_iff_compat_l. split.
    + intros Hno (c & Hc & Hsec & Hcid). apply Hno. exists c. split; [done|].
      apply filter_elem. split; [done|]. by apply bool_decide_eq_true.
    + intros Hno (c & Hcid & [Hc Hsec%bool_decide_eq_true]%filter_elem).
      apply Hno. by exists c.
Qed.

Lemma clear_deletes_the_sections_cards_witness :
  Prisma.cards (snd (Api.post_section_clear "id0" "id2" demo_db)) = [].
Proof.
  destruct (Api.post_section_clear "id0" "id2" demo_db) as [r db'] eqn:Hrun.
  assert (∃ status body, r = Success status body) as (status & body & ->).
  { revert Hrun. vm_compute. intros [= <- _]. eauto. }
  cbn [snd].
  assert (card_key demo_db) as Hkey by (apply (bool_decide_unpack _); vm_compute; exact I).
  destruct (clear_deletes_the_sections_cards demo_db db' "id0" "id2" status body Hkey Hrun)
    as (_ & _ & _ & -> & _).
  reflexivity.
Defined.

(** X14.  Bulk deletion answers with the number of card rows it removed,
    and removes exactly the cards of the given priority in its scope: the
    named section, or every section of the project.  Card identifiers are
    taken to be unique. *)
Theorem bulk_delete_counts (db db' : Prisma.t) (projectId : string) (scope : Scope)
    (sectionId : option string) (priority : Priority) (status n : nat) :
  card_key db →
  CommentApi.bulk_delete projectId scope sectionId priority db = (Success status n, db') →
  length (Prisma.cards db) = (length (Prisma.cards db') + n)%nat
  ∧ (∀ c, c ∈ Prisma.cards db'
          ↔ c ∈ Prisma.cards db
            ∧ ¬ (CardRow.priority c = priority
                 ∧ match scope with
                   | scope_section => Some (CardRow.sectionId c) = sectionId
                   | scope_all => Prisma.card_in_project db projectId c = true
                   end)).
Proof.
  intros Hkey. unfold CommentApi.bulk_delete. destruct scope.
  - destruct (falsy sectionId) eqn:Hfalsy; [done|].
    destruct sectionId as [sid|]; [|done]. cbn [default from_option id].
    destruct (Prisma.findSectionById db projectId sid) as [s|] eqn:Hfind; [|done].
    apply findSectionById_elem in Hfind as (_ & Hid & _).
    intros [= _ <- <-].
    match goal with |- context [Prisma.delete_cards ?ids db] =>
      destruct (guarded_delete_cards ids db) as (-> & _ & _) end.
    rewrite (delete_by_filter
               (λ c, bool_decide (CardRow.sectionId c = SectionRow.id s)
                     && bool_decide (CardRow.priority c = priority))) by done.
    rewrite length_fmap. split; [apply filter_split_length|].
    intros c. rewrite filter_elem. apply and_iff_compat_l.
    rewrite negb_true_iff, andb_false_iff, !bool_decide_eq_false, Hid. split.
    + intros [H|H] [Hp [= Hs]]; by apply H.
    + intros H. destruct (decide (CardRow.sectionId c = sid)) as [Hs|Hs]; [|by left].
      right. intros Hp. apply H. by rewrite Hs.
  - intros [= _ <- <-].
    match goal with |- context [Prisma.delete_cards ?ids db] =>
      destruct (guarded_delete_cards ids db) as (-> & _ & _) end.
    rewrite (delete_by_filter
               (λ c, Prisma.card_in_project db projectId c
                     && bool_decide (CardRow.priority c = priority))) by done.
    rewrite length_fmap. split; [apply filter_split_length|].
    intros c. rewrite filter_elem. apply and_iff_compat_l.
    rewrite negb_true_iff, andb_false_iff, bool_decide_eq_false. split.
    + intros [H|H] [Hp Hs]; [congruence|by apply H].
    + intros H. destruct (Prisma.card_in_project db projectId c); [|by left].
      right. intros Hp. by apply H.
Qed.

Lemma bulk_delete_counts_witness :
  length (Prisma.cards demo_db)
  = (length (Prisma.cards (snd (CommentApi.bulk_delete "id0" scope_all None high demo_db))) + 1)%nat.
Proof.
  destruct (CommentApi.bulk_delete "id0" scope_all None high demo_db) as [r db'] eqn:Hrun.
  assert (∃ status, r = Success status 1%nat) as (status & ->).
  { revert Hrun. vm_compute. intros [= <- _]. eauto. }
  cbn [snd].
  assert (card_key demo_db) as Hkey by (apply (bool_decide_unpack _); vm_compute; exact I).
  by destruct (bulk_delete_counts demo_db db' "id0" scope_all None high status 1 Hkey Hrun)
    as [Hlen _].
Defined.

Lemma delete_sections_no_cards (ids : list string) (db : Prisma.t) :
  (∀ c, c ∈ Prisma.cards db → Prisma.mem (CardRow.sectionId c) ids = false) →
  Prisma.cards (Prisma.delete_sections ids db) = Prisma.cards db
  ∧ Prisma.comments (Prisma.delete_sections ids db) = Prisma.comments db.
Proof.
  intros Hno. unfold Prisma.delete_sections. simpl.
  rewrite (filter_none (λ c, Prisma.mem (CardRow.sectionId c) ids)) by done.
  split; apply filter_all; intros x _; unfold Prisma.mem;
    first [reflexivity
          | apply negb_true_iff, bool_decide_eq_false; by intros ?%elem_of_nil].
Qed.

Lemma existsb_elem {A} (p : A → bool) (l : list A) :
  existsb p l = true ↔ ∃ x, x ∈ l ∧ p x = true.
Proof.
  rewrite existsb_exists. split; intros (x & Hx & Hp); exists x; by rewrite ?list_elem_of_In in *.
Qed.

(** X15.  "Delete all sections", when it answers with a Backlog that is
    not deletable, loses no card: every card row is still there under its
    identifier, all comments stay, the project keeps only sections that are
    not deletable, and every card of the project is still a card of the
    project.  Section identifiers are taken to be unique. *)
Theorem delete_all_keeps_every_card (db db' : Prisma.t) (projectId : string)
    (status : nat) (body : list SectionJson.t) :
  section_key db →
  Forall (λ sj, SectionJson.canDelete sj = false) body →
  Api.post_sections_delete_all projectId db = (Success status body, db') →
  CardRow.id <$> Prisma.cards db' = CardRow.id <$> Prisma.cards db
  ∧ Prisma.comments db' = Prisma.comments db
  ∧ (∀ s, s ∈ Prisma.sections db' → SectionRow.projectId s = projectId →
          SectionRow.canDelete s = false)
  ∧ (∀ c, c ∈ Prisma.cards db → Prisma.card_in_project db projectId c = true →
          ∃ c', c' ∈ Prisma.cards db' ∧ CardRow.id c' = CardRow.id c
                ∧ Prisma.card_in_project db' projectId c' = true).
Proof.
  intros Hkey Hbody. unfold Api.post_sections_delete_all.
  destruct (List.find _ _) as [backlog|] eqn:Hfind; [|done].
  apply find_some_elem in Hfind as [[Hbin Hbp%bool_decide_eq_true]%filter_elem _].
  intros [= _ <- <-].
  apply Forall_cons in Hbody as [Hbdel _]. simpl in Hbdel.
  set (deletable := SectionRow.id <$> List.filter SectionRow.canDelete
         (List.filter (λ s, bool_decide (SectionRow.projectId s = projectId))
                      (Prisma.sections db))).
  assert (∀ s, s ∈ Prisma.sections db →
               Prisma.mem (SectionRow.id s) deletable = true
               ↔ SectionRow.projectId s = projectId ∧ SectionRow.canDelete s = true) as Hdel.
  { intros s Hs. unfold Prisma.mem. rewrite bool_decide_eq_true. unfold deletable.
    rewrite list_elem_of_fmap. split.
    - intros (s' & Hid & [[Hin Hp%bool_decide_eq_true]%filter_elem Hcan]%filter_elem).
      assert (s = s') as <- by (by eapply (key_injective SectionRow.id)). done.
    - intros [Hp Hcan]. exists s. split; [done|]. apply filter_elem. split; [|done].
      apply filter_elem. split; [done|]. by apply bool_decide_eq_true. }
  assert (Prisma.mem (SectionRow.id backlog) deletable = false) as Hbno.
  { apply not_true_is_false. intros [_ Hcan]%Hdel; [congruence|done]. }
  set (f := λ c, if Prisma.mem (CardRow.sectionId c) deletable
                 then CardRow.mk (CardRow.id c) (CardRow.title c) (CardRow.description c)
                                 (CardRow.priority c) (CardRow.executor c)
                                 (CardRow.createdAt c) (SectionRow.id backlog)
                 else c).
  set (moved := Prisma.with_tables db _ _ _ _ _).
  assert (Prisma.cards moved = f <$> Prisma.cards db) as Hmoved by done.
  destruct (delete_sections_no_cards deletable moved) as [Hcards Hcomments].
  { intros c'. rewrite Hmoved. intros (c & -> & Hc)%list_elem_of_fmap. unfold f.
    destruct (Prisma.mem (CardRow.sectionId c) deletable) eqn:Hm; [done|done]. }
  rewrite Hcards, Hcomments, Hmoved. split; [|split; [done|split]].
  - rewrite <- list_fmap_compose. apply list_fmap_ext. intros i c _. simpl. unfold f.
    by case_match.
  - intros s. rewrite delete_sections_sections. intros [Hs Hkeep]%filter_elem Hp.
    apply negb_true_iff in Hkeep. destruct (SectionRow.canDelete s) eqn:Hcan; [|done].
    assert (Prisma.mem (SectionRow.id s) deletable = true) by (by apply Hdel). congruence.
  - intros c Hc Hproj. exists (f c). split; [by apply list_elem_of_fmap_2|]. split.
    { unfold f. by case_match. }
    unfold Prisma.card_in_project in *. apply existsb_elem in Hproj as (s & Hs & Hsp).
    apply andb_prop in Hsp as [Hid%bool_decide_eq_true Hp%bool_decide_eq_true].
    apply existsb_elem. rewrite delete_sections_sections. unfold f.
    destruct (Prisma.mem (CardRow.sectionId c) deletable) eqn:Hm.
    + exists backlog. split.
      * apply filter_elem. split; [done|]. by rewrite Hbno.
      * simpl. apply andb_true_intro. by rewrite !bool_decide_eq_true.
    + exists s. split.
      * apply filter_elem. split; [done|]. by rewrite Hid, Hm.
      * apply andb_true_intro. by rewrite !bool_decide_eq_true.
Qed.

Lemma delete_all_keeps_every_card_witness :
  CardRow.id <$> Prisma.cards (snd (Api.post_sections_delete_all "id0" demo_db))
  = CardRow.id <$> Prisma.cards demo_db.
Proof.
  destruct (Api.post_sections_delete_all "id0" demo_db) as [r db'] eqn:Hrun.
  assert (∃ status, r = Success status [SectionJson.mk "id1" "Backlog" [] false])
    as (status & ->).
  { revert Hrun. vm_compute. intros [= <- _]. eauto. }
  cbn [snd].
  assert (section_key demo_db) as Hkey by (apply (bool_decide_unpack _); vm_compute; exact I).
  refine (proj1 (delete_all_keeps_every_card demo_db db' "id0" status _ Hkey _ Hrun)).
  by repeat constructor.
Defined.

(** *** A write, then the board *)

Lemma get_board_cards (db db' : Prisma.t) (projectId : string) (status : nat)
    (b : BoardJson.t) :
  Api.get_board projectId db = (Success status b, db') →
  ∃ board, reviveBoardDates b = Some board
    ∧ (∀ sectionId c,
         (∃ s, s ∈ Board.sections board ∧ Section.id s = sectionId ∧ c ∈ Section.cards s)
         ↔ (∃ srow row, srow ∈ Prisma.sections db ∧ SectionRow.projectId srow = projectId
              ∧ SectionRow.id srow = sectionId
              ∧ row ∈ Prisma.cards db ∧ CardRow.sectionId row = sectionId
              ∧ c = row_card db row))
    ∧ (∀ sectionId,
         (∃ s, s ∈ Board.sections board ∧ Section.id s = sectionId)
         ↔ (∃ srow, srow ∈ Prisma.sections db ∧ SectionRow.projectId srow = projectId
              ∧ SectionRow.id srow = sectionId)).
Proof.
  unfold Api.get_board.
  destruct (List.find _ (Prisma.projects db)) as [project|]; [|done].
  intros [= _ <- <-].
  set (sections := array_sort Prisma.by_title
         (List.filter (λ s, bool_decide (SectionRow.projectId s = projectId))
                      (Prisma.sections db))).
  set (cards := array_sort Prisma.by_createdAt
         (List.filter (Prisma.card_in_project db projectId) (Prisma.cards db))).
  set (section_of := λ s : SectionRow.t,
         Section.mk (SectionRow.id s) (SectionRow.title s)
           (row_card db <$> List.filter (λ c, bool_decide (CardRow.sectionId c = SectionRow.id s))
                                        cards)
           (SectionRow.canDelete s)).
  exists (Board.mk (projectId ++ "-board") (ProjectRow.title project) (section_of <$> sections)).
  split.
  { unfold reviveBoardDates. simpl.
    rewrite (mapM_fmap_total revive_section _ section_of); [done|].
    intros s _. apply revive_section_row. }
  split; cycle 1.
  { intros sectionId. simpl. split.
    - intros (s & (srow & -> & Hsrow)%list_elem_of_fmap & <-). simpl.
      apply array_sort_elem, filter_elem in Hsrow as [Hsrow Hp%bool_decide_eq_true].
      by exists srow.
    - intros (srow & Hsrow & Hp & <-). exists (section_of srow). split; [|done].
      apply list_elem_of_fmap. exists srow. split; [done|].
      apply array_sort_elem, filter_elem. split; [done|]. by apply bool_decide_eq_true. }
  intros sectionId c. simpl. split.
  - intros (s & (srow & -> & Hsrow)%list_elem_of_fmap & <- & Hc). simpl in *.
    apply array_sort_elem, filter_elem in Hsrow as [Hsrow Hp%bool_decide_eq_true].
    apply list_elem_of_fmap in Hc as (row & -> & [Hrow Hs%bool_decide_eq_true]%filter_elem).
    apply project_cards_elem in Hrow as [Hrow _]. by exists srow, row.
  - intros (srow & row & Hsrow & Hp & <- & Hrow & Hs & ->).
    exists (section_of srow). split; [|split; [done|]].
    + apply list_elem_of_fmap. exists srow. split; [done|].
      apply array_sort_elem, filter_elem. split; [done|]. by apply bool_decide_eq_true.
    + simpl. apply list_elem_of_fmap. exists row. split; [done|].
      apply filter_elem. split; [|by apply bool_decide_eq_true].
      apply project_cards_elem. split; [done|].
      apply existsb_elem. exists srow. split; [done|].
      apply andb_true_intro. by rewrite !bool_decide_eq_true.
Qed.

Lemma update_card_cards (cardId : string) (f : CardRow.t → CardRow.t)
    (db db' : Prisma.t) (c : CardRow.t) :
  Prisma.update_card cardId f db = Some (c, db') →
  (∃ c0, c0 ∈ Prisma.cards db ∧ CardRow.id c0 = cardId ∧ c = f c0)
  ∧ Prisma.cards db'
    = (λ c', if bool_decide (CardRow.id c' = cardId) then f c' else c') <$> Prisma.cards db.
Proof.
  unfold Prisma.update_card, Prisma.findCard.
  destruct (List.find _ _) as [c0|] eqn:Hfind; [|done]. simpl.
  case_match; [|done]. intros [= <- <-].
  apply find_some_elem in Hfind as [Hin Hid%bool_decide_eq_true].
  split; [by exists c0|done].
Qed.

(** X16.  A card moved by the move route is listed under the target
    section, and under no other, by the next answer of the board route:
    the board the store revives from that answer has a section with the
    target's identifier that lists a card with the moved card's
    identifier, and every section that lists such a card is the target. *)
Theorem moved_card_is_listed_under_target (db db1 db2 : Prisma.t)
    (projectId cardId target : string) (status status' : nat)
    (moved : CardJson.t) (b : BoardJson.t) :
  Api.post_card_move projectId cardId target db = (Success status moved, db1) →
  Api.get_board projectId db1 = (Success status' b, db2) →
  ∃ board, reviveBoardDates b = Some board
    ∧ (∃ s c, s ∈ Board.sections board ∧ Section.id s = target
              ∧ c ∈ Section.cards s ∧ Card.id c = cardId)
    ∧ (∀ s c, s ∈ Board.sections board → c ∈ Section.cards s → Card.id c = cardId →
              Section.id s = target ∧ Card.sectionId c = target).
Proof.
  unfold Api.post_card_move. case_match; [done|].
  destruct (Prisma.findSectionById db projectId target) as [to|] eqn:Hto; [|done].
  destruct (Prisma.update_card _ _ _) as [[row db1']|] eqn:Hupd; [|done].
  intros [= _ _ <-] Hget.
  apply findSectionById_elem in Hto as (Hto & Htoid & Htop).
  pose proof (update_card_sections _ _ _ _ _ Hupd) as Hsections.
  apply update_card_cards in Hupd as [(c0 & Hc0 & Hid0 & ->) Hcards].
  apply get_board_cards in Hget as (board & Hrevive & Hboard & _).
  exists board. split; [done|]. split.
  - destruct (proj2 (Hboard target
        (row_card db1' (CardRow.mk (CardRow.id c0) (CardRow.title c0) (CardRow.description c0)
                                   (CardRow.priority c0) (CardRow.executor c0)
                                   (CardRow.createdAt c0) (SectionRow.id to)))))
      as (s & Hs & Hsid & Hc).
    { exists to. eexists. rewrite Hsections. repeat split; try done.
      rewrite Hcards. apply list_elem_of_fmap. exists c0. split; [|done].
      by rewrite bool_decide_eq_true_2. }
    by exists s, (row_card db1'
                   (CardRow.mk (CardRow.id c0) (CardRow.title c0) (CardRow.description c0)
                               (CardRow.priority c0) (CardRow.executor c0)
                               (CardRow.createdAt c0) (SectionRow.id to))).
  - intros s c Hs Hc Hid.
    destruct (proj1 (Hboard (Section.id s) c)) as (srow & row & _ & _ & _ & Hrow & Hsec & ->).
    { by exists s. }
    rewrite Hcards in Hrow. apply list_elem_of_fmap in Hrow as (r & -> & Hr).
    simpl in Hid. case_bool_decide as Hrid; simpl in *; [by rewrite <- Hsec, Htoid|].
    done.
Qed.

Lemma moved_card_is_listed_under_target_witness :
  ∃ board,
    reviveBoardDates
      (BoardJson.mk "id0-board" "Demo"
         [SectionJson.mk "id1" "Backlog"
            [CardJson.mk "id5" "Write tests" "unit" high "Bob" (Some []) (Some 1005)
                         "id1" (Some [])] false;
          SectionJson.mk "id4" "Done" [] true;
          SectionJson.mk "id3" "Review" [] true;
          SectionJson.mk "id2" "To Do" [] true]) = Some board
    ∧ (∃ s c, s ∈ Board.sections board ∧ Section.id s = "id1"
              ∧ c ∈ Section.cards s ∧ Card.id c = "id5")
    ∧ (∀ s c, s ∈ Board.sections board → c ∈ Section.cards s → Card.id c = "id5" →
              Section.id s = "id1" ∧ Card.sectionId c = "id1").
Proof.
  refine (moved_card_is_listed_under_target demo_db
            (snd (Api.post_card_move "id0" "id5" "id1" demo_db))
            (snd (Api.post_card_move "id0" "id5" "id1" demo_db))
            "id0" "id5" "id1" 200 200
            (CardJson.mk "id5" "Write tests" "unit" high "Bob" (Some []) (Some 1005)
                         "id1" (Some [])) _ _ _).
  - vm_compute. reflexivity.
  - vm_compute. reflexivity.
Defined.

(** X17.  A card created by the create route is listed by the next answer
    of the board route, in the section it was created in, under the
    identifier the create route answered with and with the fields of the
    request. *)
Theorem created_card_is_listed (db db1 db2 : Prisma.t) (projectId sectionId : string)
    (draft : CardDraft.t) (status status' : nat) (created : CardJson.t) (b : BoardJson.t) :
  Api.post_cards projectId sectionId draft db = (Success status created, db1) →
  Api.get_board projectId db1 = (Success status' b, db2) →
  ∃ board s c, reviveBoardDates b = Some board
    ∧ s ∈ Board.sections board ∧ Section.id s = sectionId ∧ c ∈ Section.cards s
    ∧ Card.id c = CardJson.id created
    ∧ Card.title c = CardDraft.title draft
    ∧ Card.description c = CardDraft.description draft
    ∧ Card.priority c = CardDraft.priority draft
    ∧ Card.executor c = CardDraft.executor draft
    ∧ Card.sectionId c = sectionId.
Proof.
  unfold Api.post_cards. case_match; [done|].
  destruct (Prisma.findSectionById db projectId sectionId) as [to|] eqn:Hto; [|done].
  destruct (Prisma.create_card _ _) as [db1'|] eqn:Hcreate; [|done].
  intros [= _ <- <-] Hget.
  apply findSectionById_elem in Hto as (Hto & Htoid & Htop).
  pose proof (create_card_sections _ _ _ Hcreate) as Hsections.
  assert (∃ row, row ∈ Prisma.cards db1'
                 ∧ row = CardRow.mk (Prisma.genId db (Prisma.tick db)) (CardDraft.title draft)
                           (CardDraft.description draft) (CardDraft.priority draft)
                           (CardDraft.executor draft) (Prisma.clock db (Prisma.tick db))
                           sectionId) as (row & Hrow & Heq).
  { revert Hcreate. unfold Prisma.create_card. case_match; [done|]. intros [= <-].
    eexists. split; [|done]. simpl. apply elem_of_app. right. by apply list_elem_of_singleton. }
  apply get_board_cards in Hget as (board & Hrevive & Hboard & _).
  destruct (proj2 (Hboard sectionId (row_card db1' row))) as (s & Hs & Hsid & Hc).
  { exists to, row. rewrite Hsections. repeat split; try done. by rewrite Heq. }
  exists board, s, (row_card db1' row). subst row. by repeat split.
Qed.

Lemma created_card_is_listed_witness :
  ∃ board s c,
    reviveBoardDates
      (BoardJson.mk "id0-board" "Demo"
         [SectionJson.mk "id1" "Backlog" [] false;
          SectionJson.mk "id4" "Done" [] true;
          SectionJson.mk "id3" "Review" [] true;
          SectionJson.mk "id2" "To Do"
            [CardJson.mk "id5" "Write tests" "unit" high "Bob" (Some []) (Some 1005)
                         "id2" (Some [])] true]) = Some board
    ∧ s ∈ Board.sections board ∧ Section.id s = "id2" ∧ c ∈ Section.cards s
    ∧ Card.id c = "id5"
    ∧ Card.title c = "Write tests"
    ∧ Card.description c = "unit"
    ∧ Card.priority c = high
    ∧ Card.executor c = "Bob"
    ∧ Card.sectionId c = "id2".
Proof.
  refine (created_card_is_listed
            (snd (Api.post_projects (Some "Demo") (Prisma.empty demo_genId demo_clock)))
            demo_db demo_db "id0" "id2" demo_draft 201 200
            (CardJson.mk "id5" "Write tests" "unit" high "Bob" (Some []) (Some 1005)
                         "id2" None) _ _ _).
  - vm_compute. reflexivity.
  - vm_compute. reflexivity.
Defined.

(** *** Assignees *)

Lemma prisma_eta (db : Prisma.t) :
  Prisma.with_tables db (Prisma.projects db) (Prisma.sections db) (Prisma.cards db)
                     (Prisma.comments db) (Prisma.cardAssignees db) = db.
Proof. by destruct db. Qed.

(** X18.  Assigning is idempotent: a successful assignment, repeated on the
    database it left, answers the same and changes nothing. *)
Theorem assign_twice (db db1 : Prisma.t) (projectId cardId userId : string)
    (status : nat) (assignees : list UserLite.t) :
  Api.post_assignees projectId cardId userId db = (Success status assignees, db1) →
  Api.post_assignees projectId cardId userId db1 = (Success status assignees, db1).
Proof.
  unfold Api.post_assignees. destruct (negb (truthy userId)); [done|].
  destruct (List.find _ (Prisma.cards db)) as [c|] eqn:Hfind; [|done].
  destruct (Prisma.mem userId (UserLite.id <$> Prisma.users db)) eqn:Huser; [|done].
  case_bool_decide as Hpair; intros [= <- <- <-].
  - by rewrite Hfind, Huser, bool_decide_eq_true_2.
  - unfold Prisma.card_in_project in *. simpl. rewrite Hfind, Huser.
    rewrite bool_decide_eq_true_2; [done|].
    apply elem_of_app. right. by apply list_elem_of_singleton.
Qed.

Lemma assign_twice_witness :
  Api.post_assignees "id0" "id5" "u1"
    (snd (Api.post_assignees "id0" "id5" "u1" demo_db_users))
  = (Success 201 [UserLite.mk "u1" "Alice" "alice@example.org"],
     snd (Api.post_assignees "id0" "id5" "u1" demo_db_users)).
Proof.
  apply assign_twice with (db := demo_db_users). vm_compute. reflexivity.
Defined.

(** X19.  Unassigning undoes an assignment: when the user was not assigned
    to the card, a successful assignment followed by the unassignment of
    the same user leaves the database as it was, and the second answer
    lists the assignees the card had at the start. *)
Theorem unassign_undoes_assign (db db1 : Prisma.t) (projectId cardId userId : string)
    (status : nat) (assignees : list UserLite.t) :
  (cardId, userId) ∉ Prisma.cardAssignees db →
  Api.post_assignees projectId cardId userId db = (Success status assignees, db1) →
  Api.delete_assignee projectId cardId userId db1
  = (Success 200 (Prisma.assignees_of db cardId), db).
Proof.
  intros Hfresh. unfold Api.post_assignees, Api.delete_assignee.
  destruct (negb (truthy userId)); [done|].
  destruct (List.find _ (Prisma.cards db)) as [c|] eqn:Hfind; [|done].
  destruct (Prisma.mem userId (UserLite.id <$> Prisma.users db)) eqn:Huser; [|done].
  rewrite bool_decide_eq_false_2 by done. intros [= _ _ <-].
  unfold Prisma.card_in_project in *. simpl. rewrite Hfind.
  assert (List.filter (λ p, negb (bool_decide (p = (cardId, userId))))
            (Prisma.cardAssignees db ++ [(cardId, userId)])
          = Prisma.cardAssignees db) as Hundo.
  { rewrite List.filter_app. simpl. rewrite bool_decide_eq_true_2 by done. simpl.
    rewrite app_nil_r. apply filter_all. intros p Hp.
    apply negb_true_iff, bool_decide_eq_false. by intros ->. }
  unfold Prisma.assignees_of, Prisma.with_tables. simpl. rewrite Hundo.
  f_equal. by destruct db.
Qed.

Lemma unassign_undoes_assign_witness :
  Api.delete_assignee "id0" "id5" "u1"
    (snd (Api.post_assignees "id0" "id5" "u1" demo_db_users))
  = (Success 200 (Prisma.assignees_of demo_db_users "id5"), demo_db_users).
Proof.
  apply unassign_undoes_assign with (status := 201%nat)
    (assignees := [UserLite.mk "u1" "Alice" "alice@example.org"]).
  - by intros ?%elem_of_nil.
  - vm_compute. reflexivity.
Defined.

(** *** Comments *)

Lemma strip_prefix_some (p s r : string) :
  strip_prefix p s = Some r → s = (p ++ r)%string.
Proof.
  revert s. induction p as [|a p IH]; intros s; simpl; [by intros [= ->]|].
  destruct s as [|b s]; [done|].
  destruct (Ascii.eqb a b) eqn:Hab; [|done].
  apply Ascii.eqb_eq in Hab as ->. by intros ->%IH.
Qed.

Lemma authMiddleware_next {A} (jwt_verify : string → option string)
    (authorization : option string) (next : string → Api.Handler A) (db db' : Prisma.t)
    (status : nat) (body : A) :
  CommentApi.authMiddleware jwt_verify authorization next db = (Success status body, db') →
  ∃ token userId, authorization = Some ("Bearer " ++ token)%string
                  ∧ jwt_verify token = Some userId
                  ∧ next userId db = (Success status body, db').
Proof.
  unfold CommentApi.authMiddleware.
  destruct (strip_prefix _ _) as [token|] eqn:Hstrip; [|done].
  destruct (truthy token) eqn:Htoken; [|done].
  destruct (jwt_verify token) as [userId|] eqn:Hverify; [|done].
  intros Hnext. exists token, userId. split; [|done].
  apply strip_prefix_some in Hstrip. destruct authorization as [hdr|]; simpl in *.
  - by rewrite Hstrip.
  - by destruct token.
Qed.

Lemma authMiddleware_failure {A} (jwt_verify : string → option string)
    (authorization : option string) (next : string → Api.Handler A) (db db' : Prisma.t)
    (status : nat) (e : ErrorBody) :
  (∀ userId, ∀ st e' db1, next userId db = (Failure st e', db1) → db1 = db) →
  CommentApi.authMiddleware jwt_verify authorization next db = (Failure status e, db') →
  db' = db.
Proof.
  intros Hnext. unfold CommentApi.authMiddleware.
  repeat case_match; try (by intros [= _ _ <-]). apply Hnext.
Qed.

Lemma findComment_elem (db : Prisma.t) (commentId : string) (cm : CommentRow.t) :
  CommentApi.findComment db commentId = Some cm →
  cm ∈ Prisma.comments db ∧ CommentRow.id cm = commentId.
Proof. by intros [Hin Hid%bool_decide_eq_true]%find_some_elem. Qed.

(** X20.  Only its author changes a comment.  When the edit or the delete
    route answers with success, the request carried a bearer token that
    verifies as the author of the comment, and the comment belongs to a
    card of the project of the request.  An edit then alters the text
    only: identifiers, authors, cards and dates of the comment table stay
    as they are; a delete removes the rows of that identifier and no
    other.  When either route answers with an error the database is
    untouched. *)
Theorem comments_change_only_by_author (jwt_verify : string → option string)
    (authorization : option string) (projectId commentId : string) (db : Prisma.t) :
  (∀ text status body db',
     CommentApi.put_comment jwt_verify authorization projectId commentId text db
     = (Success status body, db') →
     (∃ token cm, authorization = Some ("Bearer " ++ token)%string
                  ∧ cm ∈ Prisma.comments db ∧ CommentRow.id cm = commentId
                  ∧ jwt_verify token = Some (CommentRow.authorId cm)
                  ∧ CommentApi.comment_project db cm = Some projectId)
     ∧ CommentJson.text body = text
     ∧ Prisma.cards db' = Prisma.cards db
     ∧ (λ cm, (CommentRow.id cm, CommentRow.authorId cm, CommentRow.cardId cm,
               CommentRow.createdAt cm)) <$> Prisma.comments db'
       = (λ cm, (CommentRow.id cm, CommentRow.authorId cm, CommentRow.cardId cm,
                 CommentRow.createdAt cm)) <$> Prisma.comments db
     ∧ (∀ cm', cm' ∈ Prisma.comments db' → CommentRow.id cm' ≠ commentId →
               cm' ∈ Prisma.comments db))
  ∧ (∀ status body db',
       CommentApi.delete_comment jwt_verify authorization projectId commentId db
       = (Success status body, db') →
       (∃ token cm, authorization = Some ("Bearer " ++ token)%string
                    ∧ cm ∈ Prisma.comments db ∧ CommentRow.id cm = commentId
                    ∧ jwt_verify token = Some (CommentRow.authorId cm)
                    ∧ CommentApi.comment_project db cm = Some projectId)
       ∧ Prisma.cards db' = Prisma.cards db
       ∧ (∀ cm', cm' ∈ Prisma.comments db'
                 ↔ cm' ∈ Prisma.comments db ∧ CommentRow.id cm' ≠ commentId))
  ∧ (∀ text status e db',
       CommentApi.put_comment jwt_verify authorization projectId commentId text db
       = (Failure status e, db') → db' = db)
  ∧ (∀ status e db',
       CommentApi.delete_comment jwt_verify authorization projectId commentId db
       = (Failure status e, db') → db' = db).
Proof.
  split; [|split; [|split]].
  - intros text status body db' (token & userId & Hauth & Hverify & Hnext)%authMiddleware_next.
    destruct (negb (truthy text)); [done|].
    destruct (CommentApi.findComment db commentId) as [cm|] eqn:Hfind; [|done].
    destruct (CommentApi.comment_project db cm) as [owner|] eqn:Hproj; [|done].
    case_bool_decide as Howner; [|done]. case_bool_decide as Hauthor; [|done].
    simpl in Hnext. injection Hnext as _ <- <-.
    apply findComment_elem in Hfind as [Hin Hid]. subst owner userId.
    split; [by exists token, cm|]. split; [done|]. split; [done|]. split.
    + simpl. rewrite <- list_fmap_compose. apply list_fmap_ext. intros i x _. simpl.
      by case_bool_decide.
    + simpl. intros cm' (x & -> & Hx)%list_elem_of_fmap. by case_bool_decide.
  - intros status body db' (token & userId & Hauth & Hverify & Hnext)%authMiddleware_next.
    destruct (CommentApi.findComment db commentId) as [cm|] eqn:Hfind; [|done].
    destruct (CommentApi.comment_project db cm) as [owner|] eqn:Hproj; [|done].
    case_bool_decide as Howner; [|done]. case_bool_decide as Hauthor; [|done].
    simpl in Hnext. injection Hnext as _ _ <-.
    apply findComment_elem in Hfind as [Hin Hid]. subst owner userId.
    split; [by exists token, cm|]. split; [done|].
    intros cm'. simpl. rewrite filter_elem. apply and_iff_compat_l.
    by rewrite negb_true_iff, bool_decide_eq_false.
  - intros text status e db'. apply authMiddleware_failure.
    intros userId st e' db1. repeat case_match; try done; by intros [= _ _ <-].
  - intros status e db'. apply authMiddleware_failure.
    intros userId st e' db1. repeat case_match; try done; by intros [= _ _ <-].
Qed.

(** *** The card page *)

(** X21.  The card page and the drag handler agree on where a card is: the
    scan of the card page finds a card exactly when some section lists its
    identifier; the card it finds has that identifier, and the section
    title it shows is the title of the section the drag handler takes as
    the card's current section, which lists the found card. *)
Theorem card_page_agrees_with_board (b : Board.t) (cardId : string) :
  match foundCard (Board.sections b) cardId with
  | Some (card, title) =>
      Card.id card = cardId
      ∧ ∃ s, currentSection b cardId = Some s ∧ Section.title s = title
             ∧ card ∈ Section.cards s
  | None => currentSection b cardId = None ∧ ¬ on_board b cardId
  end.
Proof.
  unfold currentSection, on_board. destruct b as [bid btitle sections]. simpl.
  induction sections as [|s rest IH]; simpl.
  - split; [done|]. by intros (s & c & Hs%elem_of_nil & _).
  - destruct (List.find (λ c, bool_decide (Card.id c = cardId)) (Section.cards s))
      as [card|] eqn:Hfind.
    + apply find_some_elem in Hfind as [Hin Hid%bool_decide_eq_true].
      split; [done|]. exists s.
      assert (existsb (λ c, bool_decide (Card.id c = cardId)) (Section.cards s) = true) as ->.
      { apply existsb_elem. exists card. split; [done|]. by apply bool_decide_eq_true. }
      done.
    + assert (existsb (λ c, bool_decide (Card.id c = cardId)) (Section.cards s) = false) as Hno.
      { apply not_true_is_false. intros (c & Hc & Hid)%existsb_elem.
        eapply find_none in Hfind; [|by apply list_elem_of_In]. simpl in Hfind. congruence. }
      rewrite Hno. destruct (foundCard rest cardId) as [[card title]|]; [done|].
      destruct IH as [IH1 IH2]. split; [done|].
      intros (s' & c & [->|Hs']%elem_of_cons & Hc & Hid).
      * apply not_true_iff_false in Hno. apply Hno, existsb_elem. exists c.
        split; [done|]. by apply bool_decide_eq_true.
      * apply IH2. by exists s', c.
Qed.

(** *** Cards carry the identifier of their section *)

Lemma get_board_placed (db db' : Prisma.t) (projectId : string) (status : nat)
    (b : BoardJson.t) (board : Board.t) :
  Api.get_board projectId db = (Success status b, db') →
  reviveBoardDates b = Some board → placed board.
Proof.
  intros (board' & Hrevive & Hboard & _)%get_board_cards. rewrite Hrevive. intros [= <-].
  intros s c Hs Hc.
  destruct (proj1 (Hboard (Section.id s) c)) as (_ & row & _ & _ & _ & _ & Hsec & ->);
    [by exists s|done].
Qed.

Lemma refetch_placed (projectId : string) (st : Store Prisma.t) :
  placed (board st) → placed (board (snd (refetch projectId st))).
Proof.
  intros Hplaced. unfold refetch, bind, fetch.
  destruct (handle (GET_board projectId) (remote st)) as [[status b|status e] db'] eqn:Hget;
    [|done].
  destruct (reviveBoardDates b) as [board'|] eqn:Hrevive; [|done].
  simpl. by eapply get_board_placed.
Qed.

Lemma put_card_sectionId (projectId cardId : string) (payload : CardUpdate.t)
    (db db' : Prisma.t) (status : nat) (updated : CardJson.t) :
  Api.put_card projectId cardId payload db = (Success status updated, db') →
  CardJson.sectionId updated = CardUpdate.sectionId payload.
Proof.
  unfold Api.put_card. case_match; [done|]. case_match; [done|].
  destruct (Prisma.update_card _ _ _) as [[row db1]|] eqn:Hupd; [|done].
  intros [= _ <- _]. by apply update_card_cards in Hupd as [(c0 & _ & _ & ->) _].
Qed.

Lemma post_card_move_sectionId (projectId cardId target : string)
    (db db' : Prisma.t) (status : nat) (moved : CardJson.t) :
  Api.post_card_move projectId cardId target db = (Success status moved, db') →
  CardJson.sectionId moved = target.
Proof.
  unfold Api.post_card_move. case_match; [done|].
  destruct (Prisma.findSectionById db projectId target) as [to|] eqn:Hto; [|done].
  destruct (Prisma.update_card _ _ _) as [[row db1]|] eqn:Hupd; [|done].
  intros [= _ <- _]. apply findSectionById_elem in Hto as (_ & Hid & _).
  by apply update_card_cards in Hupd as [(c0 & _ & _ & ->) _].
Qed.

Lemma post_cards_sectionId (projectId sectionId : string) (draft : CardDraft.t)
    (db db' : Prisma.t) (status : nat) (created : CardJson.t) :
  Api.post_cards projectId sectionId draft db = (Success status created, db') →
  CardJson.sectionId created = sectionId.
Proof.
  unfold Api.post_cards. intros H. by repeat case_match; simplify_eq.
Qed.

(** X22.  The store keeps every card under the section its [sectionId]
    names.  On a board where each listed card carries the identifier of the
    section that lists it, every operation of the store, run against the
    API, leaves such a board again; for [updateCard] the card handed in has
    to name the section that lists it. *)
Theorem placement_preserved (m : Mutation) (st : Store Prisma.t) :
  placed (board st) →
  (∀ card, m = UpdateCard card →
     ∀ s, s ∈ Board.sections (board st) → holds_card (Card.id card) s = true →
          Section.id s = Card.sectionId card) →
  placed (board (snd (perform m st))).
Proof.
  intros Hplaced Hupdate. destruct m; simpl.
  - unfold addSection, bind, getProjectId, fetch.
    destruct (handle _ _) as [[status section|status e] db']; [|done]. simpl.
    intros s c [Hs| ->%list_elem_of_singleton]%elem_of_app; [by apply Hplaced|].
    by intros ?%elem_of_nil.
  - unfold deleteSection, bind, getProjectId, fetch.
    destruct (handle _ _) as [[status []|status e] db']; [|done].
    by apply refetch_placed.
  - unfold clearSection, bind, getProjectId, fetch.
    destruct (handle _ _) as [[status body|status e] db']; [|done].
    by apply refetch_placed.
  - unfold deleteAllSections, bind, getProjectId, fetch.
    destruct (handle _ _) as [[status body|status e] db']; [|done].
    by apply refetch_placed.
  - rewrite addCard_board.
    destruct (handle _ _) as [[status created|] db'] eqn:Hres; [|done]. simpl.
    apply post_cards_sectionId in Hres.
    intros s' c (s & -> & Hs)%list_elem_of_fmap.
    destruct (decide _) as [Hid|]; [|by apply Hplaced]. simpl.
    intros [Hc| ->%list_elem_of_singleton]%elem_of_app; [by apply Hplaced|].
    simpl. congruence.
  - rewrite updateCard_board.
    destruct (handle _ _) as [[status updated|] db'] eqn:Hres; [|done]. simpl.
    apply put_card_sectionId in Hres. simpl in Hres.
    intros s' c' (s & -> & Hs)%list_elem_of_fmap. simpl.
    intros (c & -> & Hc)%list_elem_of_fmap.
    destruct (decide _) as [Hid|]; [|by apply Hplaced]. simpl. rewrite Hres.
    symmetry. apply (Hupdate card); [done..|].
    apply holds_card_true. by exists c.
  - rewrite deleteCard_board.
    destruct (handle _ _) as [[status []|] db']; [|done]. simpl.
    intros s' c (s & -> & Hs)%list_elem_of_fmap. simpl.
    intros [_ Hc]%list_elem_of_filter. by apply Hplaced.
  - rewrite moveCard_board.
    destruct (handle _ _) as [[status moved|] db'] eqn:Hres; [|done]. simpl.
    apply post_card_move_sectionId in Hres.
    intros s' c (s0 & -> & (s & -> & Hs)%list_elem_of_fmap)%list_elem_of_fmap.
    destruct (decide _) as [Hid|]; simpl.
    + intros [[_ Hc]%list_elem_of_filter| ->%list_elem_of_singleton]%elem_of_app;
        [by apply Hplaced|]. simpl in *. congruence.
    + intros [_ Hc]%list_elem_of_filter. by apply Hplaced.
  - rewrite assignUser_board.
    destruct (handle _ _) as [[status assignees|] db']; [|done]. simpl.
    intros s' c' (s & -> & Hs)%list_elem_of_fmap. simpl.
    intros (c & -> & Hc)%list_elem_of_fmap.
    destruct (decide _); simpl; by apply Hplaced.
  - rewrite unassignUser_board.
    destruct (handle _ _) as [[status assignees|] db']; [|done]. simpl.
    intros s' c' (s & -> & Hs)%list_elem_of_fmap. simpl.
    intros (c & -> & Hc)%list_elem_of_fmap.
    destruct (decide _); simpl; by apply Hplaced.
Qed.

Lemma placement_preserved_witness :
  placed (board (snd (perform (UpdateCard demo_card) demo_store))).
Proof.
  apply (placement_preserved (UpdateCard demo_card) demo_store).
  - intros s c Hs Hc. vm_compute in Hs.
    repeat (apply elem_of_cons in Hs as [->|Hs]); try (by apply elem_of_nil in Hs);
      vm_compute in Hc;
      repeat (apply elem_of_cons in Hc as [->|Hc]); try (by apply elem_of_nil in Hc);
      reflexivity.
  - intros card [= <-] s Hs Hholds. vm_compute in Hs.
    repeat (apply elem_of_cons in Hs as [->|Hs]); try (by apply elem_of_nil in Hs);
      first [reflexivity | by vm_compute in Hholds].
Defined.

(** *** Section operations of the store, end to end *)

Lemma refetch_resolved (projectId : string) (st : Store Prisma.t) :
  fst (refetch projectId st) = Resolved () →
  ∃ status b db', Api.get_board projectId (remote st) = (Success status b, db')
                  ∧ reviveBoardDates b = Some (board (snd (refetch projectId st))).
Proof.
  unfold refetch, bind, fetch. change (handle (GET_board projectId) (remote st))
    with (Api.get_board projectId (remote st)).
  destruct (Api.get_board projectId (remote st)) as [[status b|status e] db'] eqn:Hget;
    [|done].
  destruct (reviveBoardDates b) as [board'|] eqn:Hrevive; [|done].
  intros _. by exists status, b, db'.
Qed.

(** X23.  When [clearSection] resolves, the store shows the section, and
    shows it empty: the board has a section with the cleared identifier,
    and every section with that identifier lists no card. *)
Theorem clearSection_shows_empty_section (sectionId : string) (st : Store Prisma.t) :
  fst (clearSection sectionId st) = Resolved () →
  (∃ s, s ∈ Board.sections (board (snd (clearSection sectionId st)))
        ∧ Section.id s = sectionId)
  ∧ (∀ s, s ∈ Board.sections (board (snd (clearSection sectionId st))) →
          Section.id s = sectionId → Section.cards s = []).
Proof.
  unfold clearSection, bind, getProjectId, fetch.
  change (handle (POST_section_clear (projectId_of (pathname st)) sectionId) (remote st))
    with (Api.post_section_clear (projectId_of (pathname st)) sectionId (remote st)).
  destruct (Api.post_section_clear _ _ _) as [[status body|status e] db1] eqn:Hclear; [|done].
  set (st1 := mkStore db1 _ _ _ _ _).
  intros (status' & b & db2 & Hget & Hrevive)%refetch_resolved.
  apply get_board_cards in Hget as (board' & Hrevive' & Hcards & Hsections).
  rewrite Hrevive in Hrevive'. injection Hrevive' as <-.
  subst st1. simpl remote in *.
  revert Hclear. unfold Api.post_section_clear.
  destruct (Prisma.findSectionById (remote st) _ sectionId) as [srow|] eqn:Hfind; [|done].
  apply findSectionById_elem in Hfind as (Hsrow & Hid & Hp).
  intros [= _ _ <-].
  match type of Hsections with context [Prisma.sections (if ?g then Prisma.delete_cards ?ids ?db else _)] =>
    destruct (guarded_delete_cards ids db) as (Hc1 & _ & Hs1) end.
  split.
  - apply Hsections. exists srow. by rewrite Hs1.
  - intros s Hs Hsid. destruct (Section.cards s) as [|c cs] eqn:Hcs; [done|]. exfalso.
    destruct (proj1 (Hcards sectionId c)) as (_ & row & _ & _ & _ & Hrow & Hsec & _).
    { exists s. rewrite Hcs. split; [done|]. split; [done|]. by left. }
    rewrite Hc1 in Hrow. simpl in Hrow.
    apply filter_elem in Hrow as [Hrow Hkeep].
    apply negb_true_iff, bool_decide_eq_false in Hkeep. apply Hkeep.
    apply list_elem_of_fmap. exists row. split; [done|]. apply filter_elem. split; [done|].
    by apply bool_decide_eq_true.
Qed.

Lemma clearSection_shows_empty_section_witness :
  (∃ s, s ∈ Board.sections (board (snd (clearSection "id2" demo_store)))
        ∧ Section.id s = "id2")
  ∧ (∀ s, s ∈ Board.sections (board (snd (clearSection "id2" demo_store))) →
          Section.id s = "id2" → Section.cards s = []).
Proof.
  apply (clearSection_shows_empty_section "id2" demo_store). vm_compute. reflexivity.
Defined.

(** X24.  When [deleteSection] resolves, the store shows neither the
    section nor any of its cards: no section of the board has the deleted
    identifier, and no card row that pointed at the section is on the board
    under its identifier. *)
Theorem deleteSection_drops_section_and_cards (sectionId : string) (st : Store Prisma.t) :
  fst (deleteSection sectionId st) = Resolved () →
  (∀ s, s ∈ Board.sections (board (snd (deleteSection sectionId st))) →
        Section.id s ≠ sectionId)
  ∧ (∀ row, row ∈ Prisma.cards (remote st) → CardRow.sectionId row = sectionId →
            ¬ on_board (board (snd (deleteSection sectionId st))) (CardRow.id row)).
Proof.
  unfold deleteSection, bind, getProjectId, fetch.
  change (handle (DELETE_section (projectId_of (pathname st)) sectionId) (remote st))
    with (Api.delete_section (projectId_of (pathname st)) sectionId (remote st)).
  destruct (Api.delete_section _ _ _) as [[status []|status e] db1] eqn:Hdelete; [|done].
  set (st1 := mkStore db1 _ _ _ _ _).
  intros (status' & b & db2 & Hget & Hrevive)%refetch_resolved.
  apply get_board_cards in Hget as (board' & Hrevive' & Hcards & Hsections).
  rewrite Hrevive in Hrevive'. injection Hrevive' as <-.
  subst st1. simpl remote in *. split.
  - intros s Hs Hsid.
    destruct (proj1 (Hsections sectionId)) as (srow & Hsrow & _ & Hid); [by exists s|].
    revert Hdelete. unfold Api.delete_section. case_match; [|done]. case_match; [done|].
    intros [= _ <-]. rewrite delete_sections_sections in Hsrow.
    apply filter_elem in Hsrow as [_ Hkeep].
    apply negb_true_iff, bool_decide_eq_false in Hkeep. apply Hkeep.
    rewrite Hid. by left.
  - intros row Hrow Hsec (s & c & Hs & Hc & Hcid).
    destruct (proj1 (Hcards (Section.id s) c)) as (_ & row' & _ & _ & _ & Hrow' & _ & ->);
      [by exists s|]. simpl in Hcid.
    by eapply delete_section_deletes_cards.
Qed.

Lemma deleteSection_drops_section_and_cards_witness :
  (∀ s, s ∈ Board.sections (board (snd (deleteSection "id2" demo_store))) →
        Section.id s ≠ "id2")
  ∧ (∀ row, row ∈ Prisma.cards (remote demo_store) → CardRow.sectionId row = "id2" →
            ¬ on_board (board (snd (deleteSection "id2" demo_store))) (CardRow.id row)).
Proof.
  apply (deleteSection_drops_section_and_cards "id2" demo_store). vm_compute. reflexivity.
Defined.

(** X25.  A comment the create route accepted is listed by the comment
    list of its card: the list route then answers with success, changes
    nothing, and its list holds the very body the create route answered
    with, author included. *)
Theorem posted_comment_is_listed (jwt_verify : string → option string)
    (authorization : option string) (projectId cardId text : string)
    (db db1 : Prisma.t) (status : nat) (body : CommentJson.t) :
  CommentApi.post_comment jwt_verify authorization projectId cardId text db
  = (Success status body, db1) →
  ∃ comments, CommentApi.get_comments projectId cardId db1 = (Success 200 comments, db1)
              ∧ body ∈ comments.
Proof.
  intros (token & userId & _ & _ & Hnext)%authMiddleware_next. revert Hnext.
  destruct (negb (truthy text)); [done|].
  destruct (CommentApi.findCardInProject db projectId cardId) as [card|] eqn:Hcard; [|done].
  unfold CommentApi.create_comment.
  destruct (Prisma.mem _ (CommentRow.id <$> _)); [done|].
  destruct (Prisma.mem _ (UserLite.id <$> _)); [|done].
  intros [= _ <- <-].
  unfold CommentApi.get_comments.
  match goal with |- context [CommentApi.findCardInProject ?d projectId cardId] =>
    change (CommentApi.findCardInProject d projectId cardId)
      with (CommentApi.findCardInProject db projectId cardId) end.
  rewrite Hcard.
  eexists. split; [done|].
  apply find_some_elem in Hcard as [_ [Hid%bool_decide_eq_true _]%andb_prop].
  apply list_elem_of_fmap.
  exists (CommentRow.mk (Prisma.genId db (Prisma.tick db)) text
                        (Prisma.clock db (Prisma.tick db)) (CardRow.id card) userId).
  split; [reflexivity|]. apply array_sort_elem, filter_elem. split.
  - simpl. apply elem_of_app. right. by apply list_elem_of_singleton.
  - by apply bool_decide_eq_true.
Qed.

Lemma posted_comment_is_listed_witness :
  ∃ comments, CommentApi.get_comments "id0" "id5" demo_db_comment
              = (Success 200 comments, demo_db_comment)
              ∧ CommentJson.mk "id6" "Looks good" (Some 1006)
                  (Some (UserLite.mk "u1" "Alice" "alice@example.org")) ∈ comments.
Proof.
  apply (posted_comment_is_listed demo_verify (Some "Bearer alice-token") "id0" "id5"
           "Looks good" demo_db_users demo_db_comment 201).
  vm_compute. reflexivity.
Defined.

(** X26.  A section added through the store goes last, is deletable and
    empty: when [addSection] resolves, the board is the old one followed
    by one section with the identifier the server drew, the title of the
    request, which is not empty, and no cards; exclusive membership of the
    cards carries over. *)
Theorem addSection_appends_empty_section (title : string) (st : Store Prisma.t) :
  fst (addSection title st) = Resolved () →
  truthy title = true
  ∧ Board.sections (board (snd (addSection title st)))
    = (Board.sections (board st) ++ [Section.mk (next_id (remote st)) title [] true])%list
  ∧ (exclusive (board st) → exclusive (board (snd (addSection title st)))).
Proof.
  unfold addSection, bind, getProjectId, fetch.
  change (handle (POST_sections (projectId_of (pathname st)) title) (remote st))
    with (Api.post_sections (projectId_of (pathname st)) title (remote st)).
  destruct (Api.post_sections _ _ _) as [[status section|status e] db1] eqn:Hpost; [|done].
  intros _. revert Hpost. unfold Api.post_sections.
  destruct (truthy title); [|done]. simpl negb. cbv iota.
  destruct (List.find _ _); [|done]. destruct (Prisma.create_section _ _); [|done].
  intros [= _ <- _]. split; [done|]. split; [done|].
  rewrite !exclusive_at_most_one. intros Hex cardId. specialize (Hex cardId).
  unfold holders in *. simpl. rewrite List.filter_app, length_app. simpl. lia.
Qed.

Lemma addSection_appends_empty_section_witness :
  truthy "Later" = true
  ∧ Board.sections (board (snd (addSection "Later" demo_store)))
    = (Board.sections (board demo_store)
       ++ [Section.mk (next_id (remote demo_store)) "Later" [] true])%list
  ∧ (exclusive (board demo_store) → exclusive (board (snd (addSection "Later" demo_store)))).
Proof.
  apply (addSection_appends_empty_section "Later" demo_store). vm_compute. reflexivity.
Defined.
